(** * raster_loader.io: record codec, reprojection and chunked upload

    A shallow embedding of [src/raster_loader/io.py].  Python dictionaries
    are finite maps from strings to Python values, exceptions are an error
    monad, in-place mutation goes through an explicit object store, and calls
    into external libraries (rasterio, pyproj, json, BigQuery, tqdm) are
    either parameters of the development or events appended to a trace. *)

From Stdlib Require Import ZArith Floats Ascii String.
From Stdlib Require Strings.Byte.
From stdpp Require Import gmap strings list pretty.

Local Open Scope Z_scope.

(** ** Exceptions and the error monad *)

(** The exceptions the module can raise, one constructor per raise site or
    per library failure that the code lets through. *)
Inductive exn : Type :=
| KeyError (key : string)            (* dict lookup of a missing key *)
| IndexError                         (* [][-1] *)
| UnpackError (n : nat)              (* ValueError: height, width = arr.shape *)
| OverflowError                      (* int too large to convert to float *)
| InvalidDtype (token : string)      (* TypeError("Invalid dtype: ...") *)
| BufferSizeError (len itemsize : Z) (* ValueError of np.frombuffer *)
| ReshapeError (size : Z) (shape : list Z) (* ValueError of ndarray.reshape *)
| TypeError                          (* any other TypeError of a library *)
| AttributeError                     (* e.g. [.split] on a non-string *)
| JSONDecodeError                    (* json.loads on malformed text *)
| MissingCRS                         (* ValueError("Unable to find valid input_crs.") *)
| ImportError (lib : string)         (* import_rasterio / import_bigquery *)
| RasterioIOError                    (* rasterio.open / read failures *)
| CRSError.                          (* CRS parsing or projection failures *)

Inductive result (A : Type) : Type :=
| Ok (a : A)
| Raise (e : exn).
Arguments Ok {A} a.
Arguments Raise {A} e.

Global Instance result_ret : MRet result := @Ok.
Global Instance result_bind : MBind result := λ A B f m,
  match m with
  | Ok a => f a
  | Raise e => Raise e
  end.

Definition is_ok {A} (r : result A) : bool :=
  match r with Ok _ => true | Raise _ => false end.


(** ** Strings: [str.split], [str.join], [str.upper] *)

(** [s.split(sep)] for a one-character separator. *)
Fixpoint split (sep : ascii) (s : string) : list string :=
  match s with
  | EmptyString => [EmptyString]
  | String c s' =>
      if Ascii.eqb c sep then EmptyString :: split sep s'
      else match split sep s' with
           | [] => [String c EmptyString]
           | tok :: toks => String c tok :: toks
           end
  end.

(** [sep.join(l)]. *)
Fixpoint join (sep : string) (l : list string) : string :=
  match l with
  | [] => EmptyString
  | [s] => s
  | s :: l' => s +:+ sep +:+ join sep l'
  end.

(** [l[-1]]. *)
Definition getitem_last {A} (l : list A) : result A :=
  match last l with
  | Some a => Ok a
  | None => Raise IndexError
  end.

(** Upper-casing of ASCII text: the letters a-z are mapped to A-Z and every
    other byte is kept.  This is what [str.upper] does on ASCII strings;
    Python's own [str.upper] is Unicode-aware (it maps the long s to "S",
    for one), so the code's call is the [str_upper] of the externals below
    and only the sample worlds take this restriction for it. *)
Definition upper_ascii (c : ascii) : ascii :=
  let n := nat_of_ascii c in
  if ((97 <=? n)%nat && (n <=? 122)%nat)%bool then ascii_of_nat (n - 32) else c.

Fixpoint upper (s : string) : string :=
  match s with
  | EmptyString => EmptyString
  | String c s' => String (upper_ascii c) (upper s')
  end.

(** ASCII text: every byte is below 128. *)
Definition is_ascii (s : string) : bool :=
  forallb (λ c, (nat_of_ascii c <? 128)%nat) (list_ascii_of_string s).

(** ** numpy: dtypes and arrays *)

(** The fixed-width numeric dtypes. *)
Inductive dtype : Type :=
| bool_ | int8 | int16 | int32 | int64
| uint8 | uint16 | uint32 | uint64
| float16 | float32 | float64
| complex64 | complex128.

Global Instance dtype_eq_dec : EqDecision dtype.
Proof. solve_decision. Defined.

Definition all_dtypes : list dtype :=
  [bool_; int8; int16; int32; int64; uint8; uint16; uint32; uint64;
   float16; float32; float64; complex64; complex128].

(** [str(arr.dtype)]. *)
Definition dtype_str (d : dtype) : string :=
  match d with
  | bool_ => "bool"
  | int8 => "int8" | int16 => "int16" | int32 => "int32" | int64 => "int64"
  | uint8 => "uint8" | uint16 => "uint16" | uint32 => "uint32"
  | uint64 => "uint64"
  | float16 => "float16" | float32 => "float32" | float64 => "float64"
  | complex64 => "complex64" | complex128 => "complex128"
  end.

(** [dtype.itemsize], in bytes. *)
Definition itemsize (d : dtype) : Z :=
  match d with
  | bool_ | int8 | uint8 => 1
  | int16 | uint16 | float16 => 2
  | int32 | uint32 | float32 => 4
  | int64 | uint64 | float64 | complex64 => 8
  | complex128 => 16
  end.

(** [np.dtype(token)] on the canonical names of the dtypes above; [None]
    stands for numpy's TypeError ("data type not understood").  numpy also
    accepts aliases and type codes such as "i2", "f" or "<f4", which this
    table does not know: the statements below rely on [Some] answers, and
    on [None] only for the keys of a record that numpy rejects as well
    ("attrs" and the coordinate keys). *)
Definition np_dtype (token : string) : option dtype :=
  List.find (λ d, String.eqb (dtype_str d) token) all_dtypes.

(** An array is its dtype, its shape and the raw bytes of its elements in
    row-major (C) order and native byte order: element [i] of the flattened
    array occupies bytes [i * itemsize .. (i+1) * itemsize - 1]. *)
Record ndarray : Type := mk_ndarray {
  arr_dtype : dtype;
  arr_shape : list Z;
  arr_buffer : list Byte.byte;
}.

Definition product (l : list Z) : Z := foldr Z.mul 1 l.

Definition len {A} (l : list A) : Z := Z.of_nat (length l).

(** numpy's own invariant: non-negative dimensions, and a buffer holding
    exactly [prod shape] items. *)
Definition ndarray_ok (a : ndarray) : bool :=
  forallb (λ n, 0 <=? n) (arr_shape a)
  && (len (arr_buffer a) =? product (arr_shape a) * itemsize (arr_dtype a)).

Definition wf_ndarray (a : ndarray) : Prop := ndarray_ok a = true.

(** [arr.tobytes()]. *)
Definition tobytes (a : ndarray) : list Byte.byte := arr_buffer a.

(** [arr.size]. *)
Definition arr_size (a : ndarray) : Z := product (arr_shape a).

(** The bytes of element [(i, j)] of a 2-D array. *)
Definition getitem2 (a : ndarray) (i j : Z) : option (list Byte.byte) :=
  match arr_shape a with
  | [h; w] =>
      if (0 <=? i) && (i <? h) && (0 <=? j) && (j <? w) then
        let sz := Z.to_nat (itemsize (arr_dtype a)) in
        Some (take sz (drop (Z.to_nat (i * w + j) * sz)%nat (arr_buffer a)))
      else None
  | _ => None
  end.

(** [np.frombuffer(buf, dtype=d)]: a flat array over the whole buffer. *)
Definition frombuffer (buf : list Byte.byte) (d : dtype) : result ndarray :=
  if len buf mod itemsize d =? 0 then
    Ok {| arr_dtype := d; arr_shape := [len buf / itemsize d];
          arr_buffer := buf |}
  else Raise (BufferSizeError (len buf) (itemsize d)).


(** [arr.reshape((h, w))].  A negative entry is numpy's "unknown
    dimension": at most one is allowed and it is inferred from the size.
    The dimensions are taken within [npy_intp_max]: a statement that lets
    them range over the integers bounds them. *)
Definition reshape2 (a : ndarray) (h w : Z) : result ndarray :=
  let size := arr_size a in
  let fail := Raise (ReshapeError size [h; w]) in
  let ok (h' w' : Z) :=
    Ok {| arr_dtype := arr_dtype a; arr_shape := [h'; w'];
          arr_buffer := arr_buffer a |} in
  match h <? 0, w <? 0 with
  | true, true => fail
  | true, false =>
      if (w =? 0) || negb (size mod w =? 0) then fail else ok (size / w) w
  | false, true =>
      if (h =? 0) || negb (size mod h =? 0) then fail else ok h (size / h)
  | false, false => if size =? h * w then ok h w else fail
  end.

(** ** affine: the geotransform *)

(** [Affine(a, b, c, d, e, f)]: x' = a x + b y + c, y' = d x + e y + f. *)
Record Affine : Type := mk_Affine {
  aff_a : float; aff_b : float; aff_c : float;
  aff_d : float; aff_e : float; aff_f : float;
}.

Definition Affine_identity : Affine := mk_Affine 1 0 0 0 1 0.

(** The conversion Python applies to an int operand of a float product:
    correctly rounded, OverflowError when the result would be infinite. *)
Definition float_of_int (z : Z) : result float :=
  let x := SF2Prim (binary_normalize prec emax z 0 false) in
  if PrimFloat.is_infinity x then Raise OverflowError else Ok x.

(** [geotransform * (vx, vy)] for integer pixel coordinates. *)
Definition affine_mul (t : Affine) (p : Z * Z) : result (float * float) :=
  vx ← float_of_int p.1;
  vy ← float_of_int p.2;
  Ok ((vx * aff_a t + vy * aff_b t + aff_c t)%float,
      (vx * aff_d t + vy * aff_e t + aff_f t)%float).

(** [geotransform.to_gdal()]. *)
Definition to_gdal (t : Affine) : list float :=
  [aff_c t; aff_a t; aff_b t; aff_f t; aff_d t; aff_e t].

(** ** Python values, dictionaries and JSON *)

Inductive pyval : Type :=
| VNone
| VInt (z : Z)
| VFloat (x : float)
| VStr (s : string)
| VBytes (b : list Byte.byte).

(** A record is a [dict] with string keys. *)
Abbreviation dict := (gmap string pyval).

(** A dict display [{k1: v1, ..., kn: vn}]: entries are stored left to
    right, so a repeated key keeps its last value. *)
Definition dict_of (kvs : list (string * pyval)) : dict :=
  foldl (λ m kv, <[kv.1 := kv.2]> m) ∅ kvs.

(** [record[key]]. *)
Definition getitem (record : dict) (key : string) : result pyval :=
  match record !! key with
  | Some v => Ok v
  | None => Raise (KeyError key)
  end.

(** The values [json.loads] returns and [json.dumps] accepts; a float is
    kept as the number it denotes. *)
#[warnings="-register-all"]
Inductive json : Type :=
| JNull
| JBool (b : bool)
| JInt (z : Z)
| JFloat (x : spec_float)
| JStr (s : string)
| JArr (l : list json)
| JObj (kvs : list (string * json)).

(** [obj[key]] on a loaded JSON value: only objects can be indexed by a
    string, and a key that occurs twice in the text keeps its last value. *)
Definition json_getitem (j : json) (key : string) : result json :=
  match j with
  | JObj kvs =>
      match List.find (λ kv, String.eqb kv.1 key) (rev kvs) with
      | Some kv => Ok kv.2
      | None => Raise (KeyError key)
      end
  | _ => Raise TypeError
  end.

(** The [json] module: a printer and a parser. *)
Record json_codec : Type := mk_json_codec {
  json_dumps : json → string;
  json_loads : string → option json;
}.

(** The values that come from Python dictionaries: no object has the
    same key twice. *)
Fixpoint json_distinct_keys (j : json) : bool :=
  match j with
  | JArr l => forallb json_distinct_keys l
  | JObj kvs =>
      bool_decide (NoDup kvs.*1)
      && forallb (λ kv, json_distinct_keys kv.2) kvs
  | _ => true
  end.

(** What the code relies on: a printed value parses back to itself. *)
Definition json_lawful (J : json_codec) : Prop :=
  ∀ j, json_distinct_keys j = true → json_loads J (json_dumps J j) = Some j.

(** ** A reference instance of the JSON interface

    A small self-delimiting text format for [json] values.  It is not the
    concrete syntax of JSON; it is one printer and parser pair that meets
    [json_lawful], used to run the development on concrete inputs. *)

Fixpoint print_pos (p : positive) (k : string) : string :=
  match p with
  | xH => String "." k
  | xO p => String "0" (print_pos p k)
  | xI p => String "1" (print_pos p k)
  end.

Fixpoint parse_pos (s : string) : option (positive * string) :=
  match s with
  | String "." r => Some (xH, r)
  | String "0" r => '(p, r') ← parse_pos r; Some (xO p, r')
  | String "1" r => '(p, r') ← parse_pos r; Some (xI p, r')
  | _ => None
  end.

Definition print_Z (z : Z) (k : string) : string :=
  match z with
  | Z0 => String "z" k
  | Zpos p => String "+" (print_pos p k)
  | Zneg p => String "-" (print_pos p k)
  end.

Definition parse_Z (s : string) : option (Z * string) :=
  match s with
  | String "z" r => Some (Z0, r)
  | String "+" r => '(p, r') ← parse_pos r; Some (Zpos p, r')
  | String "-" r => '(p, r') ← parse_pos r; Some (Zneg p, r')
  | _ => None
  end.

Definition print_bool (b : bool) (k : string) : string :=
  String (if b then "t" else "f") k.

Definition parse_bool (s : string) : option (bool * string) :=
  match s with
  | String "t" r => Some (true, r)
  | String "f" r => Some (false, r)
  | _ => None
  end.

(** The first [n] characters of [s], and what follows them. *)
Fixpoint take_chars (n : nat) (s : string) : option (string * string) :=
  match n, s with
  | O, _ => Some (EmptyString, s)
  | S n, String c r => '(t, r') ← take_chars n r; Some (String c t, r')
  | S _, EmptyString => None
  end.

Definition print_str (s : string) (k : string) : string :=
  print_Z (Z.of_nat (String.length s)) (s +:+ k).

Definition parse_str (s : string) : option (string * string) :=
  '(n, r) ← parse_Z s; take_chars (Z.to_nat n) r.

Definition print_float (x : spec_float) (k : string) : string :=
  match x with
  | S754_zero s => String "o" (print_bool s k)
  | S754_infinity s => String "i" (print_bool s k)
  | S754_nan => String "n" k
  | S754_finite s m e => String "x" (print_bool s (print_pos m (print_Z e k)))
  end.

Definition parse_float (s : string) : option (spec_float * string) :=
  match s with
  | String "o" r => '(b, r') ← parse_bool r; Some (S754_zero b, r')
  | String "i" r => '(b, r') ← parse_bool r; Some (S754_infinity b, r')
  | String "n" r => Some (S754_nan, r)
  | String "x" r =>
      '(b, r1) ← parse_bool r;
      '(m, r2) ← parse_pos r1;
      '(e, r3) ← parse_Z r2;
      Some (S754_finite b m e, r3)
  | _ => None
  end.

Definition print_items (print : json → string → string)
    : list json → string → string :=
  fix go l k :=
    match l with
    | [] => String "]" k
    | j :: l' => String "," (print j (go l' k))
    end.

Definition print_members (print : json → string → string)
    : list (string * json) → string → string :=
  fix go kvs k :=
    match kvs with
    | [] => String "}" k
    | kv :: kvs' => String "," (print_str kv.1 (print kv.2 (go kvs' k)))
    end.

Fixpoint print_json (j : json) (k : string) : string :=
  match j with
  | JNull => String "n" k
  | JBool b => String "b" (print_bool b k)
  | JInt z => String "i" (print_Z z k)
  | JFloat x => String "d" (print_float x k)
  | JStr s => String "s" (print_str s k)
  | JArr l => String "[" (print_items print_json l k)
  | JObj kvs => String "{" (print_members print_json kvs k)
  end.

Fixpoint parse_json (fuel : nat) (s : string) : option (json * string) :=
  match fuel with
  | O => None
  | S fuel =>
      match s with
      | String "n" r => Some (JNull, r)
      | String "b" r => '(b, r') ← parse_bool r; Some (JBool b, r')
      | String "i" r => '(z, r') ← parse_Z r; Some (JInt z, r')
      | String "d" r => '(x, r') ← parse_float r; Some (JFloat x, r')
      | String "s" r => '(t, r') ← parse_str r; Some (JStr t, r')
      | String "[" r => '(l, r') ← parse_items fuel r; Some (JArr l, r')
      | String "{" r => '(kvs, r') ← parse_members fuel r; Some (JObj kvs, r')
      | _ => None
      end
  end
with parse_items (fuel : nat) (s : string) : option (list json * string) :=
  match fuel with
  | O => None
  | S fuel =>
      match s with
      | String "]" r => Some ([], r)
      | String "," r =>
          '(j, r1) ← parse_json fuel r;
          '(l, r2) ← parse_items fuel r1;
          Some (j :: l, r2)
      | _ => None
      end
  end
with parse_members (fuel : nat) (s : string)
    : option (list (string * json) * string) :=
  match fuel with
  | O => None
  | S fuel =>
      match s with
      | String "}" r => Some ([], r)
      | String "," r =>
          '(key, r1) ← parse_str r;
          '(j, r2) ← parse_json fuel r1;
          '(kvs, r3) ← parse_members fuel r2;
          Some ((key, j) :: kvs, r3)
      | _ => None
      end
  end.

Definition ref_dumps (j : json) : string := print_json j EmptyString.

Definition ref_loads (s : string) : option json :=
  match parse_json (String.length s) s with
  | Some (j, EmptyString) => Some j
  | _ => None
  end.

Definition ref_json : json_codec := mk_json_codec ref_dumps ref_loads.

(** The size of a value: one per node, list cell and list end. *)
Definition size_items (size : json → nat) : list json → nat :=
  fix go l :=
    match l with
    | [] => 1%nat
    | j :: l' => S (size j + go l')
    end.

Definition size_members (size : json → nat) : list (string * json) → nat :=
  fix go kvs :=
    match kvs with
    | [] => 1%nat
    | kv :: kvs' => S (size kv.2 + go kvs')
    end.

Fixpoint json_size (j : json) : nat :=
  match j with
  | JArr l => S (size_items json_size l)
  | JObj kvs => S (size_members json_size kvs)
  | _ => 1
  end.

(** Induction on [json] values, with the nested lists taken along. *)
Section json_induction.

Variable P : json → Prop.
Hypothesis Hnull : P JNull.
Hypothesis Hbool : ∀ b, P (JBool b).
Hypothesis Hint : ∀ z, P (JInt z).
Hypothesis Hfloat : ∀ x, P (JFloat x).
Hypothesis Hstr : ∀ s, P (JStr s).
Hypothesis Harr : ∀ l, Forall P l → P (JArr l).
Hypothesis Hobj : ∀ kvs, Forall (λ kv, P kv.2) kvs → P (JObj kvs).

Fixpoint json_nested_ind (j : json) : P j :=
  match j with
  | JNull => Hnull
  | JBool b => Hbool b
  | JInt z => Hint z
  | JFloat x => Hfloat x
  | JStr s => Hstr s
  | JArr l =>
      Harr l ((fix go l : Forall P l :=
                 match l with
                 | [] => @List.Forall_nil _ _
                 | j :: l' => @List.Forall_cons _ _ j l' (json_nested_ind j) (go l')
                 end) l)
  | JObj kvs =>
      Hobj kvs ((fix go kvs : Forall (λ kv, P kv.2) kvs :=
                   match kvs with
                   | [] => @List.Forall_nil _ _
                   | kv :: kvs' =>
                       @List.Forall_cons _ _ kv kvs' (json_nested_ind kv.2) (go kvs')
                   end) kvs)
  end.

End json_induction.

(** ** The record codec *)

Section Codec.

Context (J : json_codec).

(** [height, width = arr.shape]. *)
Definition unpack_shape (shape : list Z) : result (Z * Z) :=
  match shape with
  | [height; width] => Ok (height, width)
  | _ => Raise (UnpackError (length shape))
  end.

(** The [attrs] dictionary of [array_to_record], as the JSON value that
    [json.dumps] receives; [value_field] is the already suffixed name. *)
Definition record_attrs (geotransform : Affine) (row_off col_off : Z)
    (value_field dtype_str crs : string) (band : Z) : json :=
  JObj [("band", JInt band);
        ("value_field", JStr value_field);
        ("dtype", JStr dtype_str);
        ("crs", JStr crs);
        ("gdal_transform", JArr (JFloat ∘ Prim2SF <$> to_gdal geotransform));
        ("row_off", JInt row_off);
        ("col_off", JInt col_off)].

Definition array_to_record (arr : ndarray) (geotransform : Affine)
    (row_off col_off : Z) (value_field crs : string) (band : Z)
    : result dict :=
  '(height, width) ← unpack_shape (arr_shape arr);
  '(lon_NW, lat_NW) ← affine_mul geotransform (col_off, row_off);
  '(lon_NE, lat_NE) ← affine_mul geotransform (col_off + width, row_off);
  '(lon_SE, lat_SE) ←
    affine_mul geotransform (col_off + width, row_off + height);
  '(lon_SW, lat_SW) ← affine_mul geotransform (col_off, row_off + height);
  (* required to append dtype to value field name for storage *)
  let dtype_str := dtype_str (arr_dtype arr) in
  let value_field := join "_" [value_field; dtype_str] in
  let attrs :=
    record_attrs geotransform row_off col_off value_field dtype_str crs band in
  let record := dict_of [
    ("lat_NW", VFloat lat_NW);
    ("lon_NW", VFloat lon_NW);
    ("lat_NE", VFloat lat_NE);
    ("lon_NE", VFloat lon_NE);
    ("lat_SE", VFloat lat_SE);
    ("lon_SE", VFloat lon_SE);
    ("lat_SW", VFloat lat_SW);
    ("lon_SW", VFloat lon_SW);
    ("block_height", VInt height);
    ("block_width", VInt width);
    ("attrs", VStr (json_dumps J attrs));
    (value_field, VBytes (tobytes arr))
  ] in
  Ok record.

(** The call with every optional argument left at its default. *)
Definition array_to_record_default (arr : ndarray) (geotransform : Affine)
    : result dict :=
  array_to_record arr geotransform 0 0 "band_1" "EPSG:4326" 1.

(** [json.loads(v)]: text (or UTF-8 bytes) is parsed, anything else is a
    TypeError. *)
Definition loads (v : pyval) : result json :=
  match v with
  | VStr s =>
      match json_loads J s with
      | Some j => Ok j
      | None => Raise JSONDecodeError
      end
  | VBytes b =>
      match json_loads J (string_of_list_byte b) with
      | Some j => Ok j
      | None => Raise JSONDecodeError
      end
  | _ => Raise TypeError
  end.

(** [json.loads(record["attrs"])["value_field"]], which must be a string
    for the [.split] that follows. *)
Definition attrs_value_field (record : dict) : result string :=
  attrs ← getitem record "attrs";
  j ← loads attrs;
  v ← json_getitem j "value_field";
  match v with
  | JStr s => Ok s
  | _ => Raise AttributeError
  end.

(** The arguments numpy accepts as one dimension of a shape. *)
Definition as_index (v : pyval) : result Z :=
  match v with
  | VInt z => Ok z
  | _ => Raise TypeError
  end.

(** The arguments numpy accepts as a buffer. *)
Definition as_buffer (v : pyval) : result (list Byte.byte) :=
  match v with
  | VBytes b => Ok b
  | _ => Raise TypeError
  end.

(** Convert a record to a numpy array. *)
Definition record_to_array (record : dict) (value_field : option string)
    : result ndarray :=
  value_field ←
    match value_field with
    | None => attrs_value_field record
    | Some f => Ok f
    end;
  (* determine dtype *)
  dtype_str ← getitem_last (split "_" value_field);
  dtype ←
    match np_dtype dtype_str with
    | Some d => Ok d
    | None => Raise (InvalidDtype dtype_str)
    end;
  (* determine shape *)
  block_height ← getitem record "block_height";
  block_width ← getitem record "block_width";
  payload ← getitem record value_field;
  buf ← as_buffer payload;
  arr ← frombuffer buf dtype;
  h ← as_index block_height;
  w ← as_index block_width;
  reshape2 arr h w.

End Codec.

(** The eleven keys every record has. *)
Definition fixed_keys : list string :=
  ["lat_NW"; "lon_NW"; "lat_NE"; "lon_NE"; "lat_SE"; "lon_SE";
   "lat_SW"; "lon_SW"; "block_height"; "block_width"; "attrs"].

(** The eight keys of the corner coordinates. *)
Definition coord_keys : list string :=
  ["lon_NW"; "lat_NW"; "lon_NE"; "lat_NE";
   "lon_SW"; "lat_SW"; "lon_SE"; "lat_SE"].

(** ** Sample inputs *)

(** An [h] x [w] block of zeros of dtype [d]. *)
Definition zeros (d : dtype) (h w : Z) : ndarray :=
  {| arr_dtype := d; arr_shape := [h; w];
     arr_buffer := replicate (Z.to_nat (h * w * itemsize d)) Byte.x00 |}.

(** ** The outside world *)

(** A block window of a raster: [Window(col_off, row_off, width, height)]. *)
Record raster_window : Type := mk_window {
  win_col_off : Z;
  win_row_off : Z;
  win_width : Z;
  win_height : Z;
}.

(** What the module uses of an opened rasterio dataset.  [ds_crs] is the
    outcome of [raster_dataset.crs.to_string()]: for a raster without a CRS
    rasterio has [crs = None], and the call is an AttributeError. *)
Record raster_dataset : Type := mk_dataset {
  ds_crs : result string;                   (* [crs.to_string()] *)
  ds_transform : Affine;                    (* [transform] *)
  ds_block_windows : list raster_window;    (* [block_windows()] *)
  ds_read : Z → raster_window → result ndarray; (* [read(band, window=w)] *)
}.

(** The libraries the module calls into, and the interpreter's
    [str.upper].  Their functions are deterministic; a failure of theirs is
    an exception of the call. *)
Record externals : Type := mk_externals {
  str_upper : string → string;              (* [s.upper()] *)
  rasterio_installed : bool;
  bigquery_installed : bool;
  rasterio_open : string → result raster_dataset;
  CRS : Type;
  CRS_from_string : string → result CRS;
  Transformer : Type;
  Transformer_from_crs : CRS → CRS → result Transformer;
  Transformer_transform :
    Transformer → pyval → pyval → result (pyval * pyval);
}.

(** The calls that leave the process. *)
Inductive event : Type :=
| EvPrint (msg : string)
| EvOpen (file_path : string)
| EvCRS (crs : string)
| EvTransform (x y : pyval)
| EvLoadTable (table : string) (rows : list dict)
| EvProgressTotal (total : Z)
| EvProgressUpdate (n : Z).

(** References to dictionaries: records are mutated in place. *)
Abbreviation loc := nat (only parsing).

Record world : Type := mk_world {
  heap : list dict;
  trace : list event;
}.

(** Computations that read and write the world and may raise; what was
    done before an exception stays done. *)
Definition M (A : Type) : Type := world → result A * world.

Global Instance M_ret : MRet M := λ A a w, (Ok a, w).
Global Instance M_bind : MBind M := λ A B f m w,
  match m w with
  | (Ok a, w') => f a w'
  | (Raise e, w') => (Raise e, w')
  end.

Definition lift {A} (r : result A) : M A := λ w, (r, w).

Definition emit (ev : event) : M () :=
  λ w, (Ok (), mk_world (heap w) (trace w ++ [ev])).

(** A new dictionary object. *)
Definition alloc (d : dict) : M loc :=
  λ w, (Ok (length (heap w)), mk_world (heap w ++ [d]) (trace w)).

Definition deref (w : world) (l : loc) : dict := default ∅ (heap w !! l).

(** [record[key]] through a reference. *)
Definition getitem_ref (record : loc) (key : string) : M pyval :=
  λ w, (getitem (deref w record) key, w).

(** [record[key] = v] through a reference. *)
Definition setitem (record : loc) (key : string) (v : pyval) : M () :=
  λ w, (Ok (), mk_world (alter (insert key v) record (heap w)) (trace w)).

(** [for a in l: body(a)]. *)
Fixpoint for_each {A} (l : list A) (body : A → M ()) : M () :=
  match l with
  | [] => mret ()
  | a :: l' => body a;; for_each l' body
  end.

(** A generator: running it up to its loop gives the suspended iterations,
    each of which runs the loop body up to its [yield]. *)
Abbreviation generator A := (M (list (M A))).

(** [for a in gen: s = body(s, a)], the generator advancing one item at a
    time between two runs of the body. *)
Fixpoint for_items {A S} (items : list (M A)) (body : S → A → M S) (s : S)
    : M S :=
  match items with
  | [] => mret s
  | item :: items' => a ← item; s' ← body s a; for_items items' body s'
  end.

Definition for_gen {A S} (gen : generator A) (body : S → A → M S) (s : S)
    : M S :=
  items ← gen; for_items items body s.

(** [list(gen)]. *)
Definition drain {A} (gen : generator A) : M (list A) :=
  for_gen gen (λ acc a, mret (acc ++ [a])) [].

(** The load calls of a trace, oldest first. *)
Definition uploads (tr : list event) : list (list dict) :=
  omap (λ ev, match ev with EvLoadTable _ rows => Some rows | _ => None end)
       tr.

(** The calls into the projection engine in a trace. *)
Definition is_projection_call (ev : event) : bool :=
  match ev with
  | EvCRS _ | EvTransform _ _ => true
  | _ => false
  end.

Definition projection_calls (tr : list event) : list event :=
  List.filter is_projection_call tr.

(** ** Reprojection, the raster source and the upload *)

Section IO.

Context (E : externals) (J : json_codec).

Definition import_rasterio : M () :=
  if rasterio_installed E then mret () else lift (Raise (ImportError "rasterio")).

Definition import_bigquery : M () :=
  if bigquery_installed E then mret ()
  else lift (Raise (ImportError "google-cloud-bigquery")).

(** One iteration of the loop of [reproject_record]. *)
Definition reproject_corner (src_crs dst_crs : CRS E) (record : loc)
    (cols : string * string) : M () :=
  let '(lon_col, lat_col) := cols in
  transformer ← lift (Transformer_from_crs E src_crs dst_crs);
  lon ← getitem_ref record lon_col;
  lat ← getitem_ref record lat_col;
  emit (EvTransform lon lat);;
  '(x, y) ← lift (Transformer_transform E transformer lon lat);
  setitem record lon_col x;;
  setitem record lat_col y.

(** Inplace reproject the bounds (lon_NW, lat_NW, etc.) of a record. *)
Definition reproject_record (record : loc) (src_crs dst_crs : string)
    : M loc :=
  import_rasterio;;
  emit (EvCRS src_crs);;
  src_crs ← lift (CRS_from_string E src_crs);
  emit (EvCRS dst_crs);;
  dst_crs ← lift (CRS_from_string E dst_crs);
  for_each [("lon_NW", "lat_NW");
            ("lon_NE", "lat_NE");
            ("lon_SW", "lat_SW");
            ("lon_SE", "lat_SE")]
           (reproject_corner src_crs dst_crs record);;
  mret record.

(** The body of the loop of [rasterio_windows_to_records], up to [yield]. *)
Definition window_to_record (raster_dataset : raster_dataset) (band : Z)
    (input_crs : string) (window : raster_window) : M loc :=
  arr ← lift (ds_read raster_dataset band window);
  rec ← lift (array_to_record J arr (ds_transform raster_dataset)
                (win_row_off window) (win_col_off window)
                "band_1" input_crs band);
  rec ← alloc rec;
  if negb (String.eqb (str_upper E input_crs) "EPSG:4326")
  then reproject_record rec input_crs "EPSG:4326"
  else mret rec.

(** Open a raster file with rasterio. *)
Definition rasterio_windows_to_records (file_path : string) (band : Z)
    (input_crs : option string) : generator loc :=
  import_rasterio;;
  emit (EvOpen file_path);;
  raster_dataset ← lift (rasterio_open E file_path);
  raster_crs ← lift (ds_crs raster_dataset);
  input_crs ←
    match input_crs with
    | None => mret raster_crs
    | Some input_crs =>
        (if negb (String.eqb input_crs raster_crs)
         then emit (EvPrint ("WARNING: Input CRS(" +:+ input_crs
                             +:+ ") != raster CRS(" +:+ raster_crs +:+ ")."))
         else mret ());;
        mret input_crs
    end;
  if String.eqb input_crs EmptyString then lift (Raise MissingCRS)
  else
    mret (window_to_record raster_dataset band input_crs
          <$> ds_block_windows raster_dataset).

(** Write a record to a BigQuery table.  [records] is any iterable of
    records; the data frame is built from what the records hold when the
    call is made.  The client, given or created, is where the load call
    goes; the trace keeps the call. *)
Definition records_to_bigquery (records : M (list loc))
    (table_id dataset_id project_id : string) : M () :=
  import_bigquery;;
  records ← records;
  data_df ← (λ w, (Ok (deref w <$> records), w));
  emit (EvLoadTable (project_id +:+ "." +:+ dataset_id +:+ "." +:+ table_id)
                    data_df).

(** Get the number of blocks in a raster file. *)
Definition get_number_of_blocks (file_path : string) : M Z :=
  import_rasterio;;
  emit (EvOpen file_path);;
  raster_dataset ← lift (rasterio_open E file_path);
  mret (len (ds_block_windows raster_dataset)).

(** The body of the chunking loop: the buffer after one more record. *)
Definition chunk_step (table_id dataset_id project_id : string)
    (chunk_size : Z) (records : list loc) (record : loc) : M (list loc) :=
  let records := records ++ [record] in
  if len records >=? chunk_size then
    records_to_bigquery (mret records) table_id dataset_id project_id;;
    emit (EvProgressUpdate chunk_size);;
    mret []
  else mret records.

(** [if isinstance(input_crs, int): input_crs = "EPSG:{}".format(input_crs)]:
    the argument is [None], an EPSG code or a string. *)
Definition crs_argument (input_crs : option (Z + string)) : option string :=
  match input_crs with
  | Some (inl code) => Some ("EPSG:" +:+ pretty code)
  | Some (inr s) => Some s
  | None => None
  end.

(** Write a rasterio-compatible file to a BigQuery table. *)
Definition rasterio_to_bigquery (file_path table_id dataset_id project_id : string)
    (band : Z) (chunk_size : option Z) (input_crs : option (Z + string))
    : M bool :=
  let input_crs := crs_argument input_crs in
  emit (EvPrint "Loading raster file to BigQuery...");;
  let records_gen := rasterio_windows_to_records file_path band input_crs in
  match chunk_size with
  | None =>
      records_to_bigquery (drain records_gen) table_id dataset_id project_id
  | Some chunk_size =>
      total_blocks ← get_number_of_blocks file_path;
      emit (EvProgressTotal total_blocks);;
      records ←
        for_gen records_gen
                (chunk_step table_id dataset_id project_id chunk_size) [];
      if len records >? 0 then
        records_to_bigquery (mret records) table_id dataset_id project_id;;
        emit (EvProgressUpdate (len records))
      else mret ()
  end;;
  emit (EvPrint "Done.");;
  mret true.

End IO.

(** ** Notions used in the statements *)

(** Whatever world a computation starts in, the world it leaves is related
    to it by [R], also when it raises. *)
Definition respects {A} (R : relation world) (m : M A) : Prop :=
  ∀ w, R w (m w).2.

(** Every computation succeeds from every world. *)
Definition always_ok {A} (m : M A) : Prop :=
  ∀ w, is_ok (m w).1 = true.

(** The store of [w'] is the store of [w] except, possibly, for the
    coordinate entries of the record at [l]. *)
Definition only_coords_changed (l : loc) : relation world := λ w w',
  length (heap w') = length (heap w)
  ∧ (∀ l', l' ≠ l → heap w' !! l' = heap w !! l')
  ∧ (∀ d, heap w !! l = Some d →
       ∃ d', heap w' !! l = Some d'
             ∧ ∀ k, k ∉ coord_keys → d' !! k = d !! k).

(** The record at [l] has its eight coordinate entries. *)
Definition has_coords (l : loc) (w : world) : Prop :=
  ∀ k, k ∈ coord_keys → is_Some (deref w l !! k).

(** The trace of [w'] extends the trace of [w], by no load call. *)
Definition no_upload : relation world := λ w w',
  ∃ evs, trace w' = trace w ++ evs ∧ uploads evs = [].

(** The events a run from [w] to [w'] appended to the trace. *)
Definition new_events (w w' : world) : list event :=
  drop (length (trace w)) (trace w').

(** The CRS the record iteration works with: the caller's if there is one,
    the raster's otherwise. *)
Definition effective_crs (input_crs : option string) (raster_crs : string)
    : string :=
  default raster_crs input_crs.

(** ** A sample world

    A raster of five 2 x 3 uint8 blocks in EPSG:4326, and libraries that
    are installed and never fail; the projection swaps the two axes. *)

Definition demo_dataset : raster_dataset :=
  {| ds_crs := Ok "EPSG:4326";
     ds_transform := Affine_identity;
     ds_block_windows :=
       [mk_window 0 0 3 2; mk_window 3 0 3 2; mk_window 6 0 3 2;
        mk_window 0 2 3 2; mk_window 3 2 3 2];
     ds_read := λ band window,
       Ok (zeros uint8 (win_height window) (win_width window)) |}.

Definition demo_externals : externals :=
  {| str_upper := upper;
     rasterio_installed := true;
     bigquery_installed := true;
     rasterio_open := λ file_path, Ok demo_dataset;
     CRS := string;
     CRS_from_string := Ok;
     Transformer := string * string;
     Transformer_from_crs := λ src dst, Ok (src, dst);
     Transformer_transform := λ transformer x y, Ok (y, x) |}.

Definition empty_world : world := mk_world [] [].

(** The same raster without an embedded CRS: its [crs] is [None]. *)
Definition demo_dataset_no_crs : raster_dataset :=
  {| ds_crs := Raise AttributeError;
     ds_transform := ds_transform demo_dataset;
     ds_block_windows := ds_block_windows demo_dataset;
     ds_read := ds_read demo_dataset |}.

Definition demo_externals_no_crs : externals :=
  {| str_upper := upper;
     rasterio_installed := true;
     bigquery_installed := true;
     rasterio_open := λ file_path, Ok demo_dataset_no_crs;
     CRS := string;
     CRS_from_string := Ok;
     Transformer := string * string;
     Transformer_from_crs := λ src dst, Ok (src, dst);
     Transformer_transform := λ transformer x y, Ok (y, x) |}.

(** A world holding one record, in a projected CRS. *)
Definition demo_record : dict :=
  dict_of [("lat_NW", VFloat 0); ("lon_NW", VFloat 0);
           ("lat_NE", VFloat 0); ("lon_NE", VFloat 3);
           ("lat_SE", VFloat 2); ("lon_SE", VFloat 3);
           ("lat_SW", VFloat 2); ("lon_SW", VFloat 0);
           ("block_height", VInt 2); ("block_width", VInt 3);
           ("attrs", VStr "{}");
           ("band_1_uint8", VBytes (replicate 6 Byte.x00))].

Definition demo_world : world := mk_world [demo_record] [].

(** ** Further notions used in the statements *)

(** Two records that differ at most on the keys in [keys]. *)
Definition agree_outside (keys : list string) (d d' : dict) : Prop :=
  ∀ k, k ∉ keys → d' !! k = d !! k.

(** The record of a 2 x 3 block of uint8 zeros, encoded with the defaults. *)
Definition demo_encoded : dict :=
  match array_to_record_default ref_json (zeros uint8 2 3) Affine_identity with
  | Ok rec => rec
  | Raise _ => ∅
  end.

(** The corner columns in the order [reproject_record] visits them. *)
Definition corner_pairs : list (string * string) :=
  [("lon_NW", "lat_NW"); ("lon_NE", "lat_NE");
   ("lon_SW", "lat_SW"); ("lon_SE", "lat_SE")].

(** The loop of [reproject_record] as a function on the record: the outcome,
    the record as the loop leaves it (also when it stops early) and the
    points handed to the transformer. *)
Fixpoint reproject_dict (transform : pyval → pyval → result (pyval * pyval))
    (d : dict) (pairs : list (string * string))
    : result () * dict * list event :=
  match pairs with
  | [] => (Ok (), d, [])
  | (lon_col, lat_col) :: pairs' =>
      match d !! lon_col with
      | None => (Raise (KeyError lon_col), d, [])
      | Some lon =>
          match d !! lat_col with
          | None => (Raise (KeyError lat_col), d, [])
          | Some lat =>
              match transform lon lat with
              | Raise e => (Raise e, d, [EvTransform lon lat])
              | Ok (x, y) =>
                  let '(r, d', evs) :=
                    reproject_dict transform
                      (<[lat_col := y]> (<[lon_col := x]> d)) pairs' in
                  (r, d', EvTransform lon lat :: evs)
              end
          end
      end
  end.

(** The store of [w'] is the store of [w]. *)
Definition same_store : relation world := λ w w', heap w' = heap w.

(** [d !! k], with [None] where the key is missing. *)
Definition entry (d : dict) (k : string) : pyval := default VNone (d !! k).

(** [d] holds the block [arr]: it decodes to it, and its attributes name the
    CRS, the band and the two offsets of the block. *)
Definition holds_block (J : json_codec) (crs : string)
    (band row_off col_off : Z) (arr : ndarray) (d : dict) : Prop :=
  record_to_array J d None = Ok arr
  ∧ ∃ j, getitem d "attrs" ≫= loads J = Ok j
         ∧ json_getitem j "crs" = Ok (JStr crs)
         ∧ json_getitem j "band" = Ok (JInt band)
         ∧ json_getitem j "row_off" = Ok (JInt row_off)
         ∧ json_getitem j "col_off" = Ok (JInt col_off).

(** [d] holds the block that the raster gives at [win]. *)
Definition record_of_window (J : json_codec) (ds : raster_dataset) (band : Z)
    (crs : string) (win : raster_window) (d : dict) : Prop :=
  ∃ arr, ds_read ds band win = Ok arr
         ∧ holds_block J crs band (win_row_off win) (win_col_off win) arr d.

(** What the raster reads at its block windows are arrays as numpy makes
    them. *)
Definition reads_well_formed (ds : raster_dataset) (band : Z) : Prop :=
  ∀ win arr, win ∈ ds_block_windows ds → ds_read ds band win = Ok arr →
             wf_ndarray arr.

(** The progress bar: its totals and its updates, oldest first. *)
Definition progress_totals (tr : list event) : list Z :=
  omap (λ ev, match ev with EvProgressTotal n => Some n | _ => None end) tr.

Definition progress_updates (tr : list event) : list Z :=
  omap (λ ev, match ev with EvProgressUpdate n => Some n | _ => None end) tr.

Definition sum_list (l : list Z) : Z := foldr Z.add 0 l.

(** The trace of [w'] extends the trace of [w] by calls into the projection
    engine only. *)
Definition only_projection : relation world := λ w w',
  ∃ evs, trace w' = trace w ++ evs ∧ forallb is_projection_call evs = true.

(** ** More sample worlds *)

(** The sample libraries with a projection that moves no point. *)
Definition identity_externals : externals :=
  {| str_upper := upper;
     rasterio_installed := true;
     bigquery_installed := true;
     rasterio_open := λ file_path, Ok demo_dataset;
     CRS := string;
     CRS_from_string := Ok;
     Transformer := string * string;
     Transformer_from_crs := λ src dst, Ok (src, dst);
     Transformer_transform := λ transformer x y, Ok (x, y) |}.

(** A machine with neither library installed. *)
Definition offline_externals : externals :=
  {| str_upper := upper;
     rasterio_installed := false;
     bigquery_installed := false;
     rasterio_open := λ file_path, Raise RasterioIOError;
     CRS := string;
     CRS_from_string := λ s, Raise CRSError;
     Transformer := string * string;
     Transformer_from_crs := λ src dst, Ok (src, dst);
     Transformer_transform := λ transformer x y, Ok (x, y) |}.
(** ** Facts about strings and keys *)

Lemma split_nonempty sep s : split sep s ≠ [].
Proof.
  destruct s as [|c s]; simpl; [done|].
  destruct (Ascii.eqb c sep); [done|].
  by destruct (split sep s).
Qed.

(** Splitting distributes over a separator in the middle. *)
Lemma split_app_sep sep a b :
  split sep (a +:+ String sep b) = split sep a ++ split sep b.
Proof.
  induction a as [|c a IH]; simpl.
  - by rewrite Ascii.eqb_refl.
  - destruct (Ascii.eqb c sep); [by rewrite IH|].
    rewrite IH. pose proof (split_nonempty sep a).
    by destruct (split sep a).
Qed.

Lemma dtype_str_one_token d : split "_" (dtype_str d) = [dtype_str d].
Proof. by destruct d. Qed.

Lemma np_dtype_str d : np_dtype (dtype_str d) = Some d.
Proof. by destruct d. Qed.

Lemma join_pair sep a b : join sep [a; b] = a +:+ sep +:+ b.
Proof. done. Qed.

(** The dtype is recovered as the last underscore-delimited token of the
    suffixed field name, whatever the base name contains. *)
Lemma last_token_of_key f d :
  getitem_last (split "_" (join "_" [f; dtype_str d])) = Ok (dtype_str d).
Proof.
  rewrite join_pair. change ("_" +:+ dtype_str d) with (String "_" (dtype_str d)).
  rewrite split_app_sep, dtype_str_one_token.
  unfold getitem_last. by rewrite last_snoc.
Qed.

(** No suffixed field name collides with a fixed key: none of them ends in
    a dtype name. *)
Lemma key_not_fixed f d : join "_" [f; dtype_str d] ∉ fixed_keys.
Proof.
  intros Hin. pose proof (last_token_of_key f d) as Hlast.
  unfold fixed_keys in Hin.
  repeat (apply elem_of_cons in Hin as [Heq|Hin];
          [rewrite Heq in Hlast; by destruct d|]).
  by apply elem_of_nil in Hin.
Qed.

Lemma key_neq_fixed f d k :
  k ∈ fixed_keys → f +:+ "_" +:+ dtype_str d ≠ k.
Proof. intros Hk Heq. apply (key_not_fixed f d). by rewrite join_pair, Heq. Qed.

(** ** Integer pixel coordinates as floats *)

(** Beyond 2^53 the conversion rounds to the nearest float, ties to even. *)
Example float_of_int_rounds :
  float_of_int (2 ^ 53 + 1) = Ok 9007199254740992%float
  ∧ float_of_int (2 ^ 53 + 3) = Ok 9007199254740996%float.
Proof. split; reflexivity. Qed.

(** It raises where the nearest float would be infinite. *)
Example float_of_int_overflow :
  float_of_int (2 ^ 1024 - 2 ^ 970) = Raise OverflowError
  ∧ is_ok (float_of_int (2 ^ 1024 - 2 ^ 970 - 1)) = true.
Proof. split; vm_compute; reflexivity. Qed.

(** ** The reference codec is lawful *)

Lemma parse_print_pos p k : parse_pos (print_pos p k) = Some (p, k).
Proof. induction p as [p IH|p IH|]; simpl; by rewrite ?IH. Qed.

Lemma parse_print_Z z k : parse_Z (print_Z z k) = Some (z, k).
Proof. destruct z; simpl; by rewrite ?parse_print_pos. Qed.

Lemma parse_print_bool b k : parse_bool (print_bool b k) = Some (b, k).
Proof. by destruct b. Qed.

Lemma take_chars_app s k : take_chars (String.length s) (s +:+ k) = Some (s, k).
Proof.
  induction s as [|c s IH]; simpl; [by destruct k|]. by rewrite IH.
Qed.

Lemma parse_print_str s k : parse_str (print_str s k) = Some (s, k).
Proof.
  unfold parse_str, print_str. rewrite parse_print_Z. simpl.
  rewrite Nat2Z.id. apply take_chars_app.
Qed.

Lemma parse_print_float x k : parse_float (print_float x k) = Some (x, k).
Proof.
  destruct x as [[]|[]| |[] m e]; simpl; try done;
    rewrite parse_print_pos; simpl; by rewrite parse_print_Z.
Qed.

Lemma parse_print_json j :
  ∀ fuel k, (json_size j ≤ fuel)%nat →
    parse_json fuel (print_json j k) = Some (j, k).
Proof.
  induction j as [|b|z|x|s|l IH|kvs IH] using json_nested_ind;
    intros [|fuel] k Hfuel; simpl in Hfuel; try lia; simpl.
  - done.
  - by destruct b.
  - by rewrite parse_print_Z.
  - by rewrite parse_print_float.
  - by rewrite parse_print_str.
  - assert (parse_items fuel (print_items print_json l k) = Some (l, k))
      as ->; [|done].
    assert (size_items json_size l ≤ fuel)%nat as Hl by lia.
    clear Hfuel. revert fuel Hl.
    induction IH as [|j l Hj _ IHl]; intros [|fuel] Hl;
      simpl in Hl; try lia; simpl; [done|].
    rewrite Hj by lia. simpl. by rewrite IHl by lia.
  - assert (parse_members fuel (print_members print_json kvs k)
            = Some (kvs, k)) as ->; [|done].
    assert (size_members json_size kvs ≤ fuel)%nat as Hl by lia.
    clear Hfuel. revert fuel Hl.
    induction IH as [|[key j] kvs Hj _ IHl]; intros [|fuel] Hl;
      simpl in Hl; try lia; simpl; [done|].
    rewrite parse_print_str. simpl in *.
    rewrite Hj by lia. simpl. by rewrite IHl by lia.
Qed.

Lemma print_pos_length p k :
  (String.length k ≤ String.length (print_pos p k))%nat.
Proof. induction p; simpl; lia. Qed.

Lemma print_Z_length z k :
  (String.length k ≤ String.length (print_Z z k))%nat.
Proof. destruct z; simpl; [lia|..]; pose proof (print_pos_length p k); lia. Qed.

Lemma string_length_app s k :
  String.length (s +:+ k) = (String.length s + String.length k)%nat.
Proof. induction s; simpl; [done|]. by f_equal. Qed.

Lemma print_str_length s k :
  (String.length k ≤ String.length (print_str s k))%nat.
Proof.
  unfold print_str.
  pose proof (print_Z_length (Z.of_nat (String.length s)) (s +:+ k)).
  rewrite string_length_app in H. lia.
Qed.

Lemma print_float_length x k :
  (String.length k ≤ String.length (print_float x k))%nat.
Proof.
  destruct x as [s|s| |s m e]; simpl; try lia.
  pose proof (print_pos_length m (print_Z e k)).
  pose proof (print_Z_length e k). lia.
Qed.

(** Every unit of size is paid for by a printed character. *)
Lemma print_json_length j :
  ∀ k, (json_size j + String.length k ≤ String.length (print_json j k))%nat.
Proof.
  induction j as [|b|z|x|s|l IH|kvs IH] using json_nested_ind;
    intros k; simpl.
  - lia.
  - lia.
  - pose proof (print_Z_length z k). lia.
  - pose proof (print_float_length x k). lia.
  - pose proof (print_str_length s k). lia.
  - apply le_n_S.
    induction IH as [|j l Hj _ IHl]; simpl; [lia|].
    specialize (Hj (print_items print_json l k)). lia.
  - apply le_n_S.
    induction IH as [|[key j] kvs Hj _ IHl]; simpl; [lia|].
    specialize (Hj (print_members print_json kvs k)).
    pose proof (print_str_length key
                  (print_json j (print_members print_json kvs k))).
    simpl in *. lia.
Qed.

Lemma ref_json_lawful : json_lawful ref_json.
Proof.
  intros j _. simpl. unfold ref_loads, ref_dumps.
  rewrite parse_print_json; [done|].
  pose proof (print_json_length j EmptyString). lia.
Qed.

(** ** The record codec: what a produced record holds *)

Section CodecFacts.

Context (J : json_codec).

Lemma record_attrs_value_field t r c vf ds crs band :
  json_getitem (record_attrs t r c vf ds crs band) "value_field"
  = Ok (JStr vf).
Proof. reflexivity. Qed.

(** A successful call went through every step, and the record is the
    dictionary display of the source. *)
Lemma array_to_record_inv arr t r c f crs band rec :
  array_to_record J arr t r c f crs band = Ok rec →
  ∃ h w nw ne se sw,
    arr_shape arr = [h; w] ∧
    affine_mul t (c, r) = Ok nw ∧
    affine_mul t (c + w, r) = Ok ne ∧
    affine_mul t (c + w, r + h) = Ok se ∧
    affine_mul t (c, r + h) = Ok sw ∧
    rec = dict_of [
      ("lat_NW", VFloat nw.2); ("lon_NW", VFloat nw.1);
      ("lat_NE", VFloat ne.2); ("lon_NE", VFloat ne.1);
      ("lat_SE", VFloat se.2); ("lon_SE", VFloat se.1);
      ("lat_SW", VFloat sw.2); ("lon_SW", VFloat sw.1);
      ("block_height", VInt h); ("block_width", VInt w);
      ("attrs", VStr (json_dumps J
         (record_attrs t r c (join "_" [f; dtype_str (arr_dtype arr)])
            (dtype_str (arr_dtype arr)) crs band)));
      (join "_" [f; dtype_str (arr_dtype arr)], VBytes (tobytes arr))].
Proof.
  unfold array_to_record, unpack_shape. intros Hrec.
  destruct (arr_shape arr) as [|h [|w [|]]]; try discriminate.
  simpl in Hrec.
  destruct (affine_mul t (c, r)) as [[lon_NW lat_NW]|] eqn:Hnw;
    simpl in Hrec; [|discriminate].
  destruct (affine_mul t (c + w, r)) as [[lon_NE lat_NE]|] eqn:Hne;
    simpl in Hrec; [|discriminate].
  destruct (affine_mul t (c + w, r + h)) as [[lon_SE lat_SE]|] eqn:Hse;
    simpl in Hrec; [|discriminate].
  destruct (affine_mul t (c, r + h)) as [[lon_SW lat_SW]|] eqn:Hsw;
    simpl in Hrec; [|discriminate].
  injection Hrec as <-.
  by exists h, w, (lon_NW, lat_NW), (lon_NE, lat_NE), (lon_SE, lat_SE),
            (lon_SW, lat_SW).
Qed.

(** Conversely, the call succeeds as soon as the array is 2-D and the
    four corner products are defined. *)
Lemma array_to_record_total arr t r c f crs band h w :
  arr_shape arr = [h; w] →
  is_ok (affine_mul t (c, r)) = true →
  is_ok (affine_mul t (c + w, r)) = true →
  is_ok (affine_mul t (c + w, r + h)) = true →
  is_ok (affine_mul t (c, r + h)) = true →
  is_ok (array_to_record J arr t r c f crs band) = true.
Proof.
  unfold array_to_record. intros -> H1 H2 H3 H4. simpl.
  destruct (affine_mul t (c, r)) as [[]|]; [|done].
  destruct (affine_mul t (c + w, r)) as [[]|]; [|done].
  destruct (affine_mul t (c + w, r + h)) as [[]|]; [|done].
  by destruct (affine_mul t (c, r + h)) as [[]|].
Qed.

End CodecFacts.

(** Lookups in a record display: a fixed key sits under the payload key,
    which never hides it. *)
Ltac lookup_fixed :=
  unfold dict_of; simpl;
  rewrite lookup_insert_ne
    by (apply key_neq_fixed; unfold fixed_keys; set_solver);
  by simplify_map_eq.

Section CodecTheorems.

Context (J : json_codec).

(** C2: the corners of a produced record are the geotransform applied to
    the pixel-space points (c, r), (c+w, r), (c+w, r+h), (c, r+h) of the
    block, stored as (lon, lat) under NW, NE, SE, SW in that order. *)
Theorem array_to_record_corners arr t r c f crs band rec :
  array_to_record J arr t r c f crs band = Ok rec →
  ∃ h w nw ne se sw,
    arr_shape arr = [h; w] ∧
    affine_mul t (c, r) = Ok nw ∧
    affine_mul t (c + w, r) = Ok ne ∧
    affine_mul t (c + w, r + h) = Ok se ∧
    affine_mul t (c, r + h) = Ok sw ∧
    rec !! "lon_NW" = Some (VFloat nw.1) ∧
    rec !! "lat_NW" = Some (VFloat nw.2) ∧
    rec !! "lon_NE" = Some (VFloat ne.1) ∧
    rec !! "lat_NE" = Some (VFloat ne.2) ∧
    rec !! "lon_SE" = Some (VFloat se.1) ∧
    rec !! "lat_SE" = Some (VFloat se.2) ∧
    rec !! "lon_SW" = Some (VFloat sw.1) ∧
    rec !! "lat_SW" = Some (VFloat sw.2).
Proof.
  intros Hrec.
  apply array_to_record_inv in Hrec
    as (h & w & nw & ne & se & sw & Hshape & Hnw & Hne & Hse & Hsw & ->).
  exists h, w, nw, ne, se, sw.
  repeat split; try assumption; lookup_fixed.
Qed.

End CodecTheorems.

(** ** Decoding: how the payload is cut to shape *)

Lemma itemsize_pos d : 0 < itemsize d.
Proof. by destruct d. Qed.

Lemma frombuffer_reshape_ok buf d h w :
  0 ≤ h → 0 ≤ w → len buf = h * w * itemsize d →
  frombuffer buf d ≫= (λ a, reshape2 a h w) = Ok (mk_ndarray d [h; w] buf).
Proof.
  intros Hh Hw Hlen. pose proof (itemsize_pos d) as Hd.
  unfold frombuffer. rewrite Hlen, Z.mod_mul by lia. simpl.
  unfold reshape2, arr_size. simpl.
  rewrite Z.div_mul by lia.
  destruct (Z.ltb_spec h 0), (Z.ltb_spec w 0); try lia.
  by rewrite Z.mul_1_r, Z.eqb_refl.
Qed.


Section Decoding.

Context (J : json_codec).

(** With the field name in hand, decoding is the lookup of the three
    entries followed by [frombuffer] and [reshape]. *)
Lemma record_to_array_explicit (rec : dict) f tok d h w buf :
  getitem_last (split "_" f) = Ok tok →
  np_dtype tok = Some d →
  rec !! "block_height" = Some (VInt h) →
  rec !! "block_width" = Some (VInt w) →
  rec !! f = Some (VBytes buf) →
  record_to_array J rec (Some f)
  = frombuffer buf d ≫= (λ a, reshape2 a h w).
Proof.
  intros Htok Hd Hh Hw Hbuf. unfold record_to_array, getitem. simpl.
  rewrite Htok. simpl. rewrite Hd. simpl. rewrite Hh, Hw. simpl.
  rewrite Hbuf. simpl. by destruct (frombuffer buf d).
Qed.

(** Without a field name, the one stored in [attrs] is used. *)
Lemma record_to_array_default (rec : dict) f :
  attrs_value_field J rec = Ok f →
  record_to_array J rec None = record_to_array J rec (Some f).
Proof. intros Hf. unfold record_to_array. by rewrite Hf. Qed.

(** The spec's scenario, whatever the JSON codec: a 2 x 2 int16 record
    whose payload has only 3 bytes is rejected by [frombuffer]. *)
Example record_to_array_three_bytes :
  record_to_array J
    (dict_of [("block_height", VInt 2); ("block_width", VInt 2);
              ("band_1_int16", VBytes [Byte.x00; Byte.x01; Byte.x02])])
    (Some "band_1_int16")
  = Raise (BufferSizeError 3 2).
Proof. reflexivity. Qed.

(** What a produced record holds besides its corners. *)
Lemma array_to_record_entries arr t r c f crs band rec :
  array_to_record J arr t r c f crs band = Ok rec →
  ∃ h w,
    arr_shape arr = [h; w] ∧
    rec !! "block_height" = Some (VInt h) ∧
    rec !! "block_width" = Some (VInt w) ∧
    rec !! (f +:+ "_" +:+ dtype_str (arr_dtype arr))
    = Some (VBytes (tobytes arr)).
Proof.
  intros Hrec.
  apply array_to_record_inv in Hrec
    as (h & w & nw & ne & se & sw & Hshape & _ & _ & _ & _ & ->).
  exists h, w. split; [done|].
  split; [lookup_fixed|]. split; [lookup_fixed|].
  unfold dict_of; simpl; apply lookup_insert_eq.
Qed.

Hypothesis J_lawful : json_lawful J.

(** The field name stored in [attrs] reads back as it was written. *)
Lemma array_to_record_value_field arr t r c f crs band rec :
  array_to_record J arr t r c f crs band = Ok rec →
  attrs_value_field J rec = Ok (f +:+ "_" +:+ dtype_str (arr_dtype arr)).
Proof.
  intros Hrec.
  apply array_to_record_inv in Hrec
    as (h & w & nw & ne & se & sw & Hshape & _ & _ & _ & _ & ->).
  unfold attrs_value_field, getitem.
  assert (dict_of [
      ("lat_NW", VFloat nw.2); ("lon_NW", VFloat nw.1);
      ("lat_NE", VFloat ne.2); ("lon_NE", VFloat ne.1);
      ("lat_SE", VFloat se.2); ("lon_SE", VFloat se.1);
      ("lat_SW", VFloat sw.2); ("lon_SW", VFloat sw.1);
      ("block_height", VInt h); ("block_width", VInt w);
      ("attrs", VStr (json_dumps J
         (record_attrs t r c (join "_" [f; dtype_str (arr_dtype arr)])
            (dtype_str (arr_dtype arr)) crs band)));
      (join "_" [f; dtype_str (arr_dtype arr)], VBytes (tobytes arr))]
    !! "attrs" = Some (VStr (json_dumps J
         (record_attrs t r c (join "_" [f; dtype_str (arr_dtype arr)])
            (dtype_str (arr_dtype arr)) crs band)))) as -> by lookup_fixed.
  simpl. by rewrite J_lawful.
Qed.

(** On a produced record the decoder finds the payload through [attrs]
    and reads the dtype off the key: what is left is to cut the bytes of
    the block to its shape. *)
Lemma record_to_array_of_record arr t r c f crs band rec h w :
  array_to_record J arr t r c f crs band = Ok rec →
  arr_shape arr = [h; w] →
  record_to_array J rec None
  = frombuffer (tobytes arr) (arr_dtype arr) ≫= (λ a, reshape2 a h w).
Proof.
  intros Hrec Hshape.
  destruct (array_to_record_entries _ _ _ _ _ _ _ _ Hrec)
    as (h' & w' & Hshape' & Hh & Hw & Hbuf).
  rewrite Hshape in Hshape'. injection Hshape' as <- <-.
  rewrite (record_to_array_default _ _ (array_to_record_value_field
                                         _ _ _ _ _ _ _ _ Hrec)).
  apply (record_to_array_explicit rec
           (f +:+ "_" +:+ dtype_str (arr_dtype arr))
           (dtype_str (arr_dtype arr)) (arr_dtype arr) h w (tobytes arr)
           (last_token_of_key f _) (np_dtype_str _) Hh Hw Hbuf).
Qed.

(** A well-formed 2-D array has non-negative sides and a buffer of
    [h * w] items. *)
Lemma wf_ndarray_2d arr h w :
  wf_ndarray arr → arr_shape arr = [h; w] →
  0 ≤ h ∧ 0 ≤ w ∧ len (tobytes arr) = h * w * itemsize (arr_dtype arr).
Proof.
  unfold wf_ndarray, ndarray_ok, tobytes. intros Hwf Hshape.
  rewrite Hshape in Hwf. simpl in Hwf. lia.
Qed.

(** C1: decoding an encoded block, with the field name taken from the
    record itself, gives back the block: the same dtype, the same shape and
    the same bytes, so that every element [(i, j)] of the decoded array is
    the element [(i, j)] of the block. *)
Theorem record_to_array_array_to_record arr t r c f crs band rec :
  wf_ndarray arr →
  array_to_record J arr t r c f crs band = Ok rec →
  ∃ arr',
    record_to_array J rec None = Ok arr'
    ∧ arr_dtype arr' = arr_dtype arr
    ∧ arr_shape arr' = arr_shape arr
    ∧ (∀ i j, getitem2 arr' i j = getitem2 arr i j)
    ∧ arr' = arr.
Proof.
  intros Hwf Hrec.
  destruct (array_to_record_entries _ _ _ _ _ _ _ _ Hrec)
    as (h & w & Hshape & _).
  destruct (wf_ndarray_2d arr h w Hwf Hshape) as (Hh & Hw & Hlen).
  exists arr.
  rewrite (record_to_array_of_record _ _ _ _ _ _ _ _ h w Hrec Hshape).
  rewrite frombuffer_reshape_ok by done.
  split; [|done].
  destruct arr as [d shape buf]. simpl in *. by subst shape.
Qed.

(** C3, as the code has it: the [value_field] entry of [attrs] is the
    payload key itself, dtype suffix included, and the dtype name is the
    last underscore-delimited token of that key. *)
Theorem attrs_value_field_is_payload_key arr t r c f crs band rec :
  array_to_record J arr t r c f crs band = Ok rec →
  let key := f +:+ "_" +:+ dtype_str (arr_dtype arr) in
  attrs_value_field J rec = Ok key
  ∧ rec !! key = Some (VBytes (tobytes arr))
  ∧ getitem_last (split "_" key) = Ok (dtype_str (arr_dtype arr))
  ∧ np_dtype (dtype_str (arr_dtype arr)) = Some (arr_dtype arr).
Proof.
  intros Hrec key.
  destruct (array_to_record_entries _ _ _ _ _ _ _ _ Hrec)
    as (h & w & _ & _ & _ & Hbuf).
  repeat split;
    [by eapply array_to_record_value_field|done
    |apply last_token_of_key|apply np_dtype_str].
Qed.

(** C4: the payload sits under [f + "_" + str(dtype)], the only key of
    the record besides the eleven fixed ones; [attrs] names exactly that
    key, and decoding without a field name reads the payload there: it is
    decoding with that key, it returns the block, it decodes whatever is
    stored under that key in the payload's place, and it is a KeyError of
    that key once the entry is removed. *)
Theorem payload_key_and_default_decoding arr t r c f crs band rec :
  wf_ndarray arr →
  array_to_record J arr t r c f crs band = Ok rec →
  let key := f +:+ "_" +:+ dtype_str (arr_dtype arr) in
  rec !! key = Some (VBytes (tobytes arr))
  ∧ dom rec = list_to_set (key :: fixed_keys)
  ∧ (key ∉ fixed_keys)
  ∧ attrs_value_field J rec = Ok key
  ∧ record_to_array J rec None = record_to_array J rec (Some key)
  ∧ record_to_array J rec None = Ok arr
  ∧ (∃ h w, arr_shape arr = [h; w]
            ∧ ∀ buf, record_to_array J (<[key := VBytes buf]> rec) None
                     = frombuffer buf (arr_dtype arr)
                       ≫= (λ a, reshape2 a h w))
  ∧ record_to_array J (delete key rec) None = Raise (KeyError key).
Proof.
  intros Hwf Hrec key.
  destruct (array_to_record_entries _ _ _ _ _ _ _ _ Hrec)
    as (h & w & Hshape & Hh & Hw & Hbuf).
  pose proof (array_to_record_value_field _ _ _ _ _ _ _ _ Hrec) as Hfield.
  destruct (wf_ndarray_2d arr h w Hwf Hshape) as (Hh0 & Hw0 & Hlen).
  assert (key ≠ "attrs") as Hattrs
    by (apply key_neq_fixed; unfold fixed_keys; compute_done).
  assert (key ≠ "block_height") as Hheight
    by (apply key_neq_fixed; unfold fixed_keys; compute_done).
  assert (key ≠ "block_width") as Hwidth
    by (apply key_neq_fixed; unfold fixed_keys; compute_done).
  split; [done|]. split.
  { apply array_to_record_inv in Hrec
      as (h' & w' & nw & ne & se & sw & _ & _ & _ & _ & _ & ->).
    unfold dict_of, fixed_keys. simpl. fold key.
    rewrite !dom_insert_L, dom_empty_L. set_solver. }
  split; [apply (key_not_fixed f (arr_dtype arr))|].
  split; [done|].
  split; [by apply record_to_array_default|].
  split.
  { rewrite (record_to_array_of_record _ _ _ _ _ _ _ _ h w Hrec Hshape).
    rewrite frombuffer_reshape_ok by done.
    destruct arr as [d shape buf]. simpl in *. by subst shape. }
  split.
  - exists h, w. split; [done|]. intros buf.
    rewrite (record_to_array_default (<[key:=VBytes buf]> rec) key).
    2: { etrans; [|exact Hfield]. unfold attrs_value_field, getitem.
         by rewrite lookup_insert_ne. }
    apply (record_to_array_explicit _ key (dtype_str (arr_dtype arr))).
    + apply last_token_of_key.
    + apply np_dtype_str.
    + by rewrite lookup_insert_ne.
    + by rewrite lookup_insert_ne.
    + apply lookup_insert_eq.
  - assert (attrs_value_field J (delete key rec) = Ok key) as Hfield'.
    { etrans; [|exact Hfield]. unfold attrs_value_field, getitem.
      by rewrite lookup_delete_ne. }
    unfold record_to_array. rewrite Hfield'. simpl.
    assert (getitem_last (split "_" key) = Ok (dtype_str (arr_dtype arr)))
      as -> by apply last_token_of_key.
    simpl. rewrite np_dtype_str. simpl. unfold getitem.
    rewrite (lookup_delete_ne rec key "block_height") by done.
    rewrite (lookup_delete_ne rec key "block_width") by done.
    rewrite Hh, Hw. simpl. by rewrite lookup_delete_eq.
Qed.

(** C6: in a produced record the payload has exactly
    [block_height * block_width * itemsize] bytes. *)
Theorem payload_length arr t r c f crs band rec :
  wf_ndarray arr →
  array_to_record J arr t r c f crs band = Ok rec →
  ∃ h w payload,
    rec !! "block_height" = Some (VInt h)
    ∧ rec !! "block_width" = Some (VInt w)
    ∧ rec !! (f +:+ "_" +:+ dtype_str (arr_dtype arr)) = Some (VBytes payload)
    ∧ h * w * itemsize (arr_dtype arr) = len payload.
Proof.
  intros Hwf Hrec.
  destruct (array_to_record_entries _ _ _ _ _ _ _ _ Hrec)
    as (h & w & Hshape & Hh & Hw & Hbuf).
  exists h, w, (tobytes arr). repeat split; try done.
  unfold wf_ndarray, ndarray_ok in Hwf. rewrite Hshape in Hwf.
  simpl in Hwf. unfold tobytes. lia.
Qed.

End Decoding.

(** ** The shape check of the decoder *)

Section ShapeCheck.

Context (J : json_codec).


End ShapeCheck.

(** ** The development at concrete inputs *)

Lemma record_to_array_array_to_record_witness :
  ∃ rec,
    array_to_record_default ref_json (zeros uint8 2 3) Affine_identity = Ok rec
    ∧ record_to_array ref_json rec None = Ok (zeros uint8 2 3).
Proof.
  eexists. split; [reflexivity|].
  destruct (record_to_array_array_to_record ref_json ref_json_lawful
              (zeros uint8 2 3) Affine_identity 0 0 "band_1" "EPSG:4326" 1
              _ eq_refl eq_refl) as (arr' & Hdec & _ & _ & _ & ->).
  exact Hdec.
Defined.

Lemma array_to_record_corners_witness :
  ∃ rec,
    array_to_record_default ref_json (zeros uint8 2 3) Affine_identity = Ok rec
    ∧ rec !! "lon_NW" = Some (VFloat 0) ∧ rec !! "lat_NW" = Some (VFloat 0)
    ∧ rec !! "lon_NE" = Some (VFloat 3) ∧ rec !! "lat_NE" = Some (VFloat 0)
    ∧ rec !! "lon_SE" = Some (VFloat 3) ∧ rec !! "lat_SE" = Some (VFloat 2)
    ∧ rec !! "lon_SW" = Some (VFloat 0) ∧ rec !! "lat_SW" = Some (VFloat 2).
Proof.
  eexists. split; [reflexivity|].
  destruct (array_to_record_corners ref_json (zeros uint8 2 3)
              Affine_identity 0 0 "band_1" "EPSG:4326" 1 _ eq_refl)
    as (h & w & nw & ne & se & sw & Hshape & Hnw & Hne & Hse & Hsw & Hrec).
  injection Hshape as <- <-.
  injection Hnw as <-. injection Hne as <-.
  injection Hse as <-. injection Hsw as <-.
  exact Hrec.
Defined.

Lemma attrs_value_field_is_payload_key_witness :
  ∃ rec,
    array_to_record_default ref_json (zeros uint8 2 3) Affine_identity = Ok rec
    ∧ attrs_value_field ref_json rec = Ok "band_1_uint8"
    ∧ rec !! "band_1_uint8" = Some (VBytes (replicate 6 Byte.x00)).
Proof.
  eexists. split; [reflexivity|].
  destruct (attrs_value_field_is_payload_key ref_json ref_json_lawful
              (zeros uint8 2 3) Affine_identity 0 0 "band_1" "EPSG:4326" 1
              _ eq_refl) as (Hfield & Hbuf & _).
  exact (conj Hfield Hbuf).
Defined.

(** C3 as stated fails: with the default base name "band_1" and a uint8
    block, [attrs] stores "band_1_uint8", not "band_1". *)
Lemma attrs_value_field_not_base_name :
  ∃ rec,
    array_to_record_default ref_json (zeros uint8 2 3) Affine_identity = Ok rec
    ∧ rec !! "band_1_uint8" = Some (VBytes (replicate 6 Byte.x00))
    ∧ attrs_value_field ref_json rec = Ok "band_1_uint8"
    ∧ attrs_value_field ref_json rec ≠ Ok "band_1".
Proof.
  eexists. split; [reflexivity|].
  split; [vm_compute; reflexivity|].
  split; [vm_compute; reflexivity|].
  vm_compute. discriminate.
Qed.

Lemma payload_key_and_default_decoding_witness :
  ∃ rec,
    array_to_record_default ref_json (zeros uint8 2 3) Affine_identity = Ok rec
    ∧ rec !! "band_1_uint8" = Some (VBytes (replicate 6 Byte.x00))
    ∧ record_to_array ref_json rec None = Ok (zeros uint8 2 3)
    ∧ record_to_array ref_json (delete "band_1_uint8" rec) None
      = Raise (KeyError "band_1_uint8").
Proof.
  eexists. split; [reflexivity|].
  destruct (payload_key_and_default_decoding ref_json ref_json_lawful
              (zeros uint8 2 3) Affine_identity 0 0 "band_1" "EPSG:4326" 1
              _ eq_refl eq_refl)
    as (Hbuf & _ & _ & _ & _ & Hdec & _ & Hdel).
  exact (conj Hbuf (conj Hdec Hdel)).
Defined.

Lemma payload_length_witness :
  ∃ rec h w payload,
    array_to_record_default ref_json (zeros int16 2 2) Affine_identity = Ok rec
    ∧ rec !! "block_height" = Some (VInt h)
    ∧ rec !! "block_width" = Some (VInt w)
    ∧ rec !! "band_1_int16" = Some (VBytes payload)
    ∧ h * w * 2 = len payload.
Proof.
  eexists.
  destruct (payload_length ref_json (zeros int16 2 2) Affine_identity 0 0
              "band_1" "EPSG:4326" 1 _ eq_refl eq_refl)
    as (h & w & payload & Hh & Hw & Hbuf & Hlen).
  exists h, w, payload. split; [reflexivity|]. done.
Defined.



(** ** Running computations: what every step preserves *)

Section Respects.

Context (R : relation world) `{!PreOrder R}.

Lemma respects_ret {A} (a : A) : respects R (mret a).
Proof. intros w. simpl. reflexivity. Qed.

Lemma respects_lift {A} (r : result A) : respects R (lift r).
Proof. intros w. simpl. reflexivity. Qed.

Lemma respects_bind {A B} (m : M A) (f : A → M B) :
  respects R m → (∀ a, respects R (f a)) → respects R (m ≫= f).
Proof.
  intros Hm Hf w. unfold mbind, M_bind. specialize (Hm w).
  destruct (m w) as [[a|e] w1]; simpl in *; [|done].
  etrans; [exact Hm|apply Hf].
Qed.

Lemma respects_for_each {A} (l : list A) (body : A → M ()) :
  (∀ a, a ∈ l → respects R (body a)) → respects R (for_each l body).
Proof.
  induction l as [|a l IH]; intros Hbody; simpl.
  - apply respects_ret.
  - apply respects_bind; [apply Hbody; left|].
    intros _. apply IH. intros a' Ha'. apply Hbody. by right.
Qed.

Lemma respects_getitem_ref record key : respects R (getitem_ref record key).
Proof. intros w. simpl. reflexivity. Qed.

End Respects.

Global Instance only_coords_changed_preorder l :
  PreOrder (only_coords_changed l).
Proof.
  split.
  - intros w. split; [done|]. split; [done|]. intros d Hd. by exists d.
  - intros w1 w2 w3 (Hlen1 & Hne1 & Hl1) (Hlen2 & Hne2 & Hl2).
    split; [congruence|]. split.
    + intros l' Hl'. by rewrite Hne2, Hne1.
    + intros d Hd. destruct (Hl1 d Hd) as (d1 & Hd1 & Hk1).
      destruct (Hl2 d1 Hd1) as (d2 & Hd2 & Hk2).
      exists d2. split; [done|]. intros k Hk. by rewrite Hk2, Hk1.
Qed.

Global Instance no_upload_preorder : PreOrder no_upload.
Proof.
  split.
  - intros w. exists []. by rewrite app_nil_r.
  - intros w1 w2 w3 (evs1 & Htr1 & Hup1) (evs2 & Htr2 & Hup2).
    exists (evs1 ++ evs2). split.
    + by rewrite Htr2, Htr1, app_assoc.
    + unfold uploads in *. by rewrite omap_app, Hup1, Hup2.
Qed.

Lemma only_coords_changed_same_heap l w w' :
  heap w' = heap w → only_coords_changed l w w'.
Proof.
  intros Hheap. unfold only_coords_changed. rewrite Hheap.
  split; [done|]. split; [done|]. intros d Hd. by exists d.
Qed.

Lemma only_coords_changed_emit l ev : respects (only_coords_changed l) (emit ev).
Proof. intros w. by apply only_coords_changed_same_heap. Qed.

(** Assigning to a coordinate entry is within the frame. *)
Lemma only_coords_changed_setitem l key v :
  key ∈ coord_keys → respects (only_coords_changed l) (setitem l key v).
Proof.
  intros Hkey w. unfold setitem. simpl.
  split; [apply length_alter|]. split.
  - intros l' Hl'. by apply list_lookup_alter_ne.
  - intros d Hd. exists (<[key:=v]> d). split.
    + simpl. by rewrite list_lookup_alter_eq, Hd.
    + intros k Hk. apply lookup_insert_ne. by intros ->.
Qed.

Lemma no_upload_emit ev :
  (∀ table rows, ev ≠ EvLoadTable table rows) → respects no_upload (emit ev).
Proof.
  intros Hev w. exists [ev]. split; [done|].
  destruct ev; try done. by destruct (Hev table rows).
Qed.

Lemma no_upload_same_trace {A} (m : M A) :
  (∀ w, trace (m w).2 = trace w) → respects no_upload m.
Proof. intros Hm w. exists []. by rewrite Hm, app_nil_r. Qed.

Lemma coord_keys_fixed k : k ∈ coord_keys → k ∈ fixed_keys.
Proof.
  unfold coord_keys, fixed_keys. intros Hk.
  repeat (apply elem_of_cons in Hk as [->|Hk]; [by repeat constructor|]).
  by apply elem_of_nil in Hk.
Qed.

Lemma key_not_coord f d : f +:+ "_" +:+ dtype_str d ∉ coord_keys.
Proof. intros Hin. by eapply key_neq_fixed; [apply coord_keys_fixed|]. Qed.

(** The value of a sequence of steps is the value of its last step. *)
Lemma bind_value {A B} (m : M A) (f : A → M B) w b :
  ((m ≫= f) w).1 = Ok b → ∃ a w1, (f a w1).1 = Ok b.
Proof.
  unfold mbind, M_bind.
  destruct (m w) as [[a|e] w1]; [by exists a, w1|done].
Qed.

(** ** Reprojection touches the corners only *)

Section Reprojection.

Context (E : externals).

Lemma import_rasterio_same_world w : (import_rasterio E w).2 = w.
Proof. unfold import_rasterio. by destruct (rasterio_installed E). Qed.

Lemma reproject_corner_frame src dst record cols :
  cols.1 ∈ coord_keys → cols.2 ∈ coord_keys →
  respects (only_coords_changed record) (reproject_corner E src dst record cols).
Proof.
  destruct cols as [lon_col lat_col]. simpl. intros Hlon Hlat.
  unfold reproject_corner.
  apply respects_bind; [apply _|apply respects_lift; apply _|intros tr].
  apply respects_bind; [apply _|apply respects_getitem_ref; apply _|intros lon].
  apply respects_bind; [apply _|apply respects_getitem_ref; apply _|intros lat].
  apply respects_bind; [apply _|apply only_coords_changed_emit|intros _].
  apply respects_bind; [apply _|apply respects_lift; apply _|intros [x y]].
  apply respects_bind; [apply _|by apply only_coords_changed_setitem|intros _].
  by apply only_coords_changed_setitem.
Qed.

Lemma reproject_record_frame record src_crs dst_crs :
  respects (only_coords_changed record)
           (reproject_record E record src_crs dst_crs).
Proof.
  unfold reproject_record.
  apply respects_bind; [apply _| |intros _].
  { intros w. rewrite import_rasterio_same_world. reflexivity. }
  apply respects_bind; [apply _|apply only_coords_changed_emit|intros _].
  apply respects_bind; [apply _|apply respects_lift; apply _|intros src].
  apply respects_bind; [apply _|apply only_coords_changed_emit|intros _].
  apply respects_bind; [apply _|apply respects_lift; apply _|intros dst].
  apply respects_bind; [apply _| |intros _; apply respects_ret; apply _].
  apply respects_for_each; [apply _|].
  intros cols Hcols. apply reproject_corner_frame;
    repeat (apply elem_of_cons in Hcols as [->|Hcols];
            [compute_done|]);
    by apply elem_of_nil in Hcols.
Qed.

Lemma reproject_record_value record src_crs dst_crs w record' :
  (reproject_record E record src_crs dst_crs w).1 = Ok record' →
  record' = record.
Proof.
  unfold reproject_record. intros Hret.
  repeat (apply bind_value in Hret as (? & ? & Hret)).
  simpl in Hret. by injection Hret.
Qed.

(** C7: whatever the record and the CRS pair, and whether or not the
    projection succeeds, [reproject_record] returns the reference it was
    given and leaves every entry of that record other than the eight
    coordinates as it was: block_height, block_width, attrs and the payload
    under any suffixed field name; no other record is touched. *)
Theorem reproject_record_only_coords record src_crs dst_crs w :
  let r := (reproject_record E record src_crs dst_crs w).1 in
  let w' := (reproject_record E record src_crs dst_crs w).2 in
  (∀ record', r = Ok record' → record' = record)
  ∧ only_coords_changed record w w'
  ∧ (∀ d, heap w !! record = Some d →
       ∃ d', heap w' !! record = Some d'
         ∧ d' !! "block_height" = d !! "block_height"
         ∧ d' !! "block_width" = d !! "block_width"
         ∧ d' !! "attrs" = d !! "attrs"
         ∧ ∀ f dt, d' !! (f +:+ "_" +:+ dtype_str dt)
                   = d !! (f +:+ "_" +:+ dtype_str dt)).
Proof.
  intros r w'.
  split; [intros record'; apply reproject_record_value|].
  pose proof (reproject_record_frame record src_crs dst_crs w) as Hframe.
  split; [exact Hframe|].
  intros d Hd. destruct Hframe as (_ & _ & Hrec).
  destruct (Hrec d Hd) as (d' & Hd' & Hk). exists d'.
  split; [done|].
  repeat split; try (apply Hk; compute_done).
  intros f dt. apply Hk, key_not_coord.
Qed.

End Reprojection.

(** ** No step of the record iteration loads a table *)

Lemma no_upload_setitem record key v : respects no_upload (setitem record key v).
Proof. by apply no_upload_same_trace. Qed.

Lemma no_upload_alloc d : respects no_upload (alloc d).
Proof. by apply no_upload_same_trace. Qed.

Ltac respects_no_upload :=
  repeat first
    [ apply respects_ret; apply _
    | apply respects_lift; apply _
    | apply respects_getitem_ref; apply _
    | apply no_upload_setitem
    | apply no_upload_alloc
    | apply no_upload_emit; done
    | apply respects_for_each; [apply _|intros ? _]
    | apply respects_bind; [apply _| |intros ?]
    | match goal with
      | p : _ * _ |- _ => destruct p
      | |- respects _ (if ?b then _ else _) => destruct b
      end ].

Section Source.

Context (E : externals) (J : json_codec).

Lemma no_upload_import_rasterio : respects no_upload (import_rasterio E).
Proof. unfold import_rasterio. respects_no_upload. Qed.

Lemma no_upload_reproject_corner src dst record cols :
  respects no_upload (reproject_corner E src dst record cols).
Proof. unfold reproject_corner. respects_no_upload. Qed.

Lemma no_upload_reproject_record record src_crs dst_crs :
  respects no_upload (reproject_record E record src_crs dst_crs).
Proof.
  unfold reproject_record.
  apply respects_bind; [apply _|apply no_upload_import_rasterio|intros _].
  respects_no_upload.
Qed.

Lemma no_upload_window_to_record ds band crs win :
  respects no_upload (window_to_record E J ds band crs win).
Proof.
  unfold window_to_record.
  apply respects_bind; [apply _|apply respects_lift; apply _|intros arr].
  apply respects_bind; [apply _|apply respects_lift; apply _|intros rec].
  apply respects_bind; [apply _|apply no_upload_alloc|intros l].
  destruct (negb _); [apply no_upload_reproject_record|].
  apply respects_ret; apply _.
Qed.

End Source.

(** ** The record iteration *)

Section Iteration.

Context (E : externals) (J : json_codec).

Hypothesis rasterio_available : rasterio_installed E = true.

(** How the generator starts: the file is opened, a disagreement between
    the two CRS is printed, and the iteration is either refused or handed
    one suspended [window_to_record] per block window. *)
Lemma rasterio_windows_to_records_start file_path band input_crs w ds
    raster_crs :
  rasterio_open E file_path = Ok ds →
  ds_crs ds = Ok raster_crs →
  let crs := effective_crs input_crs raster_crs in
  ∃ evs,
    uploads evs = [] ∧ projection_calls evs = [] ∧
    rasterio_windows_to_records E J file_path band input_crs w
    = (if String.eqb crs EmptyString then Raise MissingCRS
       else Ok (window_to_record E J ds band crs <$> ds_block_windows ds),
       mk_world (heap w) (trace w ++ evs)).
Proof.
  intros Hopen Hraster crs. subst crs.
  unfold rasterio_windows_to_records, import_rasterio.
  rewrite rasterio_available.
  unfold mbind, M_bind, mret, M_ret, emit, lift. simpl.
  rewrite Hopen, Hraster.
  destruct input_crs as [c|]; simpl.
  - destruct (negb (String.eqb c raster_crs)); simpl.
    + exists [EvOpen file_path;
              EvPrint ("WARNING: Input CRS(" +:+ c +:+ ") != raster CRS("
                       +:+ raster_crs +:+ ").")].
      rewrite <- app_assoc. simpl.
      split; [done|]. split; [done|]. by destruct (String.eqb c EmptyString).
    + exists [EvOpen file_path]. split; [done|]. split; [done|].
      by destruct (String.eqb c EmptyString).
  - exists [EvOpen file_path]. split; [done|]. split; [done|].
    by destruct (String.eqb raster_crs EmptyString).
Qed.

(** Lines 115 and 116: when the raster has given its CRS and what is left
    to work with is the empty string, the iteration raises the missing-CRS
    error when it is started: no record is created, and a loop over it ends
    before its body runs once. *)
Lemma empty_crs_before_first_record file_path band input_crs w ds
    raster_crs :
  rasterio_open E file_path = Ok ds →
  ds_crs ds = Ok raster_crs →
  effective_crs input_crs raster_crs = EmptyString →
  let gen := rasterio_windows_to_records E J file_path band input_crs in
  (gen w).1 = Raise MissingCRS
  ∧ heap (gen w).2 = heap w
  ∧ (∀ S (body : S → nat → M S) s,
       for_gen gen body s w = (Raise MissingCRS, (gen w).2))
  ∧ (drain gen w).1 = Raise MissingCRS.
Proof.
  intros Hopen Hcrs Heff gen.
  destruct (rasterio_windows_to_records_start file_path band input_crs w ds
              raster_crs Hopen Hcrs) as (evs & _ & _ & Hstart).
  rewrite Heff in Hstart. simpl in Hstart.
  assert (∀ S (body : S → nat → M S) s,
            for_gen gen body s w = (Raise MissingCRS, (gen w).2)) as Hfor.
  { intros S body s. unfold for_gen, mbind, M_bind. subst gen.
    by rewrite Hstart. }
  subst gen. split; [by rewrite Hstart|]. split; [by rewrite Hstart|].
  split; [exact Hfor|]. unfold drain. by rewrite Hfor.
Qed.

(** Line 108: on a raster without a CRS, [crs.to_string()] raises before
    the CRS argument is looked at, whatever the caller passes: line 115 is
    not reached. *)
Lemma rasterio_windows_to_records_without_crs file_path band input_crs w ds
    e :
  rasterio_open E file_path = Ok ds →
  ds_crs ds = Raise e →
  let gen := rasterio_windows_to_records E J file_path band input_crs in
  gen w = (Raise e, mk_world (heap w) (trace w ++ [EvOpen file_path]))
  ∧ (drain gen w).1 = Raise e.
Proof.
  intros Hopen Hcrs gen.
  assert (gen w = (Raise e, mk_world (heap w) (trace w ++ [EvOpen file_path])))
    as Hgen.
  { subst gen. unfold rasterio_windows_to_records, import_rasterio.
    rewrite rasterio_available.
    unfold mbind, M_bind, mret, M_ret, emit, lift. simpl.
    by rewrite Hopen, Hcrs. }
  split; [done|].
  unfold drain, for_gen, mbind, M_bind. by rewrite Hgen.
Qed.

(** Once its import went through, [reproject_record] asks the projection
    engine for the source CRS before anything else. *)
Lemma reproject_record_first_call record src_crs dst_crs w :
  ∃ evs,
    trace (reproject_record E record src_crs dst_crs w).2
    = trace w ++ EvCRS src_crs :: evs.
Proof.
  unfold reproject_record, import_rasterio. rewrite rasterio_available.
  unfold mbind at 1 2. unfold M_bind at 1 2. simpl.
  match goal with
  | |- context [trace (?m ?w1).2] =>
      assert (respects no_upload m) as Hrest
  end.
  { respects_no_upload. }
  match goal with
  | |- context [trace (?m ?w1).2] =>
      destruct (Hrest w1) as (evs & Htrace & _)
  end.
  exists evs. rewrite Htrace. simpl. by rewrite <- app_assoc.
Qed.

(** C10: the record of a block is handed to [reproject_record] exactly
    when the upper-cased CRS, [crs.upper()], is not "EPSG:4326"; otherwise
    the encoded record is yielded as it is and the projection engine is not
    called.  This holds for every string and whatever [str.upper] does
    outside ASCII; on ASCII text, where it is the upper-casing of the
    letters a-z, the comparison is the case-insensitive one. *)
Theorem window_to_record_reprojects_iff ds band crs win w arr rec :
  ds_read ds band win = Ok arr →
  array_to_record J arr (ds_transform ds) (win_row_off win) (win_col_off win)
                  "band_1" crs band = Ok rec →
  let w0 := mk_world (heap w ++ [rec]) (trace w) in
  let run := window_to_record E J ds band crs win w in
  (str_upper E crs = "EPSG:4326" → run = (Ok (length (heap w)), w0))
  ∧ (str_upper E crs ≠ "EPSG:4326" →
       run = reproject_record E (length (heap w)) crs "EPSG:4326" w0)
  ∧ (projection_calls (new_events w run.2) ≠ []
     ↔ str_upper E crs ≠ "EPSG:4326")
  ∧ ((∀ s, is_ascii s = true → str_upper E s = upper s) →
     is_ascii crs = true →
     (projection_calls (new_events w run.2) ≠ []
      ↔ upper crs ≠ "EPSG:4326")).
Proof.
  intros Hread Hrec w0 run.
  assert (run = if String.eqb (str_upper E crs) "EPSG:4326"
                then (Ok (length (heap w)), w0)
                else reproject_record E (length (heap w)) crs "EPSG:4326" w0)
    as Hrun.
  { subst run. unfold window_to_record, mbind, M_bind, lift, alloc.
    rewrite Hread, Hrec.
    by destruct (String.eqb (str_upper E crs) "EPSG:4326"). }
  assert (projection_calls (new_events w run.2) ≠ []
          ↔ str_upper E crs ≠ "EPSG:4326") as Hcalls.
  { rewrite Hrun.
    destruct (String.eqb_spec (str_upper E crs) "EPSG:4326") as [Heq|Hne].
    - unfold new_events. simpl. rewrite drop_all. simpl. split; [done|].
      by intros [].
    - unfold new_events.
      destruct (reproject_record_first_call (length (heap w)) crs
                  "EPSG:4326" w0) as (evs & ->).
      simpl. rewrite drop_app_length. simpl. split; done. }
  split; [|split; [|split; [exact Hcalls|]]].
  - intros Heq. rewrite Hrun.
    by destruct (String.eqb_spec (str_upper E crs) "EPSG:4326").
  - intros Hne. rewrite Hrun.
    by destruct (String.eqb_spec (str_upper E crs) "EPSG:4326").
  - intros Hlaw Hascii. by rewrite <- (Hlaw crs Hascii).
Qed.

End Iteration.

(** ** Chunked upload *)

Lemma ceil_div N k :
  0 ≤ N → 0 < k →
  (N + k - 1) / k = N / k + (if N mod k >? 0 then 1 else 0).
Proof.
  intros HN Hk. pose proof (Z.div_mod N k ltac:(lia)) as Hdm.
  pose proof (Z.mod_pos_bound N k Hk) as Hr.
  destruct (Z.gtb_spec (N mod k) 0).
  - symmetry. apply Z.div_unique with (N mod k - 1); lia.
  - symmetry. apply Z.div_unique with (k - 1); lia.
Qed.

Lemma len_snoc {A} (l : list A) a : len (l ++ [a]) = len l + 1.
Proof. unfold len. rewrite length_app. simpl. lia. Qed.

Lemma len_nonneg {A} (l : list A) : 0 ≤ len l.
Proof. unfold len. lia. Qed.

Lemma uploads_app tr1 tr2 : uploads (tr1 ++ tr2) = uploads tr1 ++ uploads tr2.
Proof. apply omap_app. Qed.

Section Chunking.

Context (E : externals) (J : json_codec).
Context (table_id dataset_id project_id : string) (chunk_size : Z).

Hypothesis bigquery_available : bigquery_installed E = true.
Hypothesis chunk_size_pos : 0 < chunk_size.

(** One upload of a list of records: one load call with one row each. *)
Lemma records_to_bigquery_list records w :
  records_to_bigquery E (mret records) table_id dataset_id project_id w
  = (Ok (),
     mk_world (heap w)
       (trace w ++ [EvLoadTable
                      (project_id +:+ "." +:+ dataset_id +:+ "." +:+ table_id)
                      (deref w <$> records)])).
Proof.
  unfold records_to_bigquery, import_bigquery.
  by rewrite bigquery_available.
Qed.

Lemma chunk_step_run records record w :
  chunk_step E table_id dataset_id project_id chunk_size records record w
  = if chunk_size <=? len records + 1
    then (Ok [],
          mk_world (heap w)
            (trace w ++
             [EvLoadTable
                (project_id +:+ "." +:+ dataset_id +:+ "." +:+ table_id)
                (deref w <$> records ++ [record]);
              EvProgressUpdate chunk_size]))
    else (Ok (records ++ [record]), w).
Proof.
  unfold chunk_step. rewrite Z.geb_leb, len_snoc.
  destruct (chunk_size <=? len records + 1); [|done].
  unfold mbind at 1. unfold M_bind at 1.
  rewrite records_to_bigquery_list. simpl.
  unfold mbind, M_bind, emit. simpl. by rewrite <- app_assoc.
Qed.

(** The loop, from a buffer that is not yet full: every load call made
    has [chunk_size] rows, there are as many as the records seen so far
    fill chunks, and the rest stays in the buffer. *)
Lemma for_items_chunks (items : list (M nat)) :
  Forall always_ok items →
  Forall (respects no_upload) items →
  ∀ records w, len records < chunk_size →
  ∃ records' w' evs,
    for_items items
      (chunk_step E table_id dataset_id project_id chunk_size) records w
    = (Ok records', w')
    ∧ trace w' = trace w ++ evs
    ∧ Forall (λ rows, len rows = chunk_size) (uploads evs)
    ∧ len (uploads evs) = (len records + len items) / chunk_size
    ∧ len records' = (len records + len items) mod chunk_size.
Proof.
  intros Hok Hquiet.
  induction items as [|item items IH]; intros records w Hlen.
  - exists records, w, []. simpl. rewrite app_nil_r.
    pose proof (len_nonneg records).
    rewrite Z.add_0_r, Z.div_small, Z.mod_small by lia.
    repeat split; by constructor.
  - apply Forall_cons in Hok as [Hitem Hok].
    apply Forall_cons in Hquiet as [Hitemq Hquiet].
    specialize (IH Hok Hquiet).
    specialize (Hitem w). destruct (Hitemq w) as (evs1 & Htr1 & Hup1).
    simpl. unfold mbind at 1. unfold M_bind at 1.
    destruct (item w) as [[a|e] w1]; simpl in Hitem, Htr1; [|done].
    unfold mbind at 1. unfold M_bind at 1. rewrite chunk_step_run.
    assert (len (item :: items) = len items + 1) as ->
      by (unfold len; simpl; lia).
    pose proof (len_nonneg records). pose proof (len_nonneg items).
    destruct (Z.leb_spec chunk_size (len records + 1)) as [Hfull|Hroom].
    + destruct (IH [] (mk_world (heap w1)
                         (trace w1 ++
                          [EvLoadTable
                             (project_id +:+ "." +:+ dataset_id
                              +:+ "." +:+ table_id)
                             (deref w1 <$> records ++ [a]);
                           EvProgressUpdate chunk_size])))
        as (records' & w' & evs' & Hrun & Htr & Hall & Hcount & Hrest);
        [done|].
      exists records', w',
        (evs1 ++ [EvLoadTable
                    (project_id +:+ "." +:+ dataset_id +:+ "." +:+ table_id)
                    (deref w1 <$> records ++ [a]);
                  EvProgressUpdate chunk_size] ++ evs').
      split; [done|]. split.
      { rewrite Htr. simpl. rewrite Htr1. by rewrite <- !app_assoc. }
      rewrite !uploads_app, Hup1. simpl.
      assert (len records + (len items + 1) = len items + 1 * chunk_size)
        as -> by lia.
      rewrite Z.div_add, Z.mod_add by lia.
      change (len ([] : list nat)) with 0 in Hcount, Hrest.
      rewrite Z.add_0_l in Hcount, Hrest. split; [|split].
      * constructor; [|done]. unfold len. rewrite length_fmap.
        fold (len (records ++ [a])). rewrite len_snoc. lia.
      * rewrite <- Hcount. unfold len. simpl. lia.
      * done.
    + destruct (IH (records ++ [a]) w1)
        as (records' & w' & evs' & Hrun & Htr & Hall & Hcount & Hrest);
        [rewrite len_snoc; lia|].
      exists records', w', (evs1 ++ evs').
      split; [done|]. split; [by rewrite Htr, Htr1, app_assoc|].
      rewrite uploads_app, Hup1. simpl.
      rewrite len_snoc in Hcount, Hrest.
      assert (len records + (len items + 1) = len records + 1 + len items)
        as -> by lia.
      done.
Qed.

End Chunking.

Lemma uploads_new_events w heap' evs :
  uploads (new_events w (mk_world heap' (trace w ++ evs))) = uploads evs.
Proof. unfold new_events. simpl. by rewrite drop_app_length. Qed.

Section Orchestration.

Context (E : externals) (J : json_codec).

Hypothesis rasterio_available : rasterio_installed E = true.
Hypothesis bigquery_available : bigquery_installed E = true.

Lemma get_number_of_blocks_run file_path w ds :
  rasterio_open E file_path = Ok ds →
  get_number_of_blocks E file_path w
  = (Ok (len (ds_block_windows ds)),
     mk_world (heap w) (trace w ++ [EvOpen file_path])).
Proof.
  intros Hopen. unfold get_number_of_blocks, import_rasterio.
  rewrite rasterio_available.
  unfold mbind, M_bind, mret, M_ret, emit, lift. simpl. by rewrite Hopen.
Qed.

(** The chunked run, end to end: the events it appends and its result. *)
Lemma rasterio_to_bigquery_run file_path table_id dataset_id project_id band
    chunk_size input_crs w ds raster_crs :
  rasterio_open E file_path = Ok ds →
  ds_crs ds = Ok raster_crs →
  let crs := effective_crs (crs_argument input_crs) raster_crs in
  crs ≠ EmptyString →
  Forall (λ win, always_ok (window_to_record E J ds band crs win))
         (ds_block_windows ds) →
  0 < chunk_size →
  let N := len (ds_block_windows ds) in
  ∃ evs_start evs_loop rest w',
    uploads evs_start = []
    ∧ Forall (λ rows, len rows = chunk_size) (uploads evs_loop)
    ∧ len (uploads evs_loop) = N / chunk_size
    ∧ len rest = N mod chunk_size
    ∧ rasterio_to_bigquery E J file_path table_id dataset_id project_id band
        (Some chunk_size) input_crs w
      = (Ok true,
         mk_world (heap w')
           (trace w
            ++ [EvPrint "Loading raster file to BigQuery...";
                EvOpen file_path; EvProgressTotal N]
            ++ evs_start ++ evs_loop
            ++ (if len rest >? 0
                then [EvLoadTable
                        (project_id +:+ "." +:+ dataset_id
                         +:+ "." +:+ table_id)
                        (deref w' <$> rest);
                      EvProgressUpdate (len rest)]
                else [])
            ++ [EvPrint "Done."])).
Proof.
  intros Hopen Hraster crs Hcrs Hitems Hk N.
  unfold rasterio_to_bigquery.
  unfold mbind at 1. unfold M_bind at 1. simpl.
  unfold mbind at 1. unfold M_bind at 1.
  unfold mbind at 1. unfold M_bind at 1.
  rewrite (get_number_of_blocks_run _ _ ds Hopen).
  unfold mbind at 1. unfold M_bind at 1. simpl.
  unfold mbind at 1. unfold M_bind at 1.
  unfold for_gen. unfold mbind at 1. unfold M_bind at 1.
  match goal with
  | |- context [rasterio_windows_to_records E J file_path band ?c ?w1] =>
      destruct (rasterio_windows_to_records_start E J rasterio_available
                  file_path band c w1 ds raster_crs Hopen Hraster)
        as (evs_start & Hup_start & _ & ->)
  end.
  fold crs. destruct (String.eqb_spec crs EmptyString) as [|_]; [done|].
  simpl.
  match goal with
  | |- context [for_items ?items ?body [] ?w1] =>
      destruct (for_items_chunks E table_id dataset_id project_id chunk_size
                  bigquery_available Hk items) with (records := @nil nat)
                  (w := w1)
        as (rest & w' & evs_loop & -> & Htr & Hall & Hcount & Hrest)
  end.
  { apply Forall_fmap. by apply (Forall_impl _ _ _ Hitems). }
  { apply Forall_fmap, Forall_true. intros win.
    apply no_upload_window_to_record. }
  { done. }
  change (len ([] : list nat)) with 0 in Hcount, Hrest.
  rewrite Z.add_0_l in Hcount, Hrest.
  assert (len (window_to_record E J ds band crs <$> ds_block_windows ds) = N)
    as HN by (unfold len; by rewrite length_fmap).
  rewrite HN in Hcount, Hrest.
  exists evs_start, evs_loop, rest, w'.
  split; [done|]. split; [done|]. split; [done|]. split; [done|].
  simpl in Htr. destruct w' as [heap' trace']. simpl in *. subst trace'.
  destruct (len rest >? 0).
  - unfold mbind at 1. unfold M_bind at 1.
    unfold mbind at 1. unfold M_bind at 1.
    rewrite records_to_bigquery_list by done.
    unfold mbind, M_bind, emit, mret, M_ret. simpl.
    f_equal. f_equal. rewrite <- !app_assoc. simpl. done.
  - unfold mbind, M_bind, emit, mret, M_ret. simpl.
    f_equal. f_equal. rewrite <- !app_assoc. simpl. done.
Qed.

(** C8: over a source that yields its N records, the chunked run makes
    ceil(N / chunk_size) load calls; each carries [chunk_size] records,
    except that the last carries [N mod chunk_size] when that is not zero;
    an empty source makes no call. *)
Theorem rasterio_to_bigquery_chunks file_path table_id dataset_id project_id
    band chunk_size input_crs w ds raster_crs :
  rasterio_open E file_path = Ok ds →
  ds_crs ds = Ok raster_crs →
  let crs := effective_crs (crs_argument input_crs) raster_crs in
  crs ≠ EmptyString →
  Forall (λ win, always_ok (window_to_record E J ds band crs win))
         (ds_block_windows ds) →
  0 < chunk_size →
  let N := len (ds_block_windows ds) in
  let run :=
    rasterio_to_bigquery E J file_path table_id dataset_id project_id band
      (Some chunk_size) input_crs w in
  let ups := uploads (new_events w run.2) in
  run.1 = Ok true
  ∧ len ups = (N + chunk_size - 1) / chunk_size
  ∧ (∀ i rows, ups !! i = Some rows → (S i < length ups)%nat →
       len rows = chunk_size)
  ∧ (∀ rows, last ups = Some rows →
       len rows = if N mod chunk_size =? 0 then chunk_size
                  else N mod chunk_size)
  ∧ (N = 0 → ups = []).
Proof.
  intros Hopen Hraster crs Hcrs Hitems Hk N run ups.
  destruct (rasterio_to_bigquery_run file_path table_id dataset_id project_id
              band chunk_size input_crs w ds raster_crs Hopen Hraster Hcrs
              Hitems Hk)
    as (evs_start & evs_loop & rest & w' & Hup_start & Hall & Hcount
        & Hrest & Hrun).
  fold N in Hcount, Hrest. subst ups run. rewrite Hrun.
  cbn [fst snd]. rewrite uploads_new_events.
  rewrite !uploads_app, Hup_start.
  change (uploads [EvPrint "Loading raster file to BigQuery...";
                   EvOpen file_path; EvProgressTotal N]) with (@nil (list dict)).
  change (uploads [EvPrint "Done."]) with (@nil (list dict)).
  rewrite app_nil_r. simpl.
  pose proof (len_nonneg (ds_block_windows ds)) as HN. fold N in HN.
  pose proof (Z.mod_pos_bound N chunk_size Hk) as Hmod.
  rewrite (ceil_div N chunk_size HN Hk), <- Hrest.
  split; [done|].
  set (U := uploads evs_loop) in *.
  destruct (Z.gtb_spec (len rest) 0) as [Hpos|Hzero];
    unfold uploads at 1 2 3 4; simpl; fold uploads; fold U.
  - destruct (Z.eqb_spec (len rest) 0) as [|_]; [lia|].
    split; [|split; [|split]].
    + unfold len in *. rewrite length_app. simpl. lia.
    + intros i rows Hi Hlt. rewrite length_app in Hlt. simpl in Hlt.
      rewrite lookup_app_l in Hi by lia.
      by apply (Forall_lookup_1 _ _ _ _ Hall Hi).
    + intros rows Hlast. rewrite last_snoc in Hlast.
      injection Hlast as <-. unfold len. by rewrite length_fmap.
    + intros HN0. rewrite HN0, Z.mod_0_l in Hrest by lia. lia.
  - assert (len rest = 0) as Hrest0 by (pose proof (len_nonneg rest); lia).
    rewrite Hrest0. simpl. rewrite app_nil_r.
    split; [|split; [|split]].
    + lia.
    + intros i rows Hi _. by apply (Forall_lookup_1 _ _ _ _ Hall Hi).
    + intros rows Hlast. apply last_Some in Hlast as [U' HU].
      rewrite HU in Hall. by apply Forall_app in Hall as [_ [? _]%Forall_cons].
    + intros HN0. rewrite HN0, Z.div_0_l in Hcount by lia.
      unfold len in Hcount. by destruct U.
Qed.

End Orchestration.

(** ** When the record iteration yields *)

Lemma for_each_ok {A} (Inv : world → Prop) (l : list A) (body : A → M ()) :
  (∀ a w, a ∈ l → Inv w → ∃ w', body a w = (Ok (), w') ∧ Inv w') →
  ∀ w, Inv w → ∃ w', for_each l body w = (Ok (), w') ∧ Inv w'.
Proof.
  induction l as [|a l IH]; intros Hbody w Hw; simpl.
  - by exists w.
  - destruct (Hbody a w ltac:(left) Hw) as (w1 & Hrun & Hw1).
    unfold mbind, M_bind. rewrite Hrun.
    apply IH; [|done]. intros a' w' Ha'. apply Hbody. by right.
Qed.

Lemma bind_ok {A B} (m : M A) (f : A → M B) w a w1 :
  m w = (Ok a, w1) → (m ≫= f) w = f a w1.
Proof. intros Hm. unfold mbind, M_bind. by rewrite Hm. Qed.

Lemma has_coords_setitem l key v w :
  has_coords l w → has_coords l (setitem l key v w).2.
Proof.
  intros Hw k Hk. specialize (Hw k Hk). unfold deref, setitem in *. simpl.
  rewrite list_lookup_alter_eq.
  destruct (heap w !! l) as [d|]; simpl in *.
  - apply lookup_insert_is_Some. destruct (decide (key = k)); auto.
  - by destruct Hw.
Qed.

Section Yielding.

Context (E : externals) (J : json_codec).

Hypothesis rasterio_available : rasterio_installed E = true.

Lemma reproject_corner_ok src dst tr record cols w :
  Transformer_from_crs E src dst = Ok tr →
  (∀ x y, is_ok (Transformer_transform E tr x y) = true) →
  cols.1 ∈ coord_keys → cols.2 ∈ coord_keys →
  has_coords record w →
  ∃ w', reproject_corner E src dst record cols w = (Ok (), w')
        ∧ has_coords record w'.
Proof.
  destruct cols as [lon_col lat_col]. simpl.
  intros Htr Htransform Hlon Hlat Hw.
  destruct (Hw lon_col Hlon) as [lon Hlon_v].
  destruct (Hw lat_col Hlat) as [lat Hlat_v].
  specialize (Htransform lon lat).
  unfold reproject_corner, mbind, M_bind, lift, getitem_ref, getitem, emit.
  rewrite Htr. simpl. rewrite Hlon_v, Hlat_v. simpl.
  destruct (Transformer_transform E tr lon lat) as [[x y]|]; [|done].
  eexists. split; [reflexivity|].
  apply (has_coords_setitem record lat_col y).
  by apply (has_coords_setitem record lon_col x).
Qed.

Lemma reproject_record_ok record src_crs dst_crs src dst tr w :
  CRS_from_string E src_crs = Ok src →
  CRS_from_string E dst_crs = Ok dst →
  Transformer_from_crs E src dst = Ok tr →
  (∀ x y, is_ok (Transformer_transform E tr x y) = true) →
  has_coords record w →
  is_ok (reproject_record E record src_crs dst_crs w).1 = true.
Proof.
  intros Hsrc Hdst Htr Htransform Hw.
  unfold reproject_record, import_rasterio. rewrite rasterio_available.
  erewrite bind_ok; [|reflexivity].
  erewrite bind_ok; [|reflexivity].
  erewrite bind_ok; [|unfold lift; rewrite Hsrc; reflexivity].
  erewrite bind_ok; [|reflexivity].
  erewrite bind_ok; [|unfold lift; rewrite Hdst; reflexivity].
  match goal with
  | |- context [for_each ?l ?body ≫= ?k] =>
      match goal with
      | |- context [(for_each l body ≫= k) ?w1] =>
          destruct (for_each_ok (has_coords record) l body) with (w := w1)
            as (w' & Hrun & _)
      end
  end.
  - intros cols w1 Hcols Hw1.
    apply (reproject_corner_ok src dst tr); try done;
      repeat (apply elem_of_cons in Hcols as [->|Hcols]; [compute_done|]);
      by apply elem_of_nil in Hcols.
  - intros k Hk. apply (Hw k Hk).
  - by erewrite bind_ok; [|exact Hrun].
Qed.

(** A block yields its record from every world as soon as it can be read
    and encoded and, when it has to be reprojected, the projection engine
    accepts the two CRS and transforms every point. *)
Lemma window_to_record_always_ok ds band crs win arr rec src dst tr :
  ds_read ds band win = Ok arr →
  array_to_record J arr (ds_transform ds) (win_row_off win) (win_col_off win)
                  "band_1" crs band = Ok rec →
  CRS_from_string E crs = Ok src →
  CRS_from_string E "EPSG:4326" = Ok dst →
  Transformer_from_crs E src dst = Ok tr →
  (∀ x y, is_ok (Transformer_transform E tr x y) = true) →
  always_ok (window_to_record E J ds band crs win).
Proof.
  intros Hread Hrec Hsrc Hdst Htr Htransform w.
  unfold window_to_record, mbind, M_bind, lift, alloc.
  rewrite Hread, Hrec.
  destruct (negb (String.eqb (str_upper E crs) "EPSG:4326")); [|done].
  apply (reproject_record_ok _ _ _ src dst tr); try done.
  intros k Hk. unfold deref. simpl.
  rewrite lookup_app_r, Nat.sub_diag by done. simpl.
  apply array_to_record_inv in Hrec
    as (h & w0 & nw & ne & se & sw & _ & _ & _ & _ & _ & ->).
  unfold coord_keys in Hk.
  repeat (apply elem_of_cons in Hk as [->|Hk]; [eexists; lookup_fixed|]).
  by apply elem_of_nil in Hk.
Qed.

End Yielding.

(** ** The world at concrete inputs *)

Lemma reproject_record_only_coords_witness :
  let run := reproject_record demo_externals 0 "EPSG:3857" "EPSG:4326"
               demo_world in
  run.1 = Ok 0%nat ∧ only_coords_changed 0 demo_world run.2.
Proof.
  intros run. split; [reflexivity|].
  apply (reproject_record_only_coords demo_externals 0 "EPSG:3857"
           "EPSG:4326" demo_world).
Defined.

(** C9, at the failing input: a raster file without a CRS, read with no
    [input_crs].  Starting the iteration raises the AttributeError of
    [crs.to_string()] on line 108, not the missing-CRS error that line 116
    is there to raise; no record is made.  A CRS passed by the caller does
    not help: the raster's CRS is asked for first. *)
Theorem no_crs_is_an_attribute_error :
  let gen :=
    rasterio_windows_to_records demo_externals_no_crs ref_json "dem.tif" 1 in
  gen None empty_world
  = (Raise AttributeError, mk_world [] [EvOpen "dem.tif"])
  ∧ (gen None empty_world).1 ≠ Raise MissingCRS
  ∧ (drain (gen None) empty_world).1 = Raise AttributeError
  ∧ (gen (Some "EPSG:4326") empty_world).1 = Raise AttributeError.
Proof.
  intros gen.
  destruct (rasterio_windows_to_records_without_crs demo_externals_no_crs
              ref_json eq_refl "dem.tif" 1 None empty_world
              demo_dataset_no_crs AttributeError eq_refl eq_refl)
    as (Hgen & Hdrain).
  destruct (rasterio_windows_to_records_without_crs demo_externals_no_crs
              ref_json eq_refl "dem.tif" 1 (Some "EPSG:4326") empty_world
              demo_dataset_no_crs AttributeError eq_refl eq_refl)
    as (Hgen' & _).
  subst gen. split; [exact Hgen|]. split; [by rewrite Hgen|].
  split; [exact Hdrain|]. by rewrite Hgen'.
Qed.

(** An empty [input_crs] on a raster that has a CRS is where line 116
    raises. *)
Example empty_input_crs_is_missing :
  (rasterio_windows_to_records demo_externals ref_json "dem.tif" 1
     (Some EmptyString) empty_world).1 = Raise MissingCRS.
Proof.
  apply (empty_crs_before_first_record demo_externals ref_json eq_refl
           "dem.tif" 1 (Some EmptyString) empty_world demo_dataset
           "EPSG:4326" eq_refl eq_refl eq_refl).
Qed.

(** A lower-case "epsg:4326" counts as EPSG:4326: the record is yielded
    without a call to the projection engine. *)
Lemma window_to_record_reprojects_iff_witness :
  ∃ rec,
    window_to_record demo_externals ref_json demo_dataset 1 "epsg:4326"
      (mk_window 0 0 3 2) empty_world
    = (Ok 0%nat, mk_world [rec] [])
    ∧ projection_calls
        (new_events empty_world
           (window_to_record demo_externals ref_json demo_dataset 1
              "epsg:4326" (mk_window 0 0 3 2) empty_world).2)
      = [].
Proof.
  eexists.
  destruct (window_to_record_reprojects_iff demo_externals ref_json eq_refl
              demo_dataset 1 "epsg:4326" (mk_window 0 0 3 2) empty_world
              _ _ eq_refl eq_refl) as (Hsame & _ & _ & Hascii).
  split; [apply Hsame; reflexivity|].
  destruct (projection_calls _) as [|ev evs] eqn:Hcalls; [done|].
  destruct (Hascii (λ s _, eq_refl) eq_refl) as [Hcalled _].
  exfalso. apply Hcalled; [discriminate|reflexivity].
Defined.

(** Five records in chunks of two: three load calls. *)
Lemma rasterio_to_bigquery_chunks_witness :
  let run := rasterio_to_bigquery demo_externals ref_json "dem.tif"
               "table" "dataset" "project" 1 (Some 2) None empty_world in
  run.1 = Ok true ∧ len (uploads (new_events empty_world run.2)) = 3.
Proof.
  intros run.
  destruct (rasterio_to_bigquery_chunks demo_externals ref_json
              eq_refl eq_refl "dem.tif" "table" "dataset" "project" 1 2 None
              empty_world demo_dataset "EPSG:4326" eq_refl eq_refl)
    as (Hok & Hcount & _).
  - discriminate.
  - repeat (apply Forall_cons; split; [intros w0; reflexivity|]).
    apply Forall_nil_2.
  - lia.
  - split; [exact Hok|exact Hcount].
Defined.

(** The same raster declared as EPSG:3857 by its code: the disagreement
    is printed, every record is reprojected (two CRS look-ups and four
    points each), and the chunks are the same. *)
Example rasterio_to_bigquery_projected :
  let run := rasterio_to_bigquery demo_externals ref_json "dem.tif"
               "table" "dataset" "project" 1 (Some 2) (Some (inl 3857))
               empty_world in
  run.1 = Ok true
  ∧ length <$> uploads (trace run.2) = [2; 2; 1]%nat
  ∧ length (projection_calls (trace run.2)) = 30%nat
  ∧ trace run.2 !! 4%nat
    = Some (EvPrint "WARNING: Input CRS(EPSG:3857) != raster CRS(EPSG:4326).").
Proof. vm_compute. repeat split. Qed.

(** * Further properties of the module *)

(** ** Encoding: when it succeeds and what it records *)

Lemma affine_mul_ok t p :
  is_ok (affine_mul t p) = is_ok (float_of_int p.1) && is_ok (float_of_int p.2).
Proof.
  unfold affine_mul.
  destruct (float_of_int p.1); simpl; [|done].
  by destruct (float_of_int p.2).
Qed.

(** X1: encoding validates nothing but what it computes with: it succeeds
    exactly on a 2-D array whose four corner coordinates convert to floats,
    whatever the transform, the names, the dtype and the buffer; any other
    number of dimensions is the unpacking error of [arr.shape]. *)
Theorem array_to_record_succeeds_iff (J : json_codec) arr t r c f crs band :
  is_ok (array_to_record J arr t r c f crs band)
  = match arr_shape arr with
    | [h; w] =>
        is_ok (float_of_int c) && is_ok (float_of_int r)
        && is_ok (float_of_int (c + w)) && is_ok (float_of_int (r + h))
    | _ => false
    end
  ∧ ((length (arr_shape arr) ≠ 2)%nat →
     array_to_record J arr t r c f crs band
     = Raise (UnpackError (length (arr_shape arr)))).
Proof.
  split.
  - unfold array_to_record, unpack_shape.
    destruct (arr_shape arr) as [|h [|w [|]]]; try done. simpl.
    pose proof (affine_mul_ok t (c, r)) as H1.
    pose proof (affine_mul_ok t (c + w, r)) as H2.
    pose proof (affine_mul_ok t (c + w, r + h)) as H3.
    pose proof (affine_mul_ok t (c, r + h)) as H4.
    simpl in *.
    destruct (affine_mul t (c, r)) as [[]|],
             (affine_mul t (c + w, r)) as [[]|],
             (affine_mul t (c + w, r + h)) as [[]|],
             (affine_mul t (c, r + h)) as [[]|]; simpl in *;
      destruct (float_of_int c), (float_of_int r),
               (float_of_int (c + w)), (float_of_int (r + h));
      simpl in *; congruence.
  - intros Hdim. unfold array_to_record, unpack_shape.
    by destruct (arr_shape arr) as [|h [|w [|]]].
Qed.

Lemma array_to_record_succeeds_iff_witness :
  is_ok (array_to_record ref_json (zeros uint8 2 3) Affine_identity 0 0
           "band_1" "EPSG:4326" 1) = true
  ∧ array_to_record ref_json (mk_ndarray uint8 [6] (replicate 6 Byte.x00))
      Affine_identity 0 0 "band_1" "EPSG:4326" 1
    = Raise (UnpackError 1).
Proof.
  split; [reflexivity|].
  apply (array_to_record_succeeds_iff ref_json
           (mk_ndarray uint8 [6] (replicate 6 Byte.x00))).
  simpl. lia.
Defined.

Section EncodingFacts.

Context (J : json_codec).

Hypothesis J_lawful : json_lawful J.

(** What [attrs] reads back as. *)
Lemma array_to_record_attrs_loads arr t r c f crs band rec :
  array_to_record J arr t r c f crs band = Ok rec →
  getitem rec "attrs" ≫= loads J
  = Ok (record_attrs t r c (f +:+ "_" +:+ dtype_str (arr_dtype arr))
          (dtype_str (arr_dtype arr)) crs band).
Proof.
  intros Hrec.
  apply array_to_record_inv in Hrec
    as (h & w & nw & ne & se & sw & Hshape & _ & _ & _ & _ & ->).
  unfold getitem.
  assert (dict_of [
      ("lat_NW", VFloat nw.2); ("lon_NW", VFloat nw.1);
      ("lat_NE", VFloat ne.2); ("lon_NE", VFloat ne.1);
      ("lat_SE", VFloat se.2); ("lon_SE", VFloat se.1);
      ("lat_SW", VFloat sw.2); ("lon_SW", VFloat sw.1);
      ("block_height", VInt h); ("block_width", VInt w);
      ("attrs", VStr (json_dumps J
         (record_attrs t r c (join "_" [f; dtype_str (arr_dtype arr)])
            (dtype_str (arr_dtype arr)) crs band)));
      (join "_" [f; dtype_str (arr_dtype arr)], VBytes (tobytes arr))]
    !! "attrs" = Some (VStr (json_dumps J
         (record_attrs t r c (join "_" [f; dtype_str (arr_dtype arr)])
            (dtype_str (arr_dtype arr)) crs band)))) as -> by lookup_fixed.
  simpl. by rewrite J_lawful.
Qed.

(** X2: the side-channel attributes of a produced record read back as the
    arguments of the call: the band, the CRS, the two offsets, the dtype
    name (which is also the last token of the stored field name) and the
    six coefficients of the transform in GDAL order (c, a, b, f, d, e). *)
Theorem array_to_record_attrs arr t r c f crs band rec :
  array_to_record J arr t r c f crs band = Ok rec →
  ∃ j,
    getitem rec "attrs" ≫= loads J = Ok j
    ∧ json_getitem j "band" = Ok (JInt band)
    ∧ json_getitem j "crs" = Ok (JStr crs)
    ∧ json_getitem j "row_off" = Ok (JInt r)
    ∧ json_getitem j "col_off" = Ok (JInt c)
    ∧ json_getitem j "dtype" = Ok (JStr (dtype_str (arr_dtype arr)))
    ∧ (∃ field, json_getitem j "value_field" = Ok (JStr field)
                ∧ getitem_last (split "_" field)
                  = Ok (dtype_str (arr_dtype arr)))
    ∧ json_getitem j "gdal_transform"
      = Ok (JArr (JFloat ∘ Prim2SF
                  <$> [aff_c t; aff_a t; aff_b t; aff_f t; aff_d t; aff_e t])).
Proof.
  intros Hrec. eexists.
  split; [by apply array_to_record_attrs_loads|].
  repeat split; try reflexivity.
  eexists. split; [reflexivity|]. apply last_token_of_key.
Qed.

(** X3: encoding loses nothing of the block: two well-formed arrays that
    encode to the same record, under whatever arguments, are the same
    array. *)
Theorem array_to_record_injective a1 a2 t1 t2 r1 r2 c1 c2 f1 f2 crs1 crs2
    band1 band2 rec :
  wf_ndarray a1 → wf_ndarray a2 →
  array_to_record J a1 t1 r1 c1 f1 crs1 band1 = Ok rec →
  array_to_record J a2 t2 r2 c2 f2 crs2 band2 = Ok rec →
  a1 = a2.
Proof.
  intros Hwf1 Hwf2 Hrec1 Hrec2.
  destruct (array_to_record_entries _ _ _ _ _ _ _ _ _ Hrec1)
    as (h1 & w1 & Hshape1 & _).
  destruct (array_to_record_entries _ _ _ _ _ _ _ _ _ Hrec2)
    as (h2 & w2 & Hshape2 & _).
  destruct (wf_ndarray_2d a1 h1 w1 Hwf1 Hshape1) as (? & ? & ?).
  destruct (wf_ndarray_2d a2 h2 w2 Hwf2 Hshape2) as (? & ? & ?).
  pose proof (record_to_array_of_record J J_lawful _ _ _ _ _ _ _ _ h1 w1
                Hrec1 Hshape1) as Hdec1.
  pose proof (record_to_array_of_record J J_lawful _ _ _ _ _ _ _ _ h2 w2
                Hrec2 Hshape2) as Hdec2.
  rewrite frombuffer_reshape_ok in Hdec1 by done.
  rewrite frombuffer_reshape_ok in Hdec2 by done.
  rewrite Hdec1 in Hdec2. injection Hdec2 as Hd Hh Hw Hb.
  destruct a1 as [d1 s1 b1], a2 as [d2 s2 b2]. simpl in *.
  unfold tobytes in *. simpl in *. by subst.
Qed.

End EncodingFacts.

Lemma array_to_record_attrs_witness :
  ∃ rec j,
    array_to_record ref_json (zeros uint8 2 3) Affine_identity 4 8
      "band_1" "EPSG:32633" 2 = Ok rec
    ∧ getitem rec "attrs" ≫= loads ref_json = Ok j
    ∧ json_getitem j "band" = Ok (JInt 2)
    ∧ json_getitem j "crs" = Ok (JStr "EPSG:32633")
    ∧ json_getitem j "row_off" = Ok (JInt 4)
    ∧ json_getitem j "col_off" = Ok (JInt 8).
Proof.
  eexists.
  destruct (array_to_record_attrs ref_json ref_json_lawful
              (zeros uint8 2 3) Affine_identity 4 8 "band_1" "EPSG:32633" 2
              _ eq_refl)
    as (j & Hj & Hband & Hcrs & Hrow & Hcol & _).
  exists j. split; [reflexivity|]. done.
Defined.

Lemma array_to_record_injective_witness :
  ∃ rec,
    array_to_record_default ref_json (zeros uint8 2 3) Affine_identity = Ok rec
    ∧ zeros uint8 2 3 = zeros uint8 2 3.
Proof.
  eexists. split; [reflexivity|].
  exact (array_to_record_injective ref_json ref_json_lawful
           (zeros uint8 2 3) (zeros uint8 2 3) Affine_identity
           Affine_identity 0 0 0 0 "band_1" "band_1" "EPSG:4326" "EPSG:4326"
           1 1 _ eq_refl eq_refl eq_refl eq_refl).
Defined.

(** ** Decoding: what it reads and in which order *)

(** No coordinate key, and not "attrs" either, ends in a dtype name. *)
Lemma no_dtype_token k tok :
  k ∈ "attrs" :: coord_keys →
  getitem_last (split "_" k) = Ok tok → np_dtype tok = None.
Proof.
  intros Hk Htok. unfold coord_keys in Hk.
  repeat (apply elem_of_cons in Hk as [->|Hk];
          [by injection Htok as <-|]).
  by apply elem_of_nil in Hk.
Qed.

Section DecodingFacts.

Context (J : json_codec).

(** With a field name given, the decoder looks at the two dimensions and
    at the payload, and only once the name ends in a dtype. *)
Lemma record_to_array_explicit_agree keys (d d' : dict) f :
  keys ⊆ "attrs" :: coord_keys →
  agree_outside keys d d' →
  record_to_array J d' (Some f) = record_to_array J d (Some f).
Proof.
  intros Hkeys Hagree. unfold record_to_array. simpl.
  destruct (getitem_last (split "_" f)) as [tok|] eqn:Htok; [|done]. simpl.
  destruct (np_dtype tok) as [dt|] eqn:Hdt; [|done]. simpl.
  assert (∀ k, k ∉ "attrs" :: coord_keys → getitem d' k = getitem d k)
    as Hget.
  { intros k Hk. unfold getitem. rewrite Hagree; [done|].
    intros Hin. apply Hk. by apply Hkeys. }
  rewrite (Hget "block_height") by compute_done.
  rewrite (Hget "block_width") by compute_done.
  rewrite (Hget f); [done|].
  intros Hf. pose proof (no_dtype_token f tok Hf Htok). congruence.
Qed.

(** Without a field name the decoder reads [attrs] as well, and still no
    coordinate. *)
Lemma record_to_array_coords_agree (d d' : dict) vf :
  agree_outside coord_keys d d' →
  record_to_array J d' vf = record_to_array J d vf.
Proof.
  intros Hagree. destruct vf as [f|].
  - apply (record_to_array_explicit_agree coord_keys); [|done].
    intros k Hk. by right.
  - assert (attrs_value_field J d' = attrs_value_field J d) as Hfield.
    { unfold attrs_value_field, getitem.
      rewrite (Hagree "attrs"); [done|compute_done]. }
    assert (∀ r : dict, record_to_array J r None
            = attrs_value_field J r ≫= λ f, record_to_array J r (Some f))
      as Hnone by done.
    rewrite !Hnone, Hfield.
    destruct (attrs_value_field J d) as [f|]; [|done]. simpl.
    apply (record_to_array_explicit_agree coord_keys); [|done].
    intros k Hk. by right.
Qed.

(** X4: decoding never reads the corner coordinates, and with an explicit
    field name it does not read [attrs] either: records that agree on every
    other entry decode alike, to the same array or the same exception. *)
Theorem record_to_array_reads (d d' : dict) :
  (agree_outside coord_keys d d' →
   ∀ vf, record_to_array J d' vf = record_to_array J d vf)
  ∧ (agree_outside ("attrs" :: coord_keys) d d' →
     ∀ f, record_to_array J d' (Some f) = record_to_array J d (Some f)).
Proof.
  split.
  - intros Hagree vf. by apply record_to_array_coords_agree.
  - intros Hagree f.
    by apply (record_to_array_explicit_agree ("attrs" :: coord_keys)).
Qed.

End DecodingFacts.

(** X6: with the stored key given, decoding needs neither [attrs] nor the
    JSON library: the block comes back from the payload and the two
    dimensions alone, also under a codec other than the encoder's. *)
Theorem record_to_array_explicit_key (J J' : json_codec) arr t r c f crs
    band rec :
  wf_ndarray arr →
  array_to_record J arr t r c f crs band = Ok rec →
  record_to_array J' rec (Some (f +:+ "_" +:+ dtype_str (arr_dtype arr)))
  = Ok arr
  ∧ record_to_array J' (delete "attrs" rec)
      (Some (f +:+ "_" +:+ dtype_str (arr_dtype arr)))
    = Ok arr.
Proof.
  intros Hwf Hrec.
  destruct (array_to_record_entries _ _ _ _ _ _ _ _ _ Hrec)
    as (h & w & Hshape & Hh & Hw & Hbuf).
  destruct (wf_ndarray_2d arr h w Hwf Hshape) as (Hh0 & Hw0 & Hlen).
  assert (record_to_array J' rec
            (Some (f +:+ "_" +:+ dtype_str (arr_dtype arr))) = Ok arr)
    as Hdec.
  { rewrite (record_to_array_explicit J' rec
               (f +:+ "_" +:+ dtype_str (arr_dtype arr))
               (dtype_str (arr_dtype arr)) (arr_dtype arr) h w (tobytes arr)
               (last_token_of_key f _) (np_dtype_str _) Hh Hw Hbuf).
    rewrite frombuffer_reshape_ok by done.
    destruct arr as [dt shape buf]. simpl in *. by subst shape. }
  split; [done|]. rewrite <- Hdec.
  apply (record_to_array_explicit_agree J' ["attrs"]).
  - intros k Hk. apply list_elem_of_singleton in Hk as ->. by left.
  - intros k Hk. apply lookup_delete_ne. intros <-. apply Hk. by left.
Qed.


Lemma record_to_array_reads_witness :
  record_to_array ref_json (<["lon_NW" := VFloat 100]> demo_encoded) None
  = record_to_array ref_json demo_encoded None.
Proof.
  apply (record_to_array_reads ref_json demo_encoded
           (<["lon_NW" := VFloat 100]> demo_encoded)).
  intros k Hk. apply lookup_insert_ne. intros <-. apply Hk. compute_done.
Defined.

Lemma record_to_array_explicit_key_witness :
  ∃ rec,
    array_to_record_default ref_json (zeros uint8 2 3) Affine_identity = Ok rec
    ∧ record_to_array ref_json (delete "attrs" rec) (Some "band_1_uint8")
      = Ok (zeros uint8 2 3).
Proof.
  eexists. split; [reflexivity|].
  apply (record_to_array_explicit_key ref_json ref_json (zeros uint8 2 3)
           Affine_identity 0 0 "band_1" "EPSG:4326" 1 _ eq_refl eq_refl).
Defined.

(** ** Reprojection: what it does to the record *)

Lemma list_alter_lookup {A} (f : A → A) (l : list A) i x :
  l !! i = Some x → alter f i l = <[i := f x]> l.
Proof.
  revert i. induction l as [|y l IH]; intros [|i] Hi; simpl in *; try done.
  - by injection Hi as ->.
  - f_equal. by apply IH.
Qed.

Lemma bind_raise {A B} (m : M A) (f : A → M B) w e w1 :
  m w = (Raise e, w1) → (m ≫= f) w = (Raise e, w1).
Proof. intros Hm. unfold mbind, M_bind. by rewrite Hm. Qed.

Section ReprojectionFacts.

Context (E : externals).

Hypothesis rasterio_available : rasterio_installed E = true.

(** One corner, run on the record at [l]. *)
Lemma reproject_corner_step src dst tr l lon_col lat_col w d :
  Transformer_from_crs E src dst = Ok tr →
  heap w !! l = Some d →
  reproject_corner E src dst l (lon_col, lat_col) w
  = match d !! lon_col with
    | None => (Raise (KeyError lon_col), w)
    | Some lon =>
        match d !! lat_col with
        | None => (Raise (KeyError lat_col), w)
        | Some lat =>
            match Transformer_transform E tr lon lat with
            | Raise e =>
                (Raise e,
                 mk_world (heap w) (trace w ++ [EvTransform lon lat]))
            | Ok (x, y) =>
                (Ok (),
                 mk_world (<[l := <[lat_col := y]> (<[lon_col := x]> d)]>
                             (heap w))
                          (trace w ++ [EvTransform lon lat]))
            end
        end
    end.
Proof.
  intros Htr Hd.
  unfold reproject_corner, mbind, M_bind, lift, getitem_ref, getitem, deref,
    emit, setitem.
  rewrite Htr, Hd. simpl.
  destruct (d !! lon_col) as [lon|]; simpl; [|done].
  destruct (d !! lat_col) as [lat|]; simpl; [|done].
  destruct (Transformer_transform E tr lon lat) as [[x y]|e]; simpl; [|done].
  rewrite list_alter_alter_eq. by rewrite (list_alter_lookup _ _ _ d Hd).
Qed.

(** The loop over the corners, run on the record at [l], is
    [reproject_dict] on that record. *)
Lemma for_each_corner_run src dst tr l pairs :
  Transformer_from_crs E src dst = Ok tr →
  ∀ w d, heap w !! l = Some d →
    for_each pairs (reproject_corner E src dst l) w
    = let '(r, d', evs) :=
        reproject_dict (Transformer_transform E tr) d pairs in
      (r, mk_world (<[l := d']> (heap w)) (trace w ++ evs)).
Proof.
  intros Htr. induction pairs as [|[lon_col lat_col] pairs IH];
    intros w d Hd.
  - simpl. rewrite list_insert_id by done. rewrite app_nil_r. by destruct w.
  - change (for_each ((lon_col, lat_col) :: pairs)
              (reproject_corner E src dst l) w)
      with ((reproject_corner E src dst l (lon_col, lat_col)
             ≫= λ _, for_each pairs (reproject_corner E src dst l)) w).
    pose proof (reproject_corner_step src dst tr l lon_col lat_col w d
                  Htr Hd) as Hstep.
    simpl.
    destruct (d !! lon_col) as [lon|].
    2: { rewrite (bind_raise _ _ _ _ _ Hstep).
         rewrite list_insert_id by done. rewrite app_nil_r. by destruct w. }
    destruct (d !! lat_col) as [lat|].
    2: { rewrite (bind_raise _ _ _ _ _ Hstep).
         rewrite list_insert_id by done. rewrite app_nil_r. by destruct w. }
    destruct (Transformer_transform E tr lon lat) as [[x y]|e].
    2: { rewrite (bind_raise _ _ _ _ _ Hstep).
         by rewrite list_insert_id by done. }
    rewrite (bind_ok _ _ _ _ _ Hstep).
    rewrite (IH _ (<[lat_col:=y]> (<[lon_col:=x]> d))).
    2: { simpl. apply list_lookup_insert_eq. by eapply lookup_lt_Some. }
    simpl.
    destruct (reproject_dict (Transformer_transform E tr)
                (<[lat_col:=y]> (<[lon_col:=x]> d)) pairs) as [[r d'] evs].
    by rewrite list_insert_insert_eq, <- app_assoc.
Qed.

(** X7: on a record of the store, [reproject_record] is the function
    [reproject_dict] of the record: it returns the reference when that
    function succeeds, raises what it raises, stores the record it leaves
    and calls the projection engine on the points it lists. *)
Theorem reproject_record_as_function l src_crs dst_crs src dst tr w d :
  CRS_from_string E src_crs = Ok src →
  CRS_from_string E dst_crs = Ok dst →
  Transformer_from_crs E src dst = Ok tr →
  heap w !! l = Some d →
  reproject_record E l src_crs dst_crs w
  = let '(r, d', evs) :=
      reproject_dict (Transformer_transform E tr) d corner_pairs in
    (r ≫= (λ _, Ok l),
     mk_world (<[l := d']> (heap w))
              (trace w ++ EvCRS src_crs :: EvCRS dst_crs :: evs)).
Proof.
  intros Hsrc Hdst Htr Hd.
  unfold reproject_record, import_rasterio. rewrite rasterio_available.
  erewrite bind_ok; [|reflexivity].
  erewrite bind_ok; [|reflexivity].
  erewrite bind_ok; [|unfold lift; rewrite Hsrc; reflexivity].
  erewrite bind_ok; [|reflexivity].
  erewrite bind_ok; [|unfold lift; rewrite Hdst; reflexivity].
  unfold mbind, M_bind.
  rewrite (for_each_corner_run src dst tr l _ Htr _ d) by done.
  fold corner_pairs.
  destruct (reproject_dict (Transformer_transform E tr) d corner_pairs)
    as [[[[]|e] d'] evs]; cbn [heap trace mret M_ret mbind result_bind];
    by rewrite <- !app_assoc.
Qed.

End ReprojectionFacts.

Global Instance same_store_preorder : PreOrder same_store.
Proof.
  split; [done|]. intros w1 w2 w3 H12 H23. unfold same_store in *. congruence.
Qed.

Section ReprojectionEffects.

Context (E : externals).

Lemma reproject_corner_identity src dst l cols :
  (∀ tr x y, Transformer_transform E tr x y = Ok (x, y)) →
  respects same_store (reproject_corner E src dst l cols).
Proof.
  intros Hid w. destruct cols as [lon_col lat_col]. unfold same_store.
  destruct (Transformer_from_crs E src dst) as [tr|e] eqn:Htr.
  2: { unfold reproject_corner, mbind, M_bind, lift. by rewrite Htr. }
  destruct (heap w !! l) as [d|] eqn:Hd.
  - rewrite (reproject_corner_step E src dst tr l lon_col lat_col w d Htr Hd).
    destruct (d !! lon_col) as [lon|] eqn:Hlon; [|done].
    destruct (d !! lat_col) as [lat|] eqn:Hlat; [|done].
    rewrite Hid. simpl.
    rewrite (insert_id d lon_col lon Hlon), (insert_id d lat_col lat Hlat).
    by apply list_insert_id.
  - unfold reproject_corner, mbind, M_bind, lift, getitem_ref, getitem, deref.
    by rewrite Htr, Hd.
Qed.

(** X8: a projection that maps every point to itself leaves the whole
    store as it was, whatever the record holds and whether or not the call
    succeeds. *)
Theorem reproject_record_identity l src_crs dst_crs w :
  (∀ tr x y, Transformer_transform E tr x y = Ok (x, y)) →
  heap (reproject_record E l src_crs dst_crs w).2 = heap w.
Proof.
  intros Hid. revert w.
  change (respects same_store (reproject_record E l src_crs dst_crs)).
  unfold reproject_record.
  apply respects_bind; [apply _| |intros _].
  { intros w. by rewrite import_rasterio_same_world. }
  apply respects_bind; [apply _|done|intros _].
  apply respects_bind; [apply _|apply respects_lift; apply _|intros src].
  apply respects_bind; [apply _|done|intros _].
  apply respects_bind; [apply _|apply respects_lift; apply _|intros dst].
  apply respects_bind; [apply _| |intros _; apply respects_ret; apply _].
  apply respects_for_each; [apply _|].
  intros cols _. by apply reproject_corner_identity.
Qed.

(** X9: when the projection library is missing, or does not know one of
    the two CRS, the call raises before it looks at the record: the store is
    untouched and the transformer is never called. *)
Theorem reproject_record_fails_early l src_crs dst_crs w :
  (rasterio_installed E = false →
   reproject_record E l src_crs dst_crs w
   = (Raise (ImportError "rasterio"), w))
  ∧ (rasterio_installed E = true →
     ∀ e, CRS_from_string E src_crs = Raise e →
       reproject_record E l src_crs dst_crs w
       = (Raise e, mk_world (heap w) (trace w ++ [EvCRS src_crs])))
  ∧ (rasterio_installed E = true →
     ∀ src e, CRS_from_string E src_crs = Ok src →
       CRS_from_string E dst_crs = Raise e →
       reproject_record E l src_crs dst_crs w
       = (Raise e,
          mk_world (heap w) (trace w ++ [EvCRS src_crs; EvCRS dst_crs]))).
Proof.
  unfold reproject_record, import_rasterio.
  split; [|split].
  - by intros ->.
  - intros -> e Hsrc.
    erewrite bind_ok; [|reflexivity].
    erewrite bind_ok; [|reflexivity].
    erewrite bind_raise; [reflexivity|]. unfold lift. by rewrite Hsrc.
  - intros -> src e Hsrc Hdst.
    erewrite bind_ok; [|reflexivity].
    erewrite bind_ok; [|reflexivity].
    erewrite bind_ok; [|unfold lift; rewrite Hsrc; reflexivity].
    erewrite bind_ok; [|reflexivity].
    erewrite bind_raise; [|unfold lift, emit; rewrite Hdst; reflexivity].
    simpl. by rewrite <- app_assoc.
Qed.

End ReprojectionEffects.

Lemma reproject_record_as_function_witness :
  reproject_record demo_externals 0%nat "EPSG:3857" "EPSG:4326" demo_world
  = let '(r, d', evs) :=
      reproject_dict
        (Transformer_transform demo_externals ("EPSG:3857", "EPSG:4326"))
        demo_record corner_pairs in
    (r ≫= (λ _, Ok 0%nat),
     mk_world (<[0%nat := d']> (heap demo_world))
              (trace demo_world
               ++ EvCRS "EPSG:3857" :: EvCRS "EPSG:4326" :: evs)).
Proof.
  exact (reproject_record_as_function demo_externals eq_refl 0%nat
           "EPSG:3857" "EPSG:4326" "EPSG:3857" "EPSG:4326"
           ("EPSG:3857", "EPSG:4326") demo_world demo_record
           eq_refl eq_refl eq_refl eq_refl).
Defined.

Section ReprojectionResult.

Context (E : externals).

Hypothesis rasterio_available : rasterio_installed E = true.

(** X10: with a projection that accepts every point, reprojection succeeds
    on a record holding the eight coordinates.  The engine is called once
    per corner in the order NW, NE, SW, SE, always on the values the record
    held before the call; each corner becomes the image of the old one and
    nothing else in the record changes. *)
Theorem reproject_record_corners l src_crs dst_crs src dst tr proj w d :
  CRS_from_string E src_crs = Ok src →
  CRS_from_string E dst_crs = Ok dst →
  Transformer_from_crs E src dst = Ok tr →
  (∀ x y, Transformer_transform E tr x y = Ok (proj x y)) →
  heap w !! l = Some d →
  (∀ k, k ∈ coord_keys → is_Some (d !! k)) →
  ∃ d',
    reproject_record E l src_crs dst_crs w
    = (Ok l,
       mk_world (<[l := d']> (heap w))
         (trace w ++ EvCRS src_crs :: EvCRS dst_crs ::
            ((λ p, EvTransform (entry d p.1) (entry d p.2))
               <$> corner_pairs)))
    ∧ (∀ lon_col lat_col, (lon_col, lat_col) ∈ corner_pairs →
         d' !! lon_col = Some (proj (entry d lon_col) (entry d lat_col)).1
         ∧ d' !! lat_col
           = Some (proj (entry d lon_col) (entry d lat_col)).2)
    ∧ agree_outside coord_keys d d'.
Proof.
  intros Hsrc Hdst Htr Hproj Hd Hall.
  destruct (Hall "lon_NW" ltac:(compute_done)) as [x1 Hx1].
  destruct (Hall "lat_NW" ltac:(compute_done)) as [y1 Hy1].
  destruct (Hall "lon_NE" ltac:(compute_done)) as [x2 Hx2].
  destruct (Hall "lat_NE" ltac:(compute_done)) as [y2 Hy2].
  destruct (Hall "lon_SW" ltac:(compute_done)) as [x3 Hx3].
  destruct (Hall "lat_SW" ltac:(compute_done)) as [y3 Hy3].
  destruct (Hall "lon_SE" ltac:(compute_done)) as [x4 Hx4].
  destruct (Hall "lat_SE" ltac:(compute_done)) as [y4 Hy4].
  unfold reproject_record, import_rasterio. rewrite rasterio_available.
  erewrite bind_ok; [|reflexivity].
  erewrite bind_ok; [|reflexivity].
  erewrite bind_ok; [|unfold lift; rewrite Hsrc; reflexivity].
  erewrite bind_ok; [|reflexivity].
  erewrite bind_ok; [|unfold lift; rewrite Hdst; reflexivity].
  unfold mbind, M_bind.
  rewrite (for_each_corner_run E src dst tr l _ Htr _ d) by done.
  unfold entry, corner_pairs. cbn [reproject_dict fmap list_fmap fst snd].
  rewrite Hx1, Hy1, Hproj. destruct (proj x1 y1) as [u1 v1] eqn:Hp1.
  rewrite !lookup_insert_ne by done. rewrite Hx2, Hy2, Hproj.
  destruct (proj x2 y2) as [u2 v2] eqn:Hp2.
  rewrite !lookup_insert_ne by done. rewrite Hx3, Hy3, Hproj.
  destruct (proj x3 y3) as [u3 v3] eqn:Hp3.
  rewrite !lookup_insert_ne by done. rewrite Hx4, Hy4, Hproj.
  destruct (proj x4 y4) as [u4 v4] eqn:Hp4.
  cbn [heap trace mret M_ret default].
  eexists. split; [|split].
  - by rewrite <- !app_assoc.
  - intros lon_col lat_col Hin.
    apply elem_of_cons in Hin as [Hin|Hin];
      [|apply elem_of_cons in Hin as [Hin|Hin];
        [|apply elem_of_cons in Hin as [Hin|Hin];
          [|apply list_elem_of_singleton in Hin]]];
      injection Hin as -> ->;
      rewrite ?Hx1, ?Hy1, ?Hx2, ?Hy2, ?Hx3, ?Hy3, ?Hx4, ?Hy4;
      unfold default, from_option, id;
      rewrite ?Hp1, ?Hp2, ?Hp3, ?Hp4; cbn [fst snd];
      split; by simplify_map_eq.
  - intros k Hk.
    rewrite !lookup_insert_ne; [done|intros <-; apply Hk; compute_done..].
Qed.

End ReprojectionResult.

Lemma reproject_record_corners_witness :
  ∃ d',
    reproject_record demo_externals 0%nat "EPSG:3857" "EPSG:4326" demo_world
    = (Ok 0%nat,
       mk_world (<[0%nat := d']> (heap demo_world))
         (trace demo_world ++ EvCRS "EPSG:3857" :: EvCRS "EPSG:4326" ::
            ((λ p, EvTransform (entry demo_record p.1) (entry demo_record p.2))
               <$> corner_pairs)))
    ∧ d' !! "lon_NE" = Some (VFloat 0) ∧ d' !! "lat_NE" = Some (VFloat 3).
Proof.
  destruct (reproject_record_corners demo_externals eq_refl 0%nat
              "EPSG:3857" "EPSG:4326" "EPSG:3857" "EPSG:4326"
              ("EPSG:3857", "EPSG:4326") (λ x y, (y, x)) demo_world
              demo_record eq_refl eq_refl eq_refl (λ x y, eq_refl) eq_refl)
    as (d' & Hrun & Hcorners & _).
  { intros k Hk. unfold coord_keys in Hk.
    repeat (apply elem_of_cons in Hk as [->|Hk];
            [eexists; vm_compute; reflexivity|]).
    by apply elem_of_nil in Hk. }
  exists d'. split; [exact Hrun|].
  apply (Hcorners "lon_NE" "lat_NE"). compute_done.
Defined.

(** ** Decoding after reprojection *)

Section DecodeReprojected.

Context (E : externals) (J : json_codec).

Hypothesis J_lawful : json_lawful J.

(** X11: reprojection does not harm the payload.  Whatever CRS pair a
    record built from a block is reprojected with, and whether or not the
    projection succeeds, the record left in the store still decodes to the
    block. *)
Theorem record_to_array_reproject_record arr t r c f crs band rec l w
    src_crs dst_crs :
  wf_ndarray arr →
  array_to_record J arr t r c f crs band = Ok rec →
  heap w !! l = Some rec →
  record_to_array J (deref (reproject_record E l src_crs dst_crs w).2 l) None
  = Ok arr.
Proof.
  intros Hwf Hrec Hl.
  destruct (reproject_record_frame E l src_crs dst_crs w) as (_ & _ & Hkept).
  destruct (Hkept rec Hl) as (d' & Hl' & Hagree).
  unfold deref. rewrite Hl'. simpl.
  rewrite (record_to_array_coords_agree J rec d' None Hagree).
  destruct (array_to_record_entries _ _ _ _ _ _ _ _ _ Hrec)
    as (h & wd & Hshape & _).
  destruct (wf_ndarray_2d arr h wd Hwf Hshape) as (Hh & Hw & Hlen).
  rewrite (record_to_array_of_record J J_lawful _ _ _ _ _ _ _ _ h wd
             Hrec Hshape).
  rewrite frombuffer_reshape_ok by done.
  destruct arr as [d shape buf]. simpl in *. by subst shape.
Qed.

End DecodeReprojected.

Lemma record_to_array_reproject_record_witness :
  record_to_array ref_json
    (deref (reproject_record demo_externals 0%nat "EPSG:3857" "EPSG:4326"
              (mk_world [demo_encoded] [])).2 0%nat) None
  = Ok (zeros uint8 2 3).
Proof.
  apply (record_to_array_reproject_record demo_externals ref_json
           ref_json_lawful (zeros uint8 2 3) Affine_identity 0 0 "band_1"
           "EPSG:4326" 1 demo_encoded 0%nat (mk_world [demo_encoded] [])
           "EPSG:3857" "EPSG:4326"); reflexivity.
Defined.

(** ** The records of a raster *)

Lemma bind_inv {A B} (m : M A) (f : A → M B) w b w' :
  (m ≫= f) w = (Ok b, w') →
  ∃ a w1, m w = (Ok a, w1) ∧ f a w1 = (Ok b, w').
Proof.
  unfold mbind, M_bind. destruct (m w) as [[a|e] w1]; [eauto|done].
Qed.

Lemma deref_app_l w w' rest l :
  heap w' = heap w ++ rest → (l < length (heap w))%nat →
  deref w' l = deref w l.
Proof. intros Hheap Hl. unfold deref. by rewrite Hheap, lookup_app_l. Qed.

Lemma deref_app_new w w' d rest :
  heap w' = heap w ++ d :: rest → deref w' (length (heap w)) = d.
Proof.
  intros Hheap. unfold deref.
  by rewrite Hheap, lookup_app_r, Nat.sub_diag by lia.
Qed.

Lemma deref_seq w' h recs rest :
  heap w' = h ++ recs ++ rest →
  deref w' <$> seq (length h) (length recs) = recs.
Proof.
  revert h. induction recs as [|d recs IH]; intros h Hheap; [done|]. simpl.
  f_equal.
  - unfold deref. by rewrite Hheap, lookup_app_r, Nat.sub_diag by lia.
  - specialize (IH (h ++ [d])). rewrite length_app, Nat.add_1_r in IH.
    apply IH. by rewrite <- app_assoc.
Qed.

Section BlockRecords.

Context (E : externals) (J : json_codec).

Hypothesis J_lawful : json_lawful J.

(** A record that differs from an encoded block in its coordinates only
    still holds the block. *)
Lemma agree_holds_block arr t r c f crs band rec d :
  wf_ndarray arr →
  array_to_record J arr t r c f crs band = Ok rec →
  agree_outside coord_keys rec d →
  holds_block J crs band r c arr d.
Proof.
  intros Hwf Hrec Hagree. split.
  - rewrite (record_to_array_coords_agree J rec d None Hagree).
    destruct (array_to_record_entries _ _ _ _ _ _ _ _ _ Hrec)
      as (h & wd & Hshape & _).
    destruct (wf_ndarray_2d arr h wd Hwf Hshape) as (Hh & Hw & Hlen).
    rewrite (record_to_array_of_record J J_lawful _ _ _ _ _ _ _ _ h wd
               Hrec Hshape).
    rewrite frombuffer_reshape_ok by done.
    destruct arr as [dt shape buf]. simpl in *. by subst shape.
  - eexists. split; [|repeat split].
    + unfold getitem. rewrite (Hagree "attrs") by compute_done.
      by apply (array_to_record_attrs_loads J J_lawful).
    + reflexivity.
    + reflexivity.
    + reflexivity.
    + reflexivity.
Qed.

(** One iteration that yields: the block read, the record made of it and
    the record the store has gained. *)
Lemma window_to_record_run ds band crs win w l w' :
  window_to_record E J ds band crs win w = (Ok l, w') →
  l = length (heap w)
  ∧ ∃ arr rec d,
      ds_read ds band win = Ok arr
      ∧ array_to_record J arr (ds_transform ds) (win_row_off win)
          (win_col_off win) "band_1" crs band = Ok rec
      ∧ heap w' = heap w ++ [d]
      ∧ agree_outside coord_keys rec d.
Proof.
  unfold window_to_record. intros Hrun.
  apply bind_inv in Hrun as (arr & w1 & Hread & Hrun).
  apply bind_inv in Hrun as (rec & w2 & Hrec & Hrun).
  apply bind_inv in Hrun as (l0 & w3 & Halloc & Hrun).
  unfold lift in Hread, Hrec.
  injection Hread as Hread <-. injection Hrec as Hrec <-.
  unfold alloc in Halloc. injection Halloc as <- <-.
  destruct (negb (String.eqb (str_upper E crs) "EPSG:4326")).
  - pose proof (reproject_record_value E _ _ _ _ l
                  ltac:(by rewrite Hrun)) as ->.
    split; [done|]. exists arr, rec.
    destruct (reproject_record_frame E (length (heap w)) crs "EPSG:4326"
                (mk_world (heap w ++ [rec]) (trace w)))
      as (Hlen & Hothers & Hkept).
    rewrite Hrun in Hlen, Hothers, Hkept. simpl in Hlen, Hothers, Hkept.
    destruct (Hkept rec) as (d & Hd & Hagree).
    { by rewrite lookup_app_r, Nat.sub_diag by lia. }
    exists d. split; [by destruct (ds_read ds band win); simplify_eq|].
    split; [by destruct (array_to_record _ _ _ _ _ _ _ _); simplify_eq|].
    split; [|done].
    apply list_eq. intros i.
    destruct (decide (i = length (heap w))) as [->|Hi].
    + by rewrite Hd, lookup_app_r, Nat.sub_diag by lia.
    + rewrite Hothers by done.
      destruct (decide (i < length (heap w))%nat).
      * by rewrite !lookup_app_l by done.
      * rewrite !lookup_ge_None_2; [done|..];
          rewrite length_app; simpl; lia.
  - injection Hrun as <- <-. split; [done|]. exists arr, rec, rec.
    split; [by destruct (ds_read ds band win); simplify_eq|].
    split; [by destruct (array_to_record _ _ _ _ _ _ _ _); simplify_eq|].
    done.
Qed.

End BlockRecords.

Section RasterRecords.

Context (E : externals) (J : json_codec).

Hypothesis J_lawful : json_lawful J.

(** X12: an iteration that yields has appended exactly one record to the
    store and yields the reference to it; no earlier record has changed.
    The new record decodes to the block read at the window, and its
    attributes carry the window's offsets, the band and the CRS the
    iteration works with, also when its corners were reprojected. *)
Theorem window_to_record_appends ds band crs win w l w' :
  (∀ arr, ds_read ds band win = Ok arr → wf_ndarray arr) →
  window_to_record E J ds band crs win w = (Ok l, w') →
  l = length (heap w)
  ∧ ∃ d, heap w' = heap w ++ [d] ∧ record_of_window J ds band crs win d.
Proof.
  intros Hwf Hrun.
  apply (window_to_record_run E J) in Hrun
    as (-> & arr & rec & d & Hread & Hrec & Hheap & Hagree).
  split; [done|]. exists d. split; [done|].
  exists arr. split; [done|].
  apply (agree_holds_block J J_lawful arr (ds_transform ds) _ _ "band_1"
           crs band rec d); auto.
Qed.

(** A loop over the iterations whose body leaves the store alone: the
    store gains one record per window, in the order of the windows. *)
Lemma for_items_windows_heap {S} (body : S → nat → M S) ds band crs :
  (∀ s a w s' w', body s a w = (Ok s', w') → heap w' = heap w) →
  ∀ windows s w s' w',
    (∀ win arr, win ∈ windows → ds_read ds band win = Ok arr →
                wf_ndarray arr) →
    for_items (window_to_record E J ds band crs <$> windows) body s w
    = (Ok s', w') →
    ∃ recs, heap w' = heap w ++ recs
            ∧ Forall2 (record_of_window J ds band crs) windows recs.
Proof.
  intros Hbody. induction windows as [|win windows IH];
    intros s w s' w' Hwf Hrun.
  - injection Hrun as <- <-. exists []. by rewrite app_nil_r.
  - cbn [fmap list_fmap for_items] in Hrun.
    apply bind_inv in Hrun as (l & w1 & Hitem & Hrun).
    apply bind_inv in Hrun as (s1 & w2 & Hstep & Hrun).
    apply (window_to_record_run E J) in Hitem
      as (-> & arr & rec & d & Hread & Hrec & Hheap & Hagree).
    apply Hbody in Hstep.
    apply IH in Hrun as (recs & Hheap' & Hall).
    2: { intros win' arr' Hin. apply Hwf. by right. }
    exists (d :: recs). split.
    + by rewrite Hheap', Hstep, Hheap, <- app_assoc.
    + constructor; [|done]. exists arr. split; [done|].
      apply (agree_holds_block J J_lawful arr (ds_transform ds) _ _ "band_1"
               crs band rec d); [|done..].
      apply (Hwf win); [by left|done].
Qed.

(** Collecting the iterations in a list: the references collected and the
    events of the run. *)
Lemma for_items_drain ds band crs windows :
  ∀ acc w locs w',
    for_items (window_to_record E J ds band crs <$> windows)
      (λ acc a, mret (acc ++ [a])) acc w = (Ok locs, w') →
    locs = acc ++ seq (length (heap w)) (length windows)
    ∧ ∃ evs, trace w' = trace w ++ evs ∧ uploads evs = [].
Proof.
  induction windows as [|win windows IH]; intros acc w locs w' Hrun.
  - injection Hrun as <- <-. split; [by rewrite app_nil_r|].
    exists []. by rewrite app_nil_r.
  - cbn [fmap list_fmap for_items] in Hrun.
    apply bind_inv in Hrun as (l & w1 & Hitem & Hrun).
    apply bind_inv in Hrun as (s1 & w2 & Hstep & Hrun).
    injection Hstep as <- <-.
    destruct (no_upload_window_to_record E J ds band crs win w)
      as (evs1 & Htr1 & Hup1).
    rewrite Hitem in Htr1. simpl in Htr1.
    apply (window_to_record_run E J) in Hitem
      as (-> & arr & rec & d & Hread & Hrec & Hheap & Hagree).
    apply IH in Hrun as (-> & evs & Htr & Hup).
    split.
    + rewrite Hheap, length_app, Nat.add_1_r, <- app_assoc. done.
    + exists (evs1 ++ evs). split.
      * by rewrite Htr, Htr1, <- app_assoc.
      * by rewrite uploads_app, Hup1, Hup.
Qed.

(** How a started iteration looks, when it starts. *)
Lemma rasterio_windows_to_records_items file_path band input_crs w ds
    raster_crs items w1 :
  rasterio_open E file_path = Ok ds →
  ds_crs ds = Ok raster_crs →
  rasterio_windows_to_records E J file_path band input_crs w
  = (Ok items, w1) →
  items = (window_to_record E J ds band
             (effective_crs input_crs raster_crs) <$> ds_block_windows ds)
  ∧ heap w1 = heap w
  ∧ ∃ evs, trace w1 = trace w ++ evs ∧ uploads evs = [].
Proof.
  intros Hopen Hraster Hgen.
  destruct (rasterio_installed E) eqn:Hinst.
  2: { unfold rasterio_windows_to_records, import_rasterio in Hgen.
       by rewrite Hinst in Hgen. }
  destruct (rasterio_windows_to_records_start E J Hinst file_path band
              input_crs w ds raster_crs Hopen Hraster)
    as (evs & Hup & _ & Hstart).
  rewrite Hstart in Hgen.
  destruct (String.eqb _ EmptyString); [done|].
  injection Hgen as <- <-. split; [done|]. split; [done|]. by exists evs.
Qed.

(** The whole iteration, collected. *)
Lemma drain_rasterio_windows_to_records_run file_path band input_crs w ds
    raster_crs locs w' :
  rasterio_open E file_path = Ok ds →
  ds_crs ds = Ok raster_crs →
  reads_well_formed ds band →
  drain (rasterio_windows_to_records E J file_path band input_crs) w
  = (Ok locs, w') →
  locs = seq (length (heap w)) (length (ds_block_windows ds))
  ∧ (∃ recs, heap w' = heap w ++ recs
             ∧ Forall2 (record_of_window J ds band
                          (effective_crs input_crs raster_crs))
                 (ds_block_windows ds) recs)
  ∧ ∃ evs, trace w' = trace w ++ evs ∧ uploads evs = [].
Proof.
  intros Hopen Hraster Hwf Hrun. unfold drain, for_gen in Hrun.
  apply bind_inv in Hrun as (items & w1 & Hgen & Hrun).
  apply (rasterio_windows_to_records_items _ _ _ _ ds raster_crs) in Hgen
    as (-> & Hheap1 & evs1 & Htr1 & Hup1); [|done..].
  pose proof Hrun as Hlocs.
  apply for_items_drain in Hlocs as (-> & evs & Htr & Hup).
  apply for_items_windows_heap in Hrun as (recs & Hheap & Hall);
    [|by intros ????? [= <- <-]|done].
  split; [by rewrite Hheap1|]. split.
  - exists recs. by rewrite Hheap, Hheap1.
  - exists (evs1 ++ evs). split.
    + by rewrite Htr, Htr1, <- app_assoc.
    + by rewrite uploads_app, Hup1, Hup.
Qed.

(** X13: a full pass over the records of a raster leaves one new record
    per block window in the store, in the order of the windows, and the
    references it returns are to these records: the i-th record decodes to
    the block read at the i-th window and carries its offsets, the band and
    the CRS in force.  Nothing is uploaded on the way. *)
Theorem drain_rasterio_windows_to_records file_path band input_crs w ds
    raster_crs locs w' :
  rasterio_open E file_path = Ok ds →
  ds_crs ds = Ok raster_crs →
  reads_well_formed ds band →
  drain (rasterio_windows_to_records E J file_path band input_crs) w
  = (Ok locs, w') →
  Forall2 (record_of_window J ds band (effective_crs input_crs raster_crs))
    (ds_block_windows ds) (deref w' <$> locs)
  ∧ heap w' = heap w ++ (deref w' <$> locs)
  ∧ uploads (new_events w w') = [].
Proof.
  intros Hopen Hraster Hwf Hrun.
  apply (drain_rasterio_windows_to_records_run _ _ _ _ ds raster_crs)
    in Hrun as (-> & (recs & Hheap & Hall) & evs & Htr & Hup); [|done..].
  rewrite (Forall2_length _ _ _ Hall).
  rewrite (deref_seq w' (heap w) recs []) by by rewrite app_nil_r.
  split; [done|]. split; [done|].
  unfold new_events. by rewrite Htr, drop_app_length.
Qed.

End RasterRecords.

Lemma demo_dataset_reads_well_formed band :
  reads_well_formed demo_dataset band.
Proof.
  intros win arr Hin [= <-]. unfold demo_dataset in Hin. simpl in Hin.
  repeat (apply elem_of_cons in Hin as [->|Hin]; [reflexivity|]).
  by apply elem_of_nil in Hin.
Qed.

Lemma window_to_record_appends_witness :
  ∃ d,
    heap (window_to_record demo_externals ref_json demo_dataset 1
            "EPSG:3857" (mk_window 3 0 3 2) demo_world).2
    = heap demo_world ++ [d]
    ∧ record_of_window ref_json demo_dataset 1 "EPSG:3857"
        (mk_window 3 0 3 2) d.
Proof.
  destruct (window_to_record_appends demo_externals ref_json ref_json_lawful
              demo_dataset 1 "EPSG:3857" (mk_window 3 0 3 2) demo_world
              1%nat
              (window_to_record demo_externals ref_json demo_dataset 1
                 "EPSG:3857" (mk_window 3 0 3 2) demo_world).2)
    as (_ & d & Hheap & Hd).
  - intros arr [= <-]. reflexivity.
  - vm_compute. reflexivity.
  - exists d. split; [exact Hheap|exact Hd].
Defined.

Lemma drain_rasterio_windows_to_records_witness :
  let run :=
    drain (rasterio_windows_to_records demo_externals ref_json "raster.tif"
             1 None) empty_world in
  run.1 = Ok [0; 1; 2; 3; 4]%nat
  ∧ Forall2 (record_of_window ref_json demo_dataset 1 "EPSG:4326")
      (ds_block_windows demo_dataset)
      (deref run.2 <$> [0; 1; 2; 3; 4]%nat).
Proof.
  intros run.
  assert (run = (Ok [0; 1; 2; 3; 4]%nat, run.2)) as Hrun
    by (vm_compute; reflexivity).
  split; [by rewrite Hrun|].
  apply (drain_rasterio_windows_to_records demo_externals ref_json
           ref_json_lawful "raster.tif" 1 None empty_world demo_dataset
           "EPSG:4326" [0; 1; 2; 3; 4]%nat run.2 eq_refl eq_refl
           (demo_dataset_reads_well_formed 1) Hrun).
Defined.

(** ** The upload, end to end *)

Section Uploads.

Context (E : externals) (J : json_codec).
Context (table_id dataset_id project_id : string).

Hypothesis J_lawful : json_lawful J.

(** An upload of a list of records that returns has made one load call,
    with one row per record. *)
Lemma records_to_bigquery_inv records w u w' :
  records_to_bigquery E (mret records) table_id dataset_id project_id w
  = (Ok u, w') →
  w' = mk_world (heap w)
         (trace w ++ [EvLoadTable
                        (project_id +:+ "." +:+ dataset_id +:+ "."
                         +:+ table_id)
                        (deref w <$> records)]).
Proof.
  unfold records_to_bigquery, import_bigquery.
  destruct (bigquery_installed E); [|done].
  by intros [= <-].
Qed.

Lemma chunk_step_inv chunk_size records l w records' w' :
  chunk_step E table_id dataset_id project_id chunk_size records l w
  = (Ok records', w') →
  heap w' = heap w
  ∧ ((records' = records ++ [l] ∧ trace w' = trace w
      ∧ len records + 1 < chunk_size)
     ∨ (records' = []
        ∧ trace w'
          = trace w ++ [EvLoadTable
                          (project_id +:+ "." +:+ dataset_id +:+ "."
                           +:+ table_id)
                          (deref w <$> records ++ [l]);
                        EvProgressUpdate chunk_size]
        ∧ chunk_size ≤ len records + 1)).
Proof.
  unfold chunk_step. rewrite len_snoc.
  destruct (Z.geb_spec (len records + 1) chunk_size).
  - intros Hrun.
    apply bind_inv in Hrun as ([] & w1 & Hload & Hrun).
    apply records_to_bigquery_inv in Hload as ->.
    injection Hrun as <- <-. split; [done|]. right. split; [done|].
    simpl. by rewrite <- app_assoc.
  - intros [= <- <-]. split; [done|]. by left.
Qed.

(** The chunking loop, when it returns: what was buffered and what the
    iterations have added is what has been uploaded and what is buffered
    now; no load call is empty. *)
Lemma for_items_chunk_uploads chunk_size ds band crs windows :
  ∀ records w records' w',
    Forall (λ l, (l < length (heap w))%nat) records →
    (∀ win arr, win ∈ windows → ds_read ds band win = Ok arr →
                wf_ndarray arr) →
    for_items (window_to_record E J ds band crs <$> windows)
      (chunk_step E table_id dataset_id project_id chunk_size) records w
    = (Ok records', w') →
    Forall (λ l, (l < length (heap w'))%nat) records'
    ∧ ∃ evs,
        trace w' = trace w ++ evs
        ∧ (deref w <$> records) ++ drop (length (heap w)) (heap w')
          = concat (uploads evs) ++ (deref w' <$> records')
        ∧ Forall (λ rows, rows ≠ []) (uploads evs).
Proof.
  induction windows as [|win windows IH];
    intros records w records' w' Hrecords Hwf Hrun.
  - injection Hrun as <- <-. split; [done|]. exists [].
    rewrite app_nil_r, drop_all, app_nil_r. by split; [|split; [|constructor]].
  - pose proof Hrun as Hall.
    apply for_items_windows_heap in Hall as (recs & Hheap' & _);
      [|done|by intros ????? [? _]%chunk_step_inv|done].
    cbn [fmap list_fmap for_items] in Hrun.
    apply bind_inv in Hrun as (l & w1 & Hitem & Hrun).
    apply bind_inv in Hrun as (records2 & w2 & Hstep & Hrun).
    destruct (no_upload_window_to_record E J ds band crs win w)
      as (evs1 & Htr1 & Hup1).
    rewrite Hitem in Htr1. simpl in Htr1.
    apply (window_to_record_run E J) in Hitem
      as (-> & arr & rec & d & Hread & Hrec & Hheap1 & Hagree).
    apply chunk_step_inv in Hstep as (Hheap2 & Hstep).
    assert (deref w1 <$> records ++ [length (heap w)]
            = (deref w <$> records) ++ [d]) as Hrows.
    { rewrite fmap_app. f_equal.
      - apply Forall_fmap_ext_1. eapply Forall_impl; [exact Hrecords|].
        intros l Hl. by apply (deref_app_l w w1 [d]).
      - simpl. f_equal. by apply (deref_app_new w w1 d []). }
    assert (length (heap w2) = S (length (heap w))) as Hlen2.
    { rewrite Hheap2, Hheap1, length_app. simpl. lia. }
    assert (drop (length (heap w)) (heap w')
            = d :: drop (length (heap w2)) (heap w')) as Hdrop.
    { pose proof Hrun as Hall.
      apply for_items_windows_heap in Hall as (recs2 & Hheap2' & _);
        [|done|by intros ????? [? _]%chunk_step_inv
         |intros win' arr' Hin; apply Hwf; by right].
      rewrite Hheap2', Hheap2, Hheap1, <- !app_assoc.
      rewrite drop_app_length. simpl. f_equal.
      rewrite (cons_middle d (heap w) recs2), app_assoc.
      by rewrite drop_app_length. }
    apply IH in Hrun as (Hrecords' & evs & Htr & Hrel & Hne).
    3: { intros win' arr' Hin. apply Hwf. by right. }
    2: { destruct Hstep as [(-> & _)|(-> & _)]; [|done].
         apply Forall_app. split.
         - eapply Forall_impl; [exact Hrecords|]. intros l Hl. simpl in Hl. lia.
         - constructor; [lia|done]. }
    split; [done|].
    destruct Hstep as [(-> & Htr2 & _)|(-> & Htr2 & _)].
    + exists (evs1 ++ evs). split; [|split].
      * by rewrite Htr, Htr2, Htr1, <- app_assoc.
      * rewrite uploads_app, Hup1. simpl. rewrite <- Hrel.
        rewrite Hdrop.
        assert (deref w2 <$> records ++ [length (heap w)]
                = deref w1 <$> records ++ [length (heap w)]) as ->.
        { apply list_fmap_ext. intros _ l _. unfold deref.
          by rewrite Hheap2. }
        rewrite Hrows, <- app_assoc. done.
      * by rewrite uploads_app, Hup1.
    + exists (evs1
              ++ [EvLoadTable
                    (project_id +:+ "." +:+ dataset_id +:+ "." +:+ table_id)
                    (deref w1 <$> records ++ [length (heap w)]);
                  EvProgressUpdate chunk_size]
              ++ evs).
      split; [|split].
      * rewrite Htr, Htr2, Htr1, <- !app_assoc. done.
      * rewrite !uploads_app, Hup1. simpl.
        rewrite <- app_assoc, <- Hrel. simpl.
        rewrite Hdrop, Hrows, <- app_assoc. done.
      * rewrite !uploads_app, Hup1. simpl. constructor; [|done].
        rewrite Hrows. by destruct (deref w <$> records).
Qed.

End Uploads.

Section EveryBlock.

Context (E : externals) (J : json_codec).

Hypothesis J_lawful : json_lawful J.

(** X14: a run of [rasterio_to_bigquery] that returns has uploaded every
    block of the raster exactly once and in the order of the block windows,
    with or without chunks and whatever the chunk size, zero and negative
    sizes included: the rows of the load calls, put end to end, are the
    records of the windows, each of which decodes to its block.  Without a
    chunk size there is exactly one load call, also for a raster with no
    block; with one, no load call is empty. *)
Theorem rasterio_to_bigquery_uploads_every_block file_path table_id
    dataset_id project_id band chunk_size input_crs w ds raster_crs b w' :
  rasterio_open E file_path = Ok ds →
  ds_crs ds = Ok raster_crs →
  reads_well_formed ds band →
  rasterio_to_bigquery E J file_path table_id dataset_id project_id band
    chunk_size input_crs w = (Ok b, w') →
  ∃ recs,
    heap w' = heap w ++ recs
    ∧ Forall2 (record_of_window J ds band
                 (effective_crs (crs_argument input_crs) raster_crs))
        (ds_block_windows ds) recs
    ∧ concat (uploads (new_events w w')) = recs
    ∧ match chunk_size with
      | None => uploads (new_events w w') = [recs]
      | Some _ => Forall (λ rows, rows ≠ []) (uploads (new_events w w'))
      end.
Proof.
  intros Hopen Hraster Hwf Hrun. unfold rasterio_to_bigquery in Hrun.
  apply bind_inv in Hrun as ([] & w1 & Hprint & Hrun).
  injection Hprint as <-.
  apply bind_inv in Hrun as ([] & w2 & Hmode & Hrun).
  apply bind_inv in Hrun as ([] & w3 & Hdone & Hrun).
  injection Hrun as <- <-. injection Hdone as <-.
  destruct chunk_size as [k|].
  - apply bind_inv in Hmode as (total & wa & Hblocks & Hmode).
    apply bind_inv in Hmode as ([] & wb & Htotal & Hmode).
    injection Htotal as <-.
    apply bind_inv in Hmode as (records & wc & Hloop & Hflush).
    destruct (rasterio_installed E) eqn:Hinst.
    2: { unfold get_number_of_blocks, import_rasterio in Hblocks.
         by rewrite Hinst in Hblocks. }
    rewrite (get_number_of_blocks_run E Hinst _ _ ds Hopen) in Hblocks.
    injection Hblocks as <- <-.
    unfold for_gen in Hloop.
    apply bind_inv in Hloop as (items & wd & Hgen & Hloop).
    apply (rasterio_windows_to_records_items _ _ _ _ _ _ ds raster_crs)
      in Hgen as (-> & Hheapd & evsd & Htrd & Hupd); [|done..].
    pose proof Hloop as Hall.
    apply (for_items_windows_heap E J J_lawful) in Hall
      as (recs & Hheap & Hall);
      [|by intros ????? [? _]%chunk_step_inv|done].
    apply (for_items_chunk_uploads E J _ _ _ J_lawful) in Hloop
      as (_ & evs & Htr & Hrel & Hne); [|done|done].
    simpl in Hrel. rewrite Hheap, drop_app_length in Hrel.
    simpl in Hheapd, Htrd. rewrite Hheapd in Hheap. rewrite Htrd in Htr.
    exists recs.
    destruct (len records >? 0) eqn:Hrest.
    + apply bind_inv in Hflush as ([] & we & Hload & Hflush).
      apply records_to_bigquery_inv in Hload as ->.
      injection Hflush as <-. simpl.
      split; [done|]. split; [done|].
      unfold new_events. simpl. rewrite Htr, <- !app_assoc.
      rewrite drop_app_length. simpl.
      rewrite !uploads_app, Hupd. simpl.
      split.
      * rewrite concat_app. simpl. by rewrite app_nil_r.
      * apply Forall_app. split; [done|].
        constructor; [|done]. intros Hnil.
        apply fmap_nil_inv in Hnil. by subst records.
    + injection Hflush as <-. simpl.
      split; [done|]. split; [done|].
      assert (records = []) as ->.
      { destruct records; [done|]. unfold len in Hrest. simpl in Hrest.
        rewrite Z.gtb_ltb in Hrest. apply Z.ltb_ge in Hrest. lia. }
      unfold new_events. simpl. rewrite Htr, <- !app_assoc.
      rewrite drop_app_length. simpl.
      rewrite !uploads_app, Hupd. simpl. rewrite app_nil_r.
      split; [|done]. simpl in Hrel. by rewrite app_nil_r in Hrel.
  - unfold records_to_bigquery in Hmode.
    apply bind_inv in Hmode as ([] & wa & Himport & Hmode).
    apply bind_inv in Hmode as (locs & wb & Hdrain & Hmode).
    assert (wa = mk_world (heap w)
                   (trace w ++ [EvPrint "Loading raster file to BigQuery..."]))
      as ->.
    { unfold import_bigquery in Himport.
      destruct (bigquery_installed E); [by injection Himport|done]. }
    apply (drain_rasterio_windows_to_records_run E J J_lawful _ _ _ _
             ds raster_crs) in Hdrain
      as (-> & (recs & Hheap & Hall) & evs & Htr & Hup); [|done..].
    simpl in Hheap, Htr.
    apply bind_inv in Hmode as (data_df & wc & Hdf & Hmode).
    injection Hdf as <- <-. injection Hmode as <-. simpl.
    exists recs. split; [done|]. split; [done|].
    unfold new_events. simpl. rewrite Htr, <- !app_assoc.
    rewrite drop_app_length. simpl.
    rewrite !uploads_app, Hup. simpl.
    rewrite (Forall2_length _ _ _ Hall).
    rewrite (deref_seq wb (heap w) recs []) by by rewrite app_nil_r.
    split; [|done]. simpl. by rewrite app_nil_r.
Qed.

End EveryBlock.

Lemma rasterio_to_bigquery_uploads_every_block_witness :
  let run :=
    rasterio_to_bigquery demo_externals ref_json "raster.tif" "table"
      "dataset" "project" 1 (Some 2) None empty_world in
  run.1 = Ok true
  ∧ ∃ recs,
      heap run.2 = heap empty_world ++ recs
      ∧ Forall2 (record_of_window ref_json demo_dataset 1 "EPSG:4326")
          (ds_block_windows demo_dataset) recs
      ∧ concat (uploads (new_events empty_world run.2)) = recs.
Proof.
  intros run.
  assert (run = (Ok true, run.2)) as Hrun by (vm_compute; reflexivity).
  split; [by rewrite Hrun|].
  destruct (rasterio_to_bigquery_uploads_every_block demo_externals ref_json
              ref_json_lawful "raster.tif" "table" "dataset" "project" 1
              (Some 2) None empty_world demo_dataset "EPSG:4326" true run.2
              eq_refl eq_refl (demo_dataset_reads_well_formed 1) Hrun)
    as (recs & Hheap & Hall & Hconcat & _).
  exists recs. split; [exact Hheap|]. split; [exact Hall|exact Hconcat].
Defined.

Lemma reproject_record_identity_witness :
  heap (reproject_record identity_externals 0%nat "EPSG:3857" "EPSG:4326"
          demo_world).2
  = heap demo_world.
Proof.
  apply (reproject_record_identity identity_externals 0%nat "EPSG:3857"
           "EPSG:4326" demo_world).
  intros tr x y. reflexivity.
Defined.

Lemma reproject_record_fails_early_witness :
  reproject_record offline_externals 0%nat "EPSG:3857" "EPSG:4326" demo_world
  = (Raise (ImportError "rasterio"), demo_world).
Proof.
  apply (reproject_record_fails_early offline_externals 0%nat "EPSG:3857"
           "EPSG:4326" demo_world).
  reflexivity.
Defined.

(** ** Missing libraries *)

Section MissingLibraries.

Context (E : externals) (J : json_codec).

(** X15: without the BigQuery library, [records_to_bigquery] raises before
    it takes a single record from the iterable it is given, so the run
    without chunks stops right after its first message: the raster file is
    not opened and no record is made. *)
Theorem records_to_bigquery_import_first (records : M (list nat))
    file_path table_id dataset_id project_id band input_crs w :
  bigquery_installed E = false →
  records_to_bigquery E records table_id dataset_id project_id w
  = (Raise (ImportError "google-cloud-bigquery"), w)
  ∧ rasterio_to_bigquery E J file_path table_id dataset_id project_id band
      None input_crs w
    = (Raise (ImportError "google-cloud-bigquery"),
       mk_world (heap w)
         (trace w ++ [EvPrint "Loading raster file to BigQuery..."])).
Proof.
  intros Hmissing.
  assert (∀ (records : M (list nat)) w,
            records_to_bigquery E records table_id dataset_id project_id w
            = (Raise (ImportError "google-cloud-bigquery"), w)) as Hfirst.
  { intros records' w0. unfold records_to_bigquery, import_bigquery.
    by rewrite Hmissing. }
  split; [apply Hfirst|].
  unfold rasterio_to_bigquery.
  erewrite bind_ok; [|reflexivity].
  erewrite bind_raise; [reflexivity|]. apply Hfirst.
Qed.

End MissingLibraries.

Lemma records_to_bigquery_import_first_witness :
  rasterio_to_bigquery offline_externals ref_json "raster.tif" "table"
    "dataset" "project" 1 None None empty_world
  = (Raise (ImportError "google-cloud-bigquery"),
     mk_world [] [EvPrint "Loading raster file to BigQuery..."]).
Proof.
  apply (records_to_bigquery_import_first offline_externals ref_json
           (mret []) "raster.tif" "table" "dataset" "project" 1 None
           empty_world eq_refl).
Defined.

(** ** What the iterations put on the trace *)

Global Instance only_projection_preorder : PreOrder only_projection.
Proof.
  split.
  - intros w. exists []. by rewrite app_nil_r.
  - intros w1 w2 w3 (evs1 & Htr1 & H1) (evs2 & Htr2 & H2).
    exists (evs1 ++ evs2). split.
    + by rewrite Htr2, Htr1, app_assoc.
    + by rewrite forallb_app, H1, H2.
Qed.

Lemma only_projection_emit ev :
  is_projection_call ev = true → respects only_projection (emit ev).
Proof. intros Hev w. exists [ev]. split; [done|]. simpl. by rewrite Hev. Qed.

Lemma only_projection_same_trace {A} (m : M A) :
  (∀ w, trace (m w).2 = trace w) → respects only_projection m.
Proof. intros Hm w. exists []. by rewrite Hm, app_nil_r. Qed.

Lemma only_projection_window_to_record E J ds band crs win :
  respects only_projection (window_to_record E J ds band crs win).
Proof.
  unfold window_to_record.
  apply respects_bind; [apply _|apply respects_lift; apply _|intros arr].
  apply respects_bind; [apply _|apply respects_lift; apply _|intros rec].
  apply respects_bind; [apply _|by apply only_projection_same_trace|intros l].
  destruct (negb _); [|apply respects_ret; apply _].
  unfold reproject_record.
  apply respects_bind; [apply _| |intros _].
  { intros w. rewrite import_rasterio_same_world. reflexivity. }
  apply respects_bind; [apply _|by apply only_projection_emit|intros _].
  apply respects_bind; [apply _|apply respects_lift; apply _|intros src].
  apply respects_bind; [apply _|by apply only_projection_emit|intros _].
  apply respects_bind; [apply _|apply respects_lift; apply _|intros dst].
  apply respects_bind; [apply _| |intros _; apply respects_ret; apply _].
  apply respects_for_each; [apply _|]. intros [lon_col lat_col] _.
  unfold reproject_corner.
  apply respects_bind; [apply _|apply respects_lift; apply _|intros tr].
  apply respects_bind;
    [apply _|apply respects_getitem_ref; apply _|intros lon].
  apply respects_bind;
    [apply _|apply respects_getitem_ref; apply _|intros lat].
  apply respects_bind; [apply _|by apply only_projection_emit|intros _].
  apply respects_bind; [apply _|apply respects_lift; apply _|intros [x y]].
  apply respects_bind; [apply _|by apply only_projection_same_trace|intros _].
  by apply only_projection_same_trace.
Qed.

Lemma projection_calls_silent evs :
  forallb is_projection_call evs = true →
  uploads evs = [] ∧ progress_updates evs = [] ∧ progress_totals evs = [].
Proof.
  induction evs as [|ev evs IH]; [done|]. simpl.
  intros [Hev Hevs]%andb_prop. destruct (IH Hevs) as (Hup & Hupd & Htot).
  unfold uploads, progress_updates, progress_totals in *.
  by destruct ev.
Qed.

Lemma progress_updates_app tr1 tr2 :
  progress_updates (tr1 ++ tr2) = progress_updates tr1 ++ progress_updates tr2.
Proof. apply omap_app. Qed.

Lemma progress_totals_app tr1 tr2 :
  progress_totals (tr1 ++ tr2) = progress_totals tr1 ++ progress_totals tr2.
Proof. apply omap_app. Qed.

Section Chunks.

Context (E : externals) (J : json_codec).
Context (table_id dataset_id project_id : string).

(** The chunking loop under a chunk size of one or less, when it returns:
    every record has been loaded alone. *)
Lemma for_items_chunk_singles chunk_size ds band crs windows :
  chunk_size ≤ 1 →
  ∀ w records' w',
    for_items (window_to_record E J ds band crs <$> windows)
      (chunk_step E table_id dataset_id project_id chunk_size) [] w
    = (Ok records', w') →
    records' = []
    ∧ ∃ recs evs,
        heap w' = heap w ++ recs
        ∧ length recs = length windows
        ∧ trace w' = trace w ++ evs
        ∧ uploads evs = (λ d, [d]) <$> recs
        ∧ progress_updates evs = replicate (length windows) chunk_size
        ∧ progress_totals evs = [].
Proof.
  intros Hk. induction windows as [|win windows IH]; intros w records' w' Hrun.
  - injection Hrun as <- <-. split; [done|]. exists [], [].
    by rewrite !app_nil_r.
  - cbn [fmap list_fmap for_items] in Hrun.
    apply bind_inv in Hrun as (l & w1 & Hitem & Hrun).
    apply bind_inv in Hrun as (records2 & w2 & Hstep & Hrun).
    destruct (only_projection_window_to_record E J ds band crs win w)
      as (evs1 & Htr1 & Hevs1).
    rewrite Hitem in Htr1. simpl in Htr1.
    apply projection_calls_silent in Hevs1 as (Hup1 & Hupd1 & Htot1).
    apply (window_to_record_run E J) in Hitem
      as (-> & arr & rec & d & Hread & Hrec & Hheap1 & Hagree).
    apply chunk_step_inv in Hstep
      as (Hheap2 & [(_ & _ & Hlt)|(-> & Htr2 & _)]).
    { change (len ([] : list nat)) with 0 in Hlt. lia. }
    apply IH in Hrun as (-> & recs & evs & Hheap & Hlen & Htr & Hup & Hupd
                         & Htot).
    split; [done|].
    exists (d :: recs),
      (evs1 ++ [EvLoadTable
                  (project_id +:+ "." +:+ dataset_id +:+ "." +:+ table_id)
                  [d];
                EvProgressUpdate chunk_size] ++ evs).
    split; [by rewrite Hheap, Hheap2, Hheap1, <- app_assoc|].
    split; [simpl; by rewrite Hlen|].
    split.
    { rewrite Htr, Htr2, Htr1. simpl.
      rewrite (deref_app_new w w1 d []) by done.
      by rewrite <- !app_assoc. }
    rewrite !uploads_app, !progress_updates_app, !progress_totals_app.
    rewrite Hup1, Hupd1, Htot1, Hup, Hupd, Htot. done.
Qed.

(** The chunking loop under a chunk size of at least one, when it returns:
    the progress made and the records still buffered add up to the records
    buffered at the start and the iterations run. *)
Lemma for_items_chunk_progress chunk_size ds band crs windows :
  1 ≤ chunk_size →
  ∀ records w records' w',
    len records < chunk_size →
    for_items (window_to_record E J ds band crs <$> windows)
      (chunk_step E table_id dataset_id project_id chunk_size) records w
    = (Ok records', w') →
    len records' < chunk_size
    ∧ ∃ evs,
        trace w' = trace w ++ evs
        ∧ sum_list (progress_updates evs) + len records'
          = len records + len windows
        ∧ progress_totals evs = [].
Proof.
  intros Hk. induction windows as [|win windows IH];
    intros records w records' w' Hlen Hrun.
  - injection Hrun as <- <-. split; [done|]. exists [].
    rewrite app_nil_r. split; [done|]. split; [|done].
    unfold len. simpl. lia.
  - cbn [fmap list_fmap for_items] in Hrun.
    apply bind_inv in Hrun as (l & w1 & Hitem & Hrun).
    apply bind_inv in Hrun as (records2 & w2 & Hstep & Hrun).
    destruct (only_projection_window_to_record E J ds band crs win w)
      as (evs1 & Htr1 & Hevs1).
    rewrite Hitem in Htr1. simpl in Htr1.
    apply projection_calls_silent in Hevs1 as (Hup1 & Hupd1 & Htot1).
    apply chunk_step_inv in Hstep
      as (Hheap2 & [(-> & Htr2 & Hlt)|(-> & Htr2 & Hge)]).
    + apply IH in Hrun as (Hlen' & evs & Htr & Hsum & Htot);
        [|rewrite len_snoc; lia].
      split; [done|]. exists (evs1 ++ evs).
      split; [by rewrite Htr, Htr2, Htr1, <- app_assoc|].
      rewrite progress_updates_app, progress_totals_app, Hupd1, Htot1.
      split; [|done]. simpl. rewrite len_snoc in Hsum.
      unfold len in *. simpl. lia.
    + apply IH in Hrun as (Hlen' & evs & Htr & Hsum & Htot);
        [|unfold len; simpl; lia].
      split; [done|].
      eexists (evs1 ++ [_; EvProgressUpdate chunk_size] ++ evs).
      split; [by rewrite Htr, Htr2, Htr1, <- !app_assoc|].
      rewrite !progress_updates_app, !progress_totals_app, Hupd1, Htot1.
      split; [|done]. simpl.
      unfold len in *. simpl in *. lia.
Qed.

End Chunks.

Section ChunkedRun.

Context (E : externals) (J : json_codec).

(** A started iteration has opened the file and, at most, printed a
    warning. *)
Lemma rasterio_windows_to_records_quiet file_path band input_crs w ds
    raster_crs items w1 :
  rasterio_open E file_path = Ok ds →
  ds_crs ds = Ok raster_crs →
  rasterio_windows_to_records E J file_path band input_crs w
  = (Ok items, w1) →
  items = (window_to_record E J ds band
             (effective_crs input_crs raster_crs) <$> ds_block_windows ds)
  ∧ heap w1 = heap w
  ∧ ∃ evs, trace w1 = trace w ++ evs
           ∧ uploads evs = [] ∧ progress_updates evs = []
           ∧ progress_totals evs = [].
Proof.
  intros Hopen Hraster. unfold rasterio_windows_to_records, import_rasterio.
  destruct (rasterio_installed E); [|done].
  unfold mbind, M_bind, mret, M_ret, emit, lift. simpl.
  rewrite Hopen, Hraster.
  destruct input_crs as [c|]; simpl.
  - destruct (negb (String.eqb c raster_crs)); simpl;
      destruct (String.eqb c EmptyString); try done;
      intros [= <- <-]; (split; [done|]); (split; [done|]).
    + eexists [_; _]. by rewrite <- app_assoc.
    + by eexists [_].
  - destruct (String.eqb raster_crs EmptyString); [done|].
    intros [= <- <-]. split; [done|]. split; [done|]. by eexists [_].
Qed.

(** A chunked run that returns, taken apart: the start, the loop and the
    last load. *)
Lemma rasterio_to_bigquery_chunked_inv file_path table_id dataset_id
    project_id band chunk_size input_crs w ds raster_crs b w' :
  rasterio_open E file_path = Ok ds →
  ds_crs ds = Ok raster_crs →
  rasterio_to_bigquery E J file_path table_id dataset_id project_id band
    (Some chunk_size) input_crs w = (Ok b, w') →
  ∃ evs_start w1 records w2,
    heap w1 = heap w
    ∧ trace w1
      = trace w ++ [EvPrint "Loading raster file to BigQuery...";
                    EvOpen file_path;
                    EvProgressTotal (len (ds_block_windows ds))]
        ++ evs_start
    ∧ uploads evs_start = [] ∧ progress_updates evs_start = []
    ∧ progress_totals evs_start = []
    ∧ for_items
        (window_to_record E J ds band
           (effective_crs (crs_argument input_crs) raster_crs)
           <$> ds_block_windows ds)
        (chunk_step E table_id dataset_id project_id chunk_size) [] w1
      = (Ok records, w2)
    ∧ heap w' = heap w2
    ∧ trace w'
      = trace w2
        ++ (if len records >? 0
            then [EvLoadTable
                    (project_id +:+ "." +:+ dataset_id +:+ "." +:+ table_id)
                    (deref w2 <$> records);
                  EvProgressUpdate (len records)]
            else [])
        ++ [EvPrint "Done."].
Proof.
  intros Hopen Hraster Hrun. unfold rasterio_to_bigquery in Hrun.
  apply bind_inv in Hrun as ([] & wp & Hprint & Hrun).
  injection Hprint as <-.
  apply bind_inv in Hrun as ([] & wm & Hmode & Hrun).
  apply bind_inv in Hrun as ([] & wz & Hdone & Hrun).
  injection Hrun as <- <-. injection Hdone as <-.
  apply bind_inv in Hmode as (total & wa & Hblocks & Hmode).
  apply bind_inv in Hmode as ([] & wb & Htotal & Hmode).
  injection Htotal as <-.
  apply bind_inv in Hmode as (records & wc & Hloop & Hflush).
  destruct (rasterio_installed E) eqn:Hinst.
  2: { unfold get_number_of_blocks, import_rasterio in Hblocks.
       by rewrite Hinst in Hblocks. }
  rewrite (get_number_of_blocks_run E Hinst _ _ ds Hopen) in Hblocks.
  injection Hblocks as <- <-.
  unfold for_gen in Hloop.
  apply bind_inv in Hloop as (items & wd & Hgen & Hloop).
  apply (rasterio_windows_to_records_quiet _ _ _ _ ds raster_crs) in Hgen
    as (-> & Hheapd & evsd & Htrd & Hupd & Hupdd & Htotd); [|done..].
  simpl in Hheapd, Htrd.
  exists evsd, wd, records, wc.
  split; [done|].
  split; [by rewrite Htrd, <- !app_assoc|].
  split; [done|]. split; [done|]. split; [done|]. split; [done|].
  destruct (len records >? 0).
  - apply bind_inv in Hflush as ([] & we & Hload & Hflush).
    apply records_to_bigquery_inv in Hload as ->.
    injection Hflush as <-. simpl. split; [done|].
    by rewrite <- !app_assoc.
  - injection Hflush as <-. done.
Qed.

(** X16: a chunk size of one or less, zero and negative sizes included,
    loads every record alone: a run that returns has made one load call per
    block, each with the single record of that block, in the order of the
    block windows, and has advanced the progress bar by the chunk size each
    time. *)
Theorem rasterio_to_bigquery_chunk_size_at_most_one file_path table_id
    dataset_id project_id band chunk_size input_crs w ds raster_crs b w' :
  chunk_size ≤ 1 →
  rasterio_open E file_path = Ok ds →
  ds_crs ds = Ok raster_crs →
  rasterio_to_bigquery E J file_path table_id dataset_id project_id band
    (Some chunk_size) input_crs w = (Ok b, w') →
  ∃ recs,
    heap w' = heap w ++ recs
    ∧ length recs = length (ds_block_windows ds)
    ∧ uploads (new_events w w') = (λ d, [d]) <$> recs
    ∧ progress_updates (new_events w w')
      = replicate (length (ds_block_windows ds)) chunk_size.
Proof.
  intros Hk Hopen Hraster Hrun.
  apply (rasterio_to_bigquery_chunked_inv _ _ _ _ _ _ _ _ ds raster_crs)
    in Hrun
    as (evs0 & w1 & records & w2 & Hheap1 & Htr1 & Hup0 & Hupd0 & _ & Hloop
        & Hheap' & Htr'); [|done..].
  apply (for_items_chunk_singles E J _ _ _ _ _ _ _ _ Hk) in Hloop
    as (-> & recs & evs & Hheap2 & Hlen & Htr2 & Hup & Hupd & _).
  exists recs. split; [by rewrite Hheap', Hheap2, Hheap1|].
  split; [done|].
  change (len ([] : list nat) >? 0) with false in Htr'.
  unfold new_events. rewrite Htr', Htr2, Htr1.
  rewrite <- !app_assoc, drop_app_length.
  rewrite !uploads_app, !progress_updates_app, Hup0, Hupd0, Hup, Hupd.
  simpl. by rewrite !app_nil_r.
Qed.

(** X17: with a chunk size of at least one, a run that returns has set the
    progress bar once, to the number of blocks of the raster, and its
    updates add up to exactly that number: the bar ends full, whether or
    not the chunk size divides the number of blocks. *)
Theorem rasterio_to_bigquery_progress file_path table_id dataset_id
    project_id band chunk_size input_crs w ds raster_crs b w' :
  1 ≤ chunk_size →
  rasterio_open E file_path = Ok ds →
  ds_crs ds = Ok raster_crs →
  rasterio_to_bigquery E J file_path table_id dataset_id project_id band
    (Some chunk_size) input_crs w = (Ok b, w') →
  progress_totals (new_events w w') = [len (ds_block_windows ds)]
  ∧ sum_list (progress_updates (new_events w w'))
    = len (ds_block_windows ds).
Proof.
  intros Hk Hopen Hraster Hrun.
  apply (rasterio_to_bigquery_chunked_inv _ _ _ _ _ _ _ _ ds raster_crs)
    in Hrun
    as (evs0 & w1 & records & w2 & Hheap1 & Htr1 & _ & Hupd0 & Htot0 & Hloop
        & Hheap' & Htr'); [|done..].
  apply (for_items_chunk_progress E J _ _ _ _ _ _ _ _ Hk) in Hloop
    as (Hlen & evs & Htr2 & Hsum & Htot); [|unfold len; simpl; lia].
  change (len ([] : list nat)) with 0 in Hsum.
  unfold new_events. rewrite Htr', Htr2, Htr1.
  rewrite <- !app_assoc, drop_app_length.
  rewrite !progress_totals_app, !progress_updates_app.
  rewrite Hupd0, Htot0, Htot. simpl.
  destruct (Z.gtb_spec (len records) 0) as [Hpos|Hzero]; simpl.
  - split; [done|]. rewrite ?app_nil_r.
    assert (∀ l n, sum_list (l ++ [n]) = sum_list l + n) as Hsnoc.
    { induction l as [|x l IHl]; intros n; simpl; [lia|].
      rewrite IHl. lia. }
    rewrite Hsnoc. lia.
  - split; [done|]. rewrite ?app_nil_r.
    pose proof (len_nonneg records). lia.
Qed.

End ChunkedRun.

Lemma rasterio_to_bigquery_chunk_size_at_most_one_witness :
  let run :=
    rasterio_to_bigquery demo_externals ref_json "raster.tif" "table"
      "dataset" "project" 1 (Some 0) None empty_world in
  run.1 = Ok true
  ∧ ∃ recs,
      heap run.2 = heap empty_world ++ recs
      ∧ length recs = 5%nat
      ∧ uploads (new_events empty_world run.2) = (λ d, [d]) <$> recs
      ∧ progress_updates (new_events empty_world run.2) = [0; 0; 0; 0; 0].
Proof.
  intros run.
  assert (run = (Ok true, run.2)) as Hrun by (vm_compute; reflexivity).
  split; [by rewrite Hrun|].
  exact (rasterio_to_bigquery_chunk_size_at_most_one demo_externals ref_json
           "raster.tif" "table" "dataset" "project" 1 0 None empty_world
           demo_dataset "EPSG:4326" true run.2 ltac:(lia) eq_refl eq_refl
           Hrun).
Defined.

Lemma rasterio_to_bigquery_progress_witness :
  let run :=
    rasterio_to_bigquery demo_externals ref_json "raster.tif" "table"
      "dataset" "project" 1 (Some 2) None empty_world in
  run.1 = Ok true
  ∧ progress_totals (new_events empty_world run.2) = [5]
  ∧ sum_list (progress_updates (new_events empty_world run.2)) = 5.
Proof.
  intros run.
  assert (run = (Ok true, run.2)) as Hrun by (vm_compute; reflexivity).
  split; [by rewrite Hrun|].
  exact (rasterio_to_bigquery_progress demo_externals ref_json
           "raster.tif" "table" "dataset" "project" 1 2 None empty_world
           demo_dataset "EPSG:4326" true run.2 ltac:(lia) eq_refl eq_refl
           Hrun).
Defined.
